(** * Post-build validation of a package tree (toolsrc/src/vcpkg/postbuildlint.cpp)

    A shallow embedding of the translation unit [postbuildlint.cpp]: every
    check of namespace [vcpkg::PostBuildLint] and the orchestrator
    [perform_all_checks], followed by the properties of the validation
    engine.

    Effects.  A check prints diagnostics, may run [dumpbin] as a subprocess
    and may terminate the process through [Checks::check_exit].  These are
    kept in a writer/error monad [M]: a computation yields the sequence of
    events it emitted and either a value or a fatal exit.

    Collaborators.  The headers the file includes ([files.h], [system.h],
    [util.h], [build.h], [cofffilereader.h], [vcpkgpaths.h], ...) are taken
    through the record [World], one field for each function the file calls. *)

From Stdlib Require Import String Ascii List ZArith NArith Bool Lia Permutation.
From Stdlib Require Import DecimalString DecimalN.
Import ListNotations.
Local Open Scope string_scope.
Local Open Scope list_scope.
Local Open Scope Z_scope.

Set Implicit Arguments.

(* ===================================================================== *)
(** * Strings *)
(* ===================================================================== *)

Infix "+++" := String.append (at level 60, right associativity).

(** The line feed of the C++ literals, and the double quote of the raw
    string literals that build a command line. *)
Definition nl : string := String "010"%char EmptyString.
Definition dq : string := String "034"%char EmptyString.

(** [s.find(needle) != std::string::npos] *)
Fixpoint contains (needle s : string) : bool :=
  if prefix needle s then true
  else match s with
       | EmptyString => false
       | String _ rest => contains needle rest
       end.

(** [s.erase(0, n)] : the string without its first [n] characters. *)
Fixpoint erase_front (n : nat) (s : string) : string :=
  match n, s with
  | O, _ => s
  | S k, EmptyString => EmptyString
  | S k, String _ rest => erase_front k rest
  end.

(** [std::to_string] on an unsigned value. *)
Definition to_string (n : Z) : string :=
  NilEmpty.string_of_uint (N.to_uint (Z.to_N n)).

(** [std::string::empty] *)
Definition empty (s : string) : bool :=
  match s with EmptyString => true | _ => false end.

(* ===================================================================== *)
(** * Paths *)
(* ===================================================================== *)

(** An [fs::path] is represented by its generic UTF-8 string, so that
    [u8string()], [generic_string()] and [string()] are the identity. *)
Definition path := string.

(** [operator/] *)
Definition path_append (p q : path) : path := p +++ "/" +++ q.
Infix "//" := path_append (at level 40, left associativity).

(* ===================================================================== *)
(** * Data model *)
(* ===================================================================== *)

(** [enum class LintStatus { SUCCESS = 0, ERROR_DETECTED = 1 }] *)
Inductive LintStatus := SUCCESS | ERROR_DETECTED.

Definition LintStatus_eq_dec (a b : LintStatus) : {a = b} + {a <> b}.
Proof. decide equality. Defined.

(** [size_t] is a 64-bit unsigned integer. *)
Definition size_t := Z.
Definition SIZE_MAX_plus_1 : Z := 2 ^ 64.

(** [static_cast<size_t>(status)] *)
Definition static_cast_size_t (s : LintStatus) : size_t :=
  match s with SUCCESS => 0 | ERROR_DETECTED => 1 end.

(** [static void operator+=(size_t& left, const LintStatus& right)] *)
Definition operator_plus_eq (left : size_t) (right : LintStatus) : size_t :=
  (left + static_cast_size_t right) mod SIZE_MAX_plus_1.

(** A [std::regex]: its source text and whether it was built with
    [std::regex_constants::icase]. *)
Record regex := { regex_source : string; regex_icase : bool }.

(** [struct OutdatedDynamicCrt], with its constructor. *)
Record OutdatedDynamicCrt := { name : string; crt_regex_of : regex }.

Definition mk_OutdatedDynamicCrt (name regex_as_string : string)
  : OutdatedDynamicCrt :=
  {| name := name;
     crt_regex_of := {| regex_source := regex_as_string; regex_icase := true |} |}.

(** [Build::BuildPolicy], the policies this file consults. *)
Inductive BuildPolicy :=
| EMPTY_PACKAGE
| DLLS_WITHOUT_LIBS
| ONLY_RELEASE_CRT
| EMPTY_INCLUDE_FOLDER
| ALLOW_OBSOLETE_MSVCRT.

Definition BuildPolicy_eq_dec (a b : BuildPolicy) : {a = b} + {a <> b}.
Proof. decide equality. Defined.

(** Modelled from the spec: [Build::BuildPolicies] (declared in [build.h]).
    The registry is a mapping from policy to boolean, and a policy the build
    recipe did not set is disabled. *)
Record BuildPolicies := { m_policies : list (BuildPolicy * bool) }.

Fixpoint lookup_policy (p : BuildPolicy) (l : list (BuildPolicy * bool)) : bool :=
  match l with
  | [] => false
  | (q, b) :: rest => if BuildPolicy_eq_dec p q then b else lookup_policy p rest
  end.

Definition is_enabled (policies : BuildPolicies) (p : BuildPolicy) : bool :=
  lookup_policy p (m_policies policies).

(** [Build::LinkageType].  The enumerators are [DYNAMIC] and [STATIC];
    [LINKAGE_OTHER] stands for any other value of the underlying type, which
    is what the [default:] branch of a switch over the enumeration receives. *)
Inductive LinkageType := DYNAMIC | STATIC | LINKAGE_OTHER.

(** [Build::ConfigurationType] *)
Inductive ConfigurationType := DEBUG | RELEASE.

(** Modelled from the spec: [BuildType] (declared in
    [postbuildlint.buildtype.h]), a configuration and CRT-linkage pair; the
    set [BuildTypeC::VALUES] is fixed and closed. *)
Record BuildType := { config : ConfigurationType; linkage : LinkageType }.

Definition value_of (c : ConfigurationType) (l : LinkageType) : BuildType :=
  {| config := c; linkage := l |}.

Definition BuildType_eq_dec (a b : BuildType) : {a = b} + {a <> b}.
Proof. repeat decide equality. Defined.

Definition DEBUG_STATIC := value_of DEBUG STATIC.
Definition DEBUG_DYNAMIC := value_of DEBUG DYNAMIC.
Definition RELEASE_STATIC := value_of RELEASE STATIC.
Definition RELEASE_DYNAMIC := value_of RELEASE DYNAMIC.

Definition VALUES : list BuildType :=
  [DEBUG_STATIC; DEBUG_DYNAMIC; RELEASE_STATIC; RELEASE_DYNAMIC].

(** [CoffFileReader::MachineType]: the machine types the file names, and
    any other 16-bit code. *)
Inductive MachineType :=
| AMD64 | IA64 | I386 | ARM | ARMNT | ARM64
| MACHINE_OTHER (code : Z).

Record DllInfo := { machine_type : MachineType }.
Record LibInfo := { machine_types : list MachineType }.

(** [System::ExitCodeAndOutput] *)
Record ExitCodeAndOutput := { exit_code : Z; output : string }.

(** [PackageSpec]: [name()] and [dir()]. *)
Record PackageSpec := { spec_name : string; spec_dir : string }.

(** [Build::PreBuildInfo] *)
Record PreBuildInfo := {
  target_architecture : string;
  cmake_system_name : string;
  platform_toolset : option string;
  build_type : option ConfigurationType
}.

(** [Build::BuildInfo] *)
Record BuildInfo := {
  crt_linkage : LinkageType;
  library_linkage : LinkageType;
  policies : BuildPolicies
}.

(** [Toolset]: only [dumpbin] is read here. *)
Record Toolset := { dumpbin : path }.

(** [VcpkgPaths] *)
Record VcpkgPaths := {
  packages : path;
  buildtrees : path;
  ports : path;
  package_dir : PackageSpec -> path;
  get_toolset : PreBuildInfo -> Toolset
}.

(** [struct FileAndArch] *)
Record FileAndArch := { file : path; actual_arch : string }.

(** [struct BuildTypeAndFile] *)
Record BuildTypeAndFile := { btf_file : path; btf_build_type : BuildType }.

(** [struct OutdatedDynamicCrtAndFile] *)
Record OutdatedDynamicCrtAndFile :=
  { odc_file : path; outdated_crt : OutdatedDynamicCrt }.

(* ===================================================================== *)
(** * Events and the monad of checks *)
(* ===================================================================== *)

(** [System::Color]; [plain] is a [println] without a colour. *)
Inductive Color := plain | warning | error.

(** An argument handed to a printf-style format. *)
Inductive FormatArg := ArgString (s : string) | ArgSize (n : size_t).

(** What a run does to the outside: a line printed with
    [System::println] (format and arguments as given), a list of paths
    printed with [Files::print_paths], a command line run with
    [System::cmd_execute_and_capture_output]. *)
Inductive Event :=
| Println (c : Color) (fmt : string) (args : list FormatArg)
| PrintPaths (paths : list path)
| CmdExecute (cmd_line : string).

(** A computation either returns or ends the process
    ([Checks::check_exit], [Checks::unreachable]) with a message. *)
Inductive Result (A : Type) :=
| Done (a : A)
| Exit (fmt : string) (args : list FormatArg).
Arguments Exit {A} fmt args.

Definition M (A : Type) : Type := list Event * Result A.

Definition ret {A} (a : A) : M A := ([], Done a).

Definition bind {A B} (m : M A) (f : A -> M B) : M B :=
  match m with
  | (t, Done a) => let (t', r) := f a in (t ++ t', r)
  | (t, Exit fmt args) => (t, Exit fmt args)
  end.

Declare Scope monad_scope.
Delimit Scope monad_scope with monad.
Notation "x <- c1 ;; c2" := (bind c1 (fun x => c2))
  (at level 61, c1 at next level, right associativity) : monad_scope.
Notation "c1 ;; c2" := (bind c1 (fun _ => c2))
  (at level 61, right associativity) : monad_scope.
Local Open Scope monad_scope.

Definition trace {A} (m : M A) : list Event := fst m.
Definition result {A} (m : M A) : Result A := snd m.

Definition println (c : Color) (fmt : string) (args : list FormatArg) : M unit :=
  ([Println c fmt args], Done tt).

Definition print_paths (ps : list path) : M unit :=
  ([PrintPaths ps], Done tt).

(** [Checks::check_exit(VCPKG_LINE_INFO, cond, fmt, args...)] *)
Definition check_exit (cond : bool) (fmt : string) (args : list FormatArg) : M unit :=
  if cond then ret tt else ([], Exit fmt args).

(** [Checks::unreachable(VCPKG_LINE_INFO)] *)
Definition unreachable {A} : M A := ([], Exit "unreachable" []).

(** A range-based [for] whose body updates the locals [S]. *)
Fixpoint for_each {A S} (l : list A) (body : A -> S -> M S) (s : S) : M S :=
  match l with
  | [] => ret s
  | a :: rest => s' <- body a s ;; for_each rest body s'
  end.

(** A range-based [for] whose body may [return] from the enclosing
    function. *)
Inductive LoopStep (S R : Type) := Continue (s : S) | Return (r : R).
Arguments Continue {S R} s.
Arguments Return {S R} r.

Fixpoint for_each_ret {A S R} (l : list A) (body : A -> S -> M (LoopStep S R))
         (s : S) : M (LoopStep S R) :=
  match l with
  | [] => ret (Continue s)
  | a :: rest =>
      step <- body a s ;;
      match step with
      | Continue s' => for_each_ret rest body s'
      | Return r => ret (Return r)
      end
  end.

(* ===================================================================== *)
(** * The collaborators *)
(* ===================================================================== *)

(** Everything the file takes from headers that are not part of it, from
    the preprocessor and from the machine it runs on. *)
Record World := {
  (** whether [_WIN32] is defined *)
  WIN32 : bool;
  (** [fs::path::extension], [fs::path::filename] *)
  extension : path -> string;
  filename : path -> path;
  (** [Files::Filesystem] *)
  fs_exists : path -> bool;
  fs_is_directory : path -> bool;
  fs_is_empty : path -> bool;
  get_files_recursive : path -> list path;
  get_files_non_recursive : path -> list path;
  (** [Util::unstable_keep_if] *)
  unstable_keep_if : (path -> bool) -> list path -> list path;
  (** [Strings::format], [Strings::case_insensitive_ascii_equals] *)
  Strings_format : string -> list FormatArg -> string;
  case_insensitive_ascii_equals : string -> string -> bool;
  (** [std::regex_search] over the whole of a string *)
  regex_search : string -> regex -> bool;
  (** the subprocess behind [System::cmd_execute_and_capture_output] *)
  run_process : string -> ExitCodeAndOutput;
  (** [CoffFileReader::read_dll], [CoffFileReader::read_lib] *)
  read_dll : path -> DllInfo;
  read_lib : path -> LibInfo;
  (** [BuildType::crt_regex], [BuildType::to_string] *)
  crt_regex : BuildType -> regex;
  BuildType_to_string : BuildType -> string;
  (** [Build::to_cmake_variable] *)
  to_cmake_variable : BuildPolicy -> string
}.

(** What the file relies on of [Util::unstable_keep_if]: it keeps exactly
    the elements that satisfy the predicate, in an unspecified order. *)
Definition keep_if_spec (w : World) : Prop :=
  forall (pred : path -> bool) (l : list path),
    Permutation (unstable_keep_if w pred l) (filter pred l).

(** [System::cmd_execute_and_capture_output] *)
Definition cmd_execute_and_capture_output (w : World) (cmd_line : string)
  : M ExitCodeAndOutput :=
  ([CmdExecute cmd_line], Done (run_process w cmd_line)).

(* ===================================================================== *)
(** * The checks *)
(* ===================================================================== *)

(** [has_extension_pred] *)
Definition has_extension_pred (w : World) (ext : string) : path -> bool :=
  fun p => negb (fs_is_directory w p) && String.eqb (extension w p) ext.

Definition V_NO_120 : list OutdatedDynamicCrt := [
  mk_OutdatedDynamicCrt "msvcp100.dll" "msvcp100\.dll";
  mk_OutdatedDynamicCrt "msvcp100d.dll" "msvcp100d\.dll";
  mk_OutdatedDynamicCrt "msvcp110.dll" "msvcp110\.dll";
  mk_OutdatedDynamicCrt "msvcp110_win.dll" "msvcp110_win\.dll";
  mk_OutdatedDynamicCrt "msvcp60.dll" "msvcp60\.dll";
  mk_OutdatedDynamicCrt "msvcp60.dll" "msvcp60\.dll";

  mk_OutdatedDynamicCrt "msvcrt.dll" "msvcrt\.dll";
  mk_OutdatedDynamicCrt "msvcr100.dll" "msvcr100\.dll";
  mk_OutdatedDynamicCrt "msvcr100d.dll" "msvcr100d\.dll";
  mk_OutdatedDynamicCrt "msvcr100_clr0400.dll" "msvcr100_clr0400\.dll";
  mk_OutdatedDynamicCrt "msvcr110.dll" "msvcr110\.dll";
  mk_OutdatedDynamicCrt "msvcrt20.dll" "msvcrt20\.dll";
  mk_OutdatedDynamicCrt "msvcrt40.dll" "msvcrt40\.dll"
].

Definition V_NO_MSVCRT : list OutdatedDynamicCrt :=
  let ret := V_NO_120 in
  let ret := ret ++ [mk_OutdatedDynamicCrt "msvcp120.dll" "msvcp120\.dll"] in
  let ret := ret ++ [mk_OutdatedDynamicCrt "msvcp120_clr0400.dll" "msvcp120_clr0400\.dll"] in
  let ret := ret ++ [mk_OutdatedDynamicCrt "msvcr120.dll" "msvcr120\.dll"] in
  let ret := ret ++ [mk_OutdatedDynamicCrt "msvcr120_clr0400.dll" "msvcr120_clr0400\.dll"] in
  ret.

Definition get_outdated_dynamic_crts (toolset_version : option string)
  : list OutdatedDynamicCrt :=
  match toolset_version with
  | Some tsv => if String.eqb tsv "v120" then V_NO_120 else V_NO_MSVCRT
  | None => V_NO_MSVCRT
  end.

(** [std::vector::empty], [std::vector::size], [std::vector::at]. *)
Definition vempty {A} (l : list A) : bool :=
  match l with [] => true | _ => false end.

Definition size {A} (l : list A) : size_t := Z.of_nat (length l).

Definition vector_at {A} (l : list A) (i : nat) : M A :=
  match nth_error l i with
  | Some a => ret a
  | None => ([], Exit "std::out_of_range" [])
  end.

Definition check_for_files_in_include_directory (w : World)
    (policies : BuildPolicies) (package_dir : path) : M LintStatus :=
  if is_enabled policies EMPTY_INCLUDE_FOLDER then ret SUCCESS
  else
    let include_dir := package_dir // "include" in
    if negb (fs_exists w include_dir) || fs_is_empty w include_dir then
      println warning
        "The folder /include is empty or not present. This indicates the library was not correctly installed."
        [] ;;
      ret ERROR_DETECTED
    else ret SUCCESS.

Definition check_for_files_in_debug_include_directory (w : World)
    (package_dir : path) : M LintStatus :=
  let debug_include_dir := package_dir // "debug" // "include" in
  let files_found := get_files_recursive w debug_include_dir in
  let files_found :=
    unstable_keep_if w
      (fun path => negb (fs_is_directory w path)
                   && negb (String.eqb (extension w path) ".ifc"))
      files_found in
  if negb (vempty files_found) then
    println warning
      ("Include files should not be duplicated into the /debug/include directory. If this cannot "
       +++ "be disabled in the project cmake, use" +++ nl
       +++ "    file(REMOVE_RECURSE ${CURRENT_PACKAGES_DIR}/debug/include)")
      [] ;;
    ret ERROR_DETECTED
  else ret SUCCESS.

Definition check_for_files_in_debug_share_directory (w : World)
    (package_dir : path) : M LintStatus :=
  let debug_share := package_dir // "debug" // "share" in
  if fs_exists w debug_share then
    println warning
      ("/debug/share should not exist. Please reorganize any important files, then use" +++ nl
       +++ "    file(REMOVE_RECURSE ${CURRENT_PACKAGES_DIR}/debug/share)")
      [] ;;
    ret ERROR_DETECTED
  else ret SUCCESS.

Definition check_folder_lib_cmake (w : World) (package_dir : path)
    (spec : PackageSpec) : M LintStatus :=
  let lib_cmake := package_dir // "lib" // "cmake" in
  if fs_exists w lib_cmake then
    println warning
      "The /lib/cmake folder should be merged with /debug/lib/cmake and moved to /share/%s/cmake."
      [ArgString (spec_name spec)] ;;
    ret ERROR_DETECTED
  else ret SUCCESS.

Definition check_for_misplaced_cmake_files (w : World) (package_dir : path)
    (spec : PackageSpec) : M LintStatus :=
  let dirs := [
    package_dir // "cmake";
    package_dir // "debug" // "cmake";
    package_dir // "lib" // "cmake";
    package_dir // "debug" // "lib" // "cmake"
  ] in
  let misplaced_cmake_files :=
    fold_left
      (fun misplaced_cmake_files dir =>
         let files := get_files_recursive w dir in
         fold_left
           (fun misplaced_cmake_files file =>
              if negb (fs_is_directory w file) && String.eqb (extension w file) ".cmake"
              then misplaced_cmake_files ++ [file]
              else misplaced_cmake_files)
           files misplaced_cmake_files)
      dirs [] in
  if negb (vempty misplaced_cmake_files) then
    println warning
      "The following cmake files were found outside /share/%s. Please place cmake files in /share/%s."
      [ArgString (spec_name spec); ArgString (spec_name spec)] ;;
    print_paths misplaced_cmake_files ;;
    ret ERROR_DETECTED
  else ret SUCCESS.

Definition check_folder_debug_lib_cmake (w : World) (package_dir : path)
    (spec : PackageSpec) : M LintStatus :=
  let lib_cmake_debug := package_dir // "debug" // "lib" // "cmake" in
  if fs_exists w lib_cmake_debug then
    println warning
      "The /debug/lib/cmake folder should be merged with /lib/cmake into /share/%s"
      [ArgString (spec_name spec)] ;;
    ret ERROR_DETECTED
  else ret SUCCESS.

Definition check_for_dlls_in_lib_dir (w : World) (package_dir : path)
  : M LintStatus :=
  let dlls := get_files_recursive w (package_dir // "lib") in
  let dlls := unstable_keep_if w (has_extension_pred w ".dll") dlls in
  if negb (vempty dlls) then
    println warning
      (nl +++ "The following dlls were found in /lib or /debug/lib. Please move them to /bin or "
       +++ "/debug/bin, respectively.")
      [] ;;
    print_paths dlls ;;
    ret ERROR_DETECTED
  else ret SUCCESS.

Definition check_for_copyright_file (w : World) (spec : PackageSpec)
    (paths : VcpkgPaths) : M LintStatus :=
  let packages_dir := packages paths // spec_dir spec in
  let copyright_file := packages_dir // "share" // spec_name spec // "copyright" in
  if fs_exists w copyright_file then ret SUCCESS
  else
    let current_buildtrees_dir := buildtrees paths // spec_name spec in
    let current_buildtrees_dir_src := current_buildtrees_dir // "src" in
    (* We only search in the root of each unpacked source archive to reduce
       false positives *)
    let src_dirs := get_files_non_recursive w current_buildtrees_dir_src in
    let potential_copyright_files :=
      fold_left
        (fun potential_copyright_files src_dir =>
           if negb (fs_is_directory w src_dir) then potential_copyright_files
           else
             fold_left
               (fun potential_copyright_files src_file =>
                  let filename := filename w src_file in
                  if String.eqb filename "LICENSE"
                     || String.eqb filename "LICENSE.txt"
                     || String.eqb filename "COPYING"
                  then potential_copyright_files ++ [src_file]
                  else potential_copyright_files)
               (get_files_non_recursive w src_dir) potential_copyright_files)
        src_dirs [] in
    println warning
      "The software license must be available at ${CURRENT_PACKAGES_DIR}/share/%s/copyright"
      [ArgString (spec_name spec)] ;;
    (if size potential_copyright_files =? 1 then
       (* if there is only one candidate, provide the cmake lines needed to
          place it in the proper location *)
       found_file <- vector_at potential_copyright_files 0 ;;
       let relative_path :=
         erase_front (String.length current_buildtrees_dir + 1) found_file in
       println plain
         (nl +++ "    file(COPY ${CURRENT_BUILDTREES_DIR}/%s DESTINATION ${CURRENT_PACKAGES_DIR}/share/%s)" +++ nl
          +++ "    file(RENAME ${CURRENT_PACKAGES_DIR}/share/%s/%s ${CURRENT_PACKAGES_DIR}/share/%s/copyright)")
         [ArgString relative_path; ArgString (spec_name spec);
          ArgString (spec_name spec); ArgString (filename w found_file);
          ArgString (spec_name spec)]
     else if size potential_copyright_files >? 1 then
       println warning "The following files are potential copyright files:" [] ;;
       print_paths potential_copyright_files
     else ret tt) ;;
    ret ERROR_DETECTED.

Definition check_for_exes (w : World) (package_dir : path) : M LintStatus :=
  let exes := get_files_recursive w (package_dir // "bin") in
  let exes := unstable_keep_if w (has_extension_pred w ".exe") exes in
  if negb (vempty exes) then
    println warning
      "The following EXEs were found in /bin or /debug/bin. EXEs are not valid distribution targets."
      [] ;;
    print_paths exes ;;
    ret ERROR_DETECTED
  else ret SUCCESS.

Definition running_command_failed : string :=
  "Running command:" +++ nl +++ "   %s" +++ nl +++ " failed".

Definition check_exports_of_dlls (w : World) (dlls : list path)
    (dumpbin_exe : path) : M LintStatus :=
  dlls_with_no_exports <-
    for_each dlls
      (fun dll dlls_with_no_exports =>
         let cmd_line :=
           Strings_format w
             (dq +++ "%s" +++ dq +++ " /exports " +++ dq +++ "%s" +++ dq)
             [ArgString dumpbin_exe; ArgString dll] in
         ec_data <- cmd_execute_and_capture_output w cmd_line ;;
         check_exit (exit_code ec_data =? 0) running_command_failed
                    [ArgString cmd_line] ;;
         if negb (contains "ordinal hint RVA      name" (output ec_data))
         then ret (dlls_with_no_exports ++ [dll])
         else ret dlls_with_no_exports)
      [] ;;
  if negb (vempty dlls_with_no_exports) then
    println warning "The following DLLs have no exports:" [] ;;
    print_paths dlls_with_no_exports ;;
    println warning "DLLs without any exports are likely a bug in the build script." [] ;;
    ret ERROR_DETECTED
  else ret SUCCESS.

Definition check_uwp_bit_of_dlls (w : World) (expected_system_name : string)
    (dlls : list path) (dumpbin_exe : path) : M LintStatus :=
  if negb (String.eqb expected_system_name "WindowsStore") then ret SUCCESS
  else
    dlls_with_improper_uwp_bit <-
      for_each dlls
        (fun dll dlls_with_improper_uwp_bit =>
           let cmd_line :=
             Strings_format w
               (dq +++ "%s" +++ dq +++ " /headers " +++ dq +++ "%s" +++ dq)
               [ArgString dumpbin_exe; ArgString dll] in
           ec_data <- cmd_execute_and_capture_output w cmd_line ;;
           check_exit (exit_code ec_data =? 0) running_command_failed
                      [ArgString cmd_line] ;;
           if negb (contains "App Container" (output ec_data))
           then ret (dlls_with_improper_uwp_bit ++ [dll])
           else ret dlls_with_improper_uwp_bit)
        [] ;;
    if negb (vempty dlls_with_improper_uwp_bit) then
      println warning "The following DLLs do not have the App Container bit set:" [] ;;
      print_paths dlls_with_improper_uwp_bit ;;
      println warning "This bit is required for Windows Store apps." [] ;;
      ret ERROR_DETECTED
    else ret SUCCESS.

(** Defined under [#if defined(_WIN32)]. *)
Definition get_actual_architecture (machine_type : MachineType) : string :=
  match machine_type with
  | AMD64 | IA64 => "x64"
  | I386 => "x86"
  | ARM | ARMNT => "arm"
  | ARM64 => "arm64"
  | MACHINE_OTHER code => "Machine Type Code = " +++ to_string (code mod 2 ^ 16)
  end.

(** Defined under [#if defined(_WIN32)]. *)
Definition print_invalid_architecture_files (expected_architecture : string)
    (binaries_with_invalid_architecture : list FileAndArch) : M unit :=
  println warning "The following files were built for an incorrect architecture:" [] ;;
  println plain EmptyString [] ;;
  for_each binaries_with_invalid_architecture
    (fun b _ =>
       println plain "    %s" [ArgString (file b)] ;;
       println plain "Expected %s, but was: %s"
               [ArgString expected_architecture; ArgString (actual_arch b)] ;;
       println plain EmptyString [])
    tt.

(** Defined under [#if defined(_WIN32)]. *)
Definition check_dll_architecture (w : World) (expected_architecture : string)
    (files : list path) : M LintStatus :=
  binaries_with_invalid_architecture <-
    for_each files
      (fun file binaries_with_invalid_architecture =>
         check_exit (String.eqb (extension w file) ".dll")
                    "The file extension was not .dll: %s" [ArgString file] ;;
         let info := read_dll w file in
         let actual_architecture := get_actual_architecture (machine_type info) in
         if negb (String.eqb expected_architecture actual_architecture)
         then ret (binaries_with_invalid_architecture
                     ++ [{| file := file; actual_arch := actual_architecture |}])
         else ret binaries_with_invalid_architecture)
      [] ;;
  if negb (vempty binaries_with_invalid_architecture) then
    print_invalid_architecture_files expected_architecture
                                     binaries_with_invalid_architecture ;;
    ret ERROR_DETECTED
  else ret SUCCESS.

Definition check_lib_architecture (w : World) (expected_architecture : string)
    (files : list path) : M LintStatus :=
  if WIN32 w then
    step <-
      for_each_ret files
        (fun file binaries_with_invalid_architecture =>
           check_exit (String.eqb (extension w file) ".lib")
                      "The file extension was not .lib: %s" [ArgString file] ;;
           let info := read_lib w file in
           (* This is zero for folly's debug library
              TODO: Why? *)
           if size (machine_types info) =? 0 then ret (Return SUCCESS)
           else
             check_exit (size (machine_types info) =? 1)
                        "Found more than 1 architecture in file %s"
                        [ArgString file] ;;
             m <- vector_at (machine_types info) 0 ;;
             let actual_architecture := get_actual_architecture m in
             if negb (String.eqb expected_architecture actual_architecture)
             then ret (Continue
                         (binaries_with_invalid_architecture
                            ++ [{| file := file;
                                   actual_arch := actual_architecture |}]))
             else ret (Continue binaries_with_invalid_architecture))
        [] ;;
    match step with
    | Return r => ret r
    | Continue binaries_with_invalid_architecture =>
        if negb (vempty binaries_with_invalid_architecture) then
          print_invalid_architecture_files expected_architecture
                                           binaries_with_invalid_architecture ;;
          ret ERROR_DETECTED
        else ret SUCCESS
    end
  else ret SUCCESS.

Definition check_no_dlls_present (dlls : list path) : M LintStatus :=
  if vempty dlls then ret SUCCESS
  else
    println warning
      "DLLs should not be present in a static build, but the following DLLs were found:"
      [] ;;
    print_paths dlls ;;
    ret ERROR_DETECTED.

Definition mismatching_number_fmt : string :=
  "Mismatching number of debug and release binaries. Found %zd for debug but %zd for release.".

Definition check_matching_debug_and_release_binaries
    (debug_binaries release_binaries : list path) : M LintStatus :=
  let debug_count := size debug_binaries in
  let release_count := size release_binaries in
  if debug_count =? release_count then ret SUCCESS
  else
    println warning mismatching_number_fmt
            [ArgSize debug_count; ArgSize release_count] ;;
    println plain "Debug binaries" [] ;;
    print_paths debug_binaries ;;
    println plain "Release binaries" [] ;;
    print_paths release_binaries ;;
    (if debug_count =? 0
     then println warning "Debug binaries were not found" []
     else ret tt) ;;
    (if release_count =? 0
     then println warning "Release binaries were not found" []
     else ret tt) ;;
    println plain EmptyString [] ;;
    ret ERROR_DETECTED.

Definition import_libs_fmt : string := "Import libs were not present in %s".

Definition check_lib_files_are_available_if_dlls_are_available (w : World)
    (policies : BuildPolicies) (lib_count dll_count : size_t) (lib_dir : path)
  : M LintStatus :=
  if is_enabled policies DLLS_WITHOUT_LIBS then ret SUCCESS
  else if (lib_count =? 0) && negb (dll_count =? 0) then
    println warning import_libs_fmt [ArgString lib_dir] ;;
    println warning
      ("If this is intended, add the following line in the portfile:" +++ nl
       +++ "    SET(%s enabled)")
      [ArgString (to_cmake_variable w DLLS_WITHOUT_LIBS)] ;;
    ret ERROR_DETECTED
  else ret SUCCESS.

Definition check_bin_folders_are_not_present_in_static_build (w : World)
    (package_dir : path) : M LintStatus :=
  let bin := package_dir // "bin" in
  let debug_bin := package_dir // "debug" // "bin" in
  if negb (fs_exists w bin) && negb (fs_exists w debug_bin) then ret SUCCESS
  else
    (if fs_exists w bin then
       println warning
         "There should be no bin\ directory in a static build, but %s is present."
         [ArgString bin]
     else ret tt) ;;
    (if fs_exists w debug_bin then
       println warning
         "There should be no debug\bin\ directory in a static build, but %s is present."
         [ArgString debug_bin]
     else ret tt) ;;
    println warning
      ("If the creation of bin\ and/or debug\bin\ cannot be disabled, use this in the portfile to remove them"
       +++ nl +++ nl
       +++ "    if(VCPKG_LIBRARY_LINKAGE STREQUAL static)"
       +++ nl
       +++ "        file(REMOVE_RECURSE ${CURRENT_PACKAGES_DIR}/bin ${CURRENT_PACKAGES_DIR}/debug/bin)"
       +++ nl
       +++ "    endif()"
       +++ nl)
      [] ;;
    ret ERROR_DETECTED.

Definition check_no_empty_folders (w : World) (dir : path) : M LintStatus :=
  let empty_directories := get_files_recursive w dir in
  let empty_directories :=
    unstable_keep_if w
      (fun current => fs_is_directory w current && fs_is_empty w current)
      empty_directories in
  if negb (vempty empty_directories) then
    println warning "There should be no empty directories in %s" [ArgString dir] ;;
    println plain "The following empty directories were found: " [] ;;
    print_paths empty_directories ;;
    println warning
      ("If a directory should be populated but is not, this might indicate an error in the portfile." +++ nl
       +++ "If the directories are not needed and their creation cannot be disabled, use something like this in "
       +++ "the portfile to remove them:" +++ nl
       +++ nl
       +++ "    file(REMOVE_RECURSE ${CURRENT_PACKAGES_DIR}/a/dir ${CURRENT_PACKAGES_DIR}/some/other/dir)"
       +++ nl
       +++ nl)
      [] ;;
    ret ERROR_DETECTED
  else ret SUCCESS.

(** The inner loops of the two CRT checks push the first element that
    matches and [break]. *)
Definition push_first_match {A B} (matches : A -> bool) (mk : A -> B)
    (candidates : list A) (acc : list B) : list B :=
  match find matches candidates with
  | Some a => acc ++ [mk a]
  | None => acc
  end.

Definition check_crt_linkage_of_libs (w : World) (expected_build_type : BuildType)
    (libs : list path) (dumpbin_exe : path) : M LintStatus :=
  let bad_build_types := VALUES in
  let bad_build_types := remove BuildType_eq_dec expected_build_type bad_build_types in
  libs_with_invalid_crt <-
    for_each libs
      (fun lib libs_with_invalid_crt =>
         let cmd_line :=
           Strings_format w
             (dq +++ "%s" +++ dq +++ " /directives " +++ dq +++ "%s" +++ dq)
             [ArgString dumpbin_exe; ArgString lib] in
         ec_data <- cmd_execute_and_capture_output w cmd_line ;;
         check_exit (exit_code ec_data =? 0)
                    ("Running command:" +++ nl +++ "   %s" +++ nl
                     +++ " failed with message:" +++ nl +++ "%s")
                    [ArgString cmd_line; ArgString (output ec_data)] ;;
         ret (push_first_match
                (fun bad_build_type =>
                   regex_search w (output ec_data) (crt_regex w bad_build_type))
                (fun bad_build_type =>
                   {| btf_file := lib; btf_build_type := bad_build_type |})
                bad_build_types libs_with_invalid_crt))
      [] ;;
  if negb (vempty libs_with_invalid_crt) then
    println warning
      "Expected %s crt linkage, but the following libs had invalid crt linkage:"
      [ArgString (BuildType_to_string w expected_build_type)] ;;
    println plain EmptyString [] ;;
    for_each libs_with_invalid_crt
      (fun btf _ =>
         println plain "    %s: %s"
                 [ArgString (btf_file btf);
                  ArgString (BuildType_to_string w (btf_build_type btf))])
      tt ;;
    println plain EmptyString [] ;;
    println warning
      ("To inspect the lib files, use:" +++ nl
       +++ "    dumpbin.exe /directives mylibfile.lib")
      [] ;;
    ret ERROR_DETECTED
  else ret SUCCESS.

Definition outdated_crt_detected_fmt : string :=
  "Detected outdated dynamic CRT in the following files:".

Definition check_outdated_crt_linkage_of_dlls (w : World) (dlls : list path)
    (dumpbin_exe : path) (build_info : BuildInfo) (pre_build_info : PreBuildInfo)
  : M LintStatus :=
  if is_enabled (policies build_info) ALLOW_OBSOLETE_MSVCRT then ret SUCCESS
  else
    dlls_with_outdated_crt <-
      for_each dlls
        (fun dll dlls_with_outdated_crt =>
           let cmd_line :=
             Strings_format w
               (dq +++ "%s" +++ dq +++ " /dependents " +++ dq +++ "%s" +++ dq)
               [ArgString dumpbin_exe; ArgString dll] in
           ec_data <- cmd_execute_and_capture_output w cmd_line ;;
           check_exit (exit_code ec_data =? 0) running_command_failed
                      [ArgString cmd_line] ;;
           ret (push_first_match
                  (fun outdated_crt =>
                     regex_search w (output ec_data) (crt_regex_of outdated_crt))
                  (fun outdated_crt =>
                     {| odc_file := dll; outdated_crt := outdated_crt |})
                  (get_outdated_dynamic_crts (platform_toolset pre_build_info))
                  dlls_with_outdated_crt))
        [] ;;
    if negb (vempty dlls_with_outdated_crt) then
      println warning outdated_crt_detected_fmt [] ;;
      println plain EmptyString [] ;;
      for_each dlls_with_outdated_crt
        (fun btf _ =>
           println plain "    %s: %s"
                   [ArgString (odc_file btf);
                    ArgString (name (outdated_crt btf))])
        tt ;;
      println plain EmptyString [] ;;
      println warning
        ("To inspect the dll files, use:" +++ nl
         +++ "    dumpbin.exe /dependents mydllfile.dll")
        [] ;;
      ret ERROR_DETECTED
    else ret SUCCESS.

Definition check_no_files_in_dir (w : World) (dir : path) : M LintStatus :=
  let misplaced_files := get_files_non_recursive w dir in
  let misplaced_files :=
    unstable_keep_if w
      (fun path =>
         let filename := filename w path in
         if case_insensitive_ascii_equals w filename "CONTROL"
            || case_insensitive_ascii_equals w filename "BUILD_INFO"
         then false
         else negb (fs_is_directory w path))
      misplaced_files in
  if negb (vempty misplaced_files) then
    println warning ("The following files are placed in" +++ nl +++ "%s: ")
            [ArgString dir] ;;
    print_paths misplaced_files ;;
    println warning ("Files cannot be present in those directories." +++ nl) [] ;;
    ret ERROR_DETECTED
  else ret SUCCESS.

(* ===================================================================== *)
(** * The orchestrator *)
(* ===================================================================== *)

(** [error_count += check(...)]: the check is run and its verdict is added
    with [operator+=]. *)
Definition add_status (error_count : size_t) (check : M LintStatus) : M size_t :=
  status <- check ;; ret (operator_plus_eq error_count status).
Notation "error_count '+=' check" := (add_status error_count check)
  (at level 60) : monad_scope.

Definition is_none {A} (o : option A) : bool :=
  match o with None => true | Some _ => false end.

Definition perform_all_checks_and_return_error_count (w : World)
    (spec : PackageSpec) (paths : VcpkgPaths) (pre_build_info : PreBuildInfo)
    (build_info : BuildInfo) : M size_t :=
  (* for dumpbin *)
  let toolset := get_toolset paths pre_build_info in
  let package_dir := package_dir paths spec in

  let error_count : size_t := 0 in

  if is_enabled (policies build_info) EMPTY_PACKAGE then ret error_count
  else
  error_count <- error_count += check_for_files_in_include_directory w (policies build_info) package_dir ;;
  error_count <- error_count += check_for_files_in_debug_include_directory w package_dir ;;
  error_count <- error_count += check_for_files_in_debug_share_directory w package_dir ;;
  error_count <- error_count += check_folder_lib_cmake w package_dir spec ;;
  error_count <- error_count += check_for_misplaced_cmake_files w package_dir spec ;;
  error_count <- error_count += check_folder_debug_lib_cmake w package_dir spec ;;
  error_count <- error_count += check_for_dlls_in_lib_dir w package_dir ;;
  error_count <- error_count += check_for_dlls_in_lib_dir w (package_dir // "debug") ;;
  error_count <- error_count += check_for_copyright_file w spec paths ;;
  error_count <- error_count += check_for_exes w package_dir ;;
  error_count <- error_count += check_for_exes w (package_dir // "debug") ;;

  let debug_lib_dir := package_dir // "debug" // "lib" in
  let release_lib_dir := package_dir // "lib" in
  let debug_bin_dir := package_dir // "debug" // "bin" in
  let release_bin_dir := package_dir // "bin" in

  let debug_libs := get_files_recursive w debug_lib_dir in
  let debug_libs := unstable_keep_if w (has_extension_pred w ".lib") debug_libs in
  let release_libs := get_files_recursive w release_lib_dir in
  let release_libs := unstable_keep_if w (has_extension_pred w ".lib") release_libs in

  error_count <-
    (if is_none (build_type pre_build_info)
     then error_count += check_matching_debug_and_release_binaries debug_libs release_libs
     else ret error_count) ;;

  error_count <-
    (let libs : list path := [] in
     let libs := libs ++ debug_libs in
     let libs := libs ++ release_libs in
     error_count += check_lib_architecture w (target_architecture pre_build_info) libs) ;;

  let debug_dlls := get_files_recursive w debug_bin_dir in
  let debug_dlls := unstable_keep_if w (has_extension_pred w ".dll") debug_dlls in
  let release_dlls := get_files_recursive w release_bin_dir in
  let release_dlls := unstable_keep_if w (has_extension_pred w ".dll") release_dlls in

  error_count <-
    match library_linkage build_info with
    | DYNAMIC =>
        error_count <-
          (if is_none (build_type pre_build_info)
           then error_count += check_matching_debug_and_release_binaries debug_dlls release_dlls
           else ret error_count) ;;

        error_count <- error_count += check_lib_files_are_available_if_dlls_are_available
                         w (policies build_info) (size debug_libs) (size debug_dlls) debug_lib_dir ;;
        error_count <- error_count += check_lib_files_are_available_if_dlls_are_available
                         w (policies build_info) (size release_libs) (size release_dlls) release_lib_dir ;;

        let dlls : list path := [] in
        let dlls := dlls ++ debug_dlls in
        let dlls := dlls ++ release_dlls in

        error_count <-
          (if negb (empty (dumpbin toolset)) then
             error_count <- error_count += check_exports_of_dlls w dlls (dumpbin toolset) ;;
             error_count <- error_count += check_uwp_bit_of_dlls
                              w (cmake_system_name pre_build_info) dlls (dumpbin toolset) ;;
             error_count <- error_count += check_outdated_crt_linkage_of_dlls
                              w dlls (dumpbin toolset) build_info pre_build_info ;;
             ret error_count
           else ret error_count) ;;

        error_count <-
          (if WIN32 w
           then error_count += check_dll_architecture w (target_architecture pre_build_info) dlls
           else ret error_count) ;;
        ret error_count
    | STATIC =>
        let dlls := release_dlls in
        let dlls := dlls ++ debug_dlls in
        error_count <- error_count += check_no_dlls_present dlls ;;

        error_count <- error_count += check_bin_folders_are_not_present_in_static_build w package_dir ;;

        error_count <-
          (if negb (empty (dumpbin toolset)) then
             error_count <-
               (if negb (is_enabled (policies build_info) ONLY_RELEASE_CRT) then
                  error_count += check_crt_linkage_of_libs
                    w (value_of DEBUG (crt_linkage build_info)) debug_libs (dumpbin toolset)
                else ret error_count) ;;
             error_count <- error_count += check_crt_linkage_of_libs
                              w (value_of RELEASE (crt_linkage build_info)) release_libs (dumpbin toolset) ;;
             ret error_count
           else ret error_count) ;;
        ret error_count
    | LINKAGE_OTHER => unreachable
    end ;;

  error_count <- error_count += check_no_empty_folders w package_dir ;;
  error_count <- error_count += check_no_files_in_dir w package_dir ;;
  error_count <- error_count += check_no_files_in_dir w (package_dir // "debug") ;;

  ret error_count.

Definition perform_all_checks (w : World) (spec : PackageSpec)
    (paths : VcpkgPaths) (pre_build_info : PreBuildInfo)
    (build_info : BuildInfo) : M size_t :=
  println plain "-- Performing post-build validation" [] ;;
  error_count <- perform_all_checks_and_return_error_count w spec paths pre_build_info build_info ;;
  (if negb (error_count =? 0) then
     let portfile := ports paths // spec_name spec // "portfile.cmake" in
     println error
       ("Found %u error(s). Please correct the portfile:" +++ nl +++ "    %s")
       [ArgSize error_count; ArgString portfile]
   else ret tt) ;;
  println plain "-- Performing post-build validation done" [] ;;
  ret error_count.

(* ===================================================================== *)
(** * The suite as a list of checks *)
(* ===================================================================== *)

(** The checks the orchestrator selects, in the order it runs them.  This
    is the declarative reading of [perform_all_checks_and_return_error_count]
    ("the ordered list of independent checks"); [perform_eq_accumulate] below
    relates it to the function itself. *)
Definition checks_run (w : World) (spec : PackageSpec) (paths : VcpkgPaths)
    (pre_build_info : PreBuildInfo) (build_info : BuildInfo)
  : list (M LintStatus) :=
  let toolset := get_toolset paths pre_build_info in
  let package_dir := package_dir paths spec in
  let debug_lib_dir := package_dir // "debug" // "lib" in
  let release_lib_dir := package_dir // "lib" in
  let debug_bin_dir := package_dir // "debug" // "bin" in
  let release_bin_dir := package_dir // "bin" in
  let debug_libs :=
    unstable_keep_if w (has_extension_pred w ".lib") (get_files_recursive w debug_lib_dir) in
  let release_libs :=
    unstable_keep_if w (has_extension_pred w ".lib") (get_files_recursive w release_lib_dir) in
  let debug_dlls :=
    unstable_keep_if w (has_extension_pred w ".dll") (get_files_recursive w debug_bin_dir) in
  let release_dlls :=
    unstable_keep_if w (has_extension_pred w ".dll") (get_files_recursive w release_bin_dir) in
  if is_enabled (policies build_info) EMPTY_PACKAGE then []
  else
    [ check_for_files_in_include_directory w (policies build_info) package_dir;
      check_for_files_in_debug_include_directory w package_dir;
      check_for_files_in_debug_share_directory w package_dir;
      check_folder_lib_cmake w package_dir spec;
      check_for_misplaced_cmake_files w package_dir spec;
      check_folder_debug_lib_cmake w package_dir spec;
      check_for_dlls_in_lib_dir w package_dir;
      check_for_dlls_in_lib_dir w (package_dir // "debug");
      check_for_copyright_file w spec paths;
      check_for_exes w package_dir;
      check_for_exes w (package_dir // "debug") ]
    ++ (if is_none (build_type pre_build_info)
        then [check_matching_debug_and_release_binaries debug_libs release_libs]
        else [])
    ++ [ check_lib_architecture w (target_architecture pre_build_info)
           (debug_libs ++ release_libs) ]
    ++ match library_linkage build_info with
       | DYNAMIC =>
           (if is_none (build_type pre_build_info)
            then [check_matching_debug_and_release_binaries debug_dlls release_dlls]
            else [])
           ++ [ check_lib_files_are_available_if_dlls_are_available
                  w (policies build_info) (size debug_libs) (size debug_dlls) debug_lib_dir;
                check_lib_files_are_available_if_dlls_are_available
                  w (policies build_info) (size release_libs) (size release_dlls) release_lib_dir ]
           ++ (if negb (empty (dumpbin toolset))
               then [ check_exports_of_dlls w (debug_dlls ++ release_dlls) (dumpbin toolset);
                      check_uwp_bit_of_dlls w (cmake_system_name pre_build_info)
                        (debug_dlls ++ release_dlls) (dumpbin toolset);
                      check_outdated_crt_linkage_of_dlls w (debug_dlls ++ release_dlls)
                        (dumpbin toolset) build_info pre_build_info ]
               else [])
           ++ (if WIN32 w
               then [ check_dll_architecture w (target_architecture pre_build_info)
                        (debug_dlls ++ release_dlls) ]
               else [])
       | STATIC =>
           [ check_no_dlls_present (release_dlls ++ debug_dlls);
             check_bin_folders_are_not_present_in_static_build w package_dir ]
           ++ (if negb (empty (dumpbin toolset))
               then (if negb (is_enabled (policies build_info) ONLY_RELEASE_CRT)
                     then [ check_crt_linkage_of_libs w
                              (value_of DEBUG (crt_linkage build_info)) debug_libs
                              (dumpbin toolset) ]
                     else [])
                    ++ [ check_crt_linkage_of_libs w
                           (value_of RELEASE (crt_linkage build_info)) release_libs
                           (dumpbin toolset) ]
               else [])
       | LINKAGE_OTHER => []
       end
    ++ [ check_no_empty_folders w package_dir;
         check_no_files_in_dir w package_dir;
         check_no_files_in_dir w (package_dir // "debug") ].

(** Running a list of checks one after the other and collecting the
    verdicts. *)
Fixpoint run_checks (cs : list (M LintStatus)) : M (list LintStatus) :=
  match cs with
  | [] => ret []
  | c :: rest => v <- c ;; vs <- run_checks rest ;; ret (v :: vs)
  end.

(** The loop [for (c : cs) error_count += c;]. *)
Fixpoint accumulate (cs : list (M LintStatus)) (error_count : size_t) : M size_t :=
  match cs with
  | [] => ret error_count
  | c :: rest => error_count <- error_count += c ;; accumulate rest error_count
  end.

(** The arithmetic sum of the verdicts. *)
Definition sum_of_verdicts (vs : list LintStatus) : Z :=
  fold_right Z.add 0 (map static_cast_size_t vs).

Definition count_errors (vs : list LintStatus) : nat :=
  count_occ LintStatus_eq_dec vs ERROR_DETECTED.

(* ===================================================================== *)
(** * A package tree in memory *)
(* ===================================================================== *)

(** A reference instance of the collaborators, for running the checks on
    concrete package trees: the tree is the list of its entries, each a
    path and whether it is a directory. *)
Module Mem.

Definition entry := (path * bool)%type.

Definition slash : ascii := "/"%char.
Definition dot : ascii := "."%char.

(** The part of [s] after its last [c], if [c] occurs. *)
Fixpoint after_last (c : ascii) (s : string) : option string :=
  match s with
  | EmptyString => None
  | String a rest =>
      match after_last c rest with
      | Some r => Some r
      | None => if Ascii.eqb a c then Some rest else None
      end
  end.

Definition filename_of (p : path) : path :=
  match after_last slash p with Some f => f | None => p end.

Definition extension_of (p : path) : string :=
  match after_last dot (filename_of p) with
  | Some e => String dot e
  | None => EmptyString
  end.

Definition under (dir p : path) : bool := prefix (dir +++ "/") p.

Definition direct_child (dir p : path) : bool :=
  under dir p
  && negb (contains "/" (erase_front (String.length dir + 1) p)).

Definition exists_in (tree : list entry) (p : path) : bool :=
  existsb (fun e => String.eqb (fst e) p) tree.

Definition is_directory_in (tree : list entry) (p : path) : bool :=
  existsb (fun e => String.eqb (fst e) p && snd e) tree.

Definition is_empty_in (tree : list entry) (p : path) : bool :=
  negb (existsb (fun e => under p (fst e)) tree).

Definition files_recursive (tree : list entry) (dir : path) : list path :=
  map fst (filter (fun e => under dir (fst e)) tree).

Definition files_non_recursive (tree : list entry) (dir : path) : list path :=
  map fst (filter (fun e => direct_child dir (fst e)) tree).

Definition lower (c : ascii) : ascii :=
  let n := nat_of_ascii c in
  if (65 <=? n)%nat && (n <=? 90)%nat then ascii_of_nat (n + 32) else c.

Fixpoint lower_string (s : string) : string :=
  match s with
  | EmptyString => EmptyString
  | String c rest => String (lower c) (lower_string rest)
  end.

Definition ci_equals (a b : string) : bool :=
  String.eqb (lower_string a) (lower_string b).

(** The text a pattern made of ordinary characters and backslash escapes
    stands for. *)
Fixpoint unescape (s : string) : string :=
  match s with
  | String "\"%char (String c rest) => String c (unescape rest)
  | String c rest => String c (unescape rest)
  | EmptyString => EmptyString
  end.

(** Search for such a pattern. *)
Definition literal_search (s : string) (r : regex) : bool :=
  if regex_icase r
  then contains (lower_string (unescape (regex_source r))) (lower_string s)
  else contains (unescape (regex_source r)) s.

Definition arg_text (a : FormatArg) : string :=
  match a with ArgString s => s | ArgSize n => to_string n end.

(** Substitution of the arguments for the conversions [%s], [%u], ... of
    a substitute, in order. *)
Fixpoint substitute (fmt : string) (args : list FormatArg) : string :=
  match fmt with
  | String "%"%char (String "z"%char (String _ rest)) =>
      match args with
      | a :: args' => arg_text a +++ substitute rest args'
      | [] => substitute rest []
      end
  | String "%"%char (String _ rest) =>
      match args with
      | a :: args' => arg_text a +++ substitute rest args'
      | [] => substitute rest []
      end
  | String c rest => String c (substitute rest args)
  | EmptyString => EmptyString
  end.

Definition crt_pattern (b : BuildType) : regex :=
  {| regex_source :=
       match config b, linkage b with
       | DEBUG, STATIC => "/DEFAULTLIB:LIBCMTD"
       | DEBUG, _ => "/DEFAULTLIB:MSVCRTD"
       | RELEASE, STATIC => "/DEFAULTLIB:LIBCMT "
       | RELEASE, _ => "/DEFAULTLIB:MSVCRT "
       end;
     regex_icase := true |}.

Definition build_type_name (b : BuildType) : string :=
  match config b, linkage b with
  | DEBUG, STATIC => "Debug,Static"
  | DEBUG, _ => "Debug,Dynamic"
  | RELEASE, STATIC => "Release,Static"
  | RELEASE, _ => "Release,Dynamic"
  end.

Definition cmake_variable (p : BuildPolicy) : string :=
  match p with
  | EMPTY_PACKAGE => "VCPKG_POLICY_EMPTY_PACKAGE"
  | DLLS_WITHOUT_LIBS => "VCPKG_POLICY_DLLS_WITHOUT_LIBS"
  | ONLY_RELEASE_CRT => "VCPKG_POLICY_ONLY_RELEASE_CRT"
  | EMPTY_INCLUDE_FOLDER => "VCPKG_POLICY_EMPTY_INCLUDE_FOLDER"
  | ALLOW_OBSOLETE_MSVCRT => "VCPKG_POLICY_ALLOW_OBSOLETE_MSVCRT"
  end.

(** The world of a package tree, given what [dumpbin] and the COFF reader
    answer. *)
Definition world (win32 : bool) (tree : list entry)
    (run : string -> ExitCodeAndOutput)
    (dll : path -> MachineType) (lib : path -> list MachineType) : World :=
  {| WIN32 := win32;
     extension := extension_of;
     filename := filename_of;
     fs_exists := exists_in tree;
     fs_is_directory := is_directory_in tree;
     fs_is_empty := is_empty_in tree;
     get_files_recursive := files_recursive tree;
     get_files_non_recursive := files_non_recursive tree;
     unstable_keep_if := @filter path;
     Strings_format := substitute;
     case_insensitive_ascii_equals := ci_equals;
     regex_search := literal_search;
     run_process := run;
     read_dll := fun p => {| machine_type := dll p |};
     read_lib := fun p => {| machine_types := lib p |};
     crt_regex := crt_pattern;
     BuildType_to_string := build_type_name;
     to_cmake_variable := cmake_variable |}.

End Mem.

(* ===================================================================== *)
(** * Properties of computations *)
(* ===================================================================== *)

(** Every event the computation emits satisfies [P]. *)
Definition emits (P : Event -> bool) {A} (m : M A) : Prop :=
  forallb P (trace m) = true.

(** The computation ends the process. *)
Definition aborts {A} (m : M A) : Prop :=
  exists fmt args, result m = Exit fmt args.

(** The event is a line printed with the format [fmt]. *)
Definition is_println_of (fmt : string) (e : Event) : bool :=
  match e with
  | Println _ f _ => String.eqb f fmt
  | _ => false
  end.

Definition not_println_of (fmt : string) (e : Event) : bool :=
  negb (is_println_of fmt e).

(** The event is not a subprocess. *)
Definition no_cmd (e : Event) : bool :=
  match e with
  | CmdExecute _ => false
  | _ => true
  end.

(** The event is not a subprocess that returned a nonzero exit status. *)
Definition cmd_ok (w : World) (e : Event) : bool :=
  match e with
  | CmdExecute cmd_line => exit_code (run_process w cmd_line) =? 0
  | _ => true
  end.

(** The computation stops at the first subprocess that returns a nonzero
    exit status: either no subprocess of its trace failed, or the trace ends
    with the one that did and the process exited there. *)
Definition fail_fast (w : World) {A} (m : M A) : Prop :=
  forallb (cmd_ok w) (trace m) = true
  \/ exists t0 cmd_line fmt args,
       m = (t0 ++ [CmdExecute cmd_line], Exit fmt args)
       /\ forallb (cmd_ok w) t0 = true
       /\ exit_code (run_process w cmd_line) <> 0.

(** The binaries the orchestrator collects: the locals [debug_libs],
    [release_libs], [debug_dlls] and [release_dlls] of
    [perform_all_checks_and_return_error_count]. *)
Definition debug_libs (w : World) (paths : VcpkgPaths) (spec : PackageSpec) : list path :=
  unstable_keep_if w (has_extension_pred w ".lib")
    (get_files_recursive w (package_dir paths spec // "debug" // "lib")).

Definition release_libs (w : World) (paths : VcpkgPaths) (spec : PackageSpec) : list path :=
  unstable_keep_if w (has_extension_pred w ".lib")
    (get_files_recursive w (package_dir paths spec // "lib")).

Definition debug_dlls (w : World) (paths : VcpkgPaths) (spec : PackageSpec) : list path :=
  unstable_keep_if w (has_extension_pred w ".dll")
    (get_files_recursive w (package_dir paths spec // "debug" // "bin")).

Definition release_dlls (w : World) (paths : VcpkgPaths) (spec : PackageSpec) : list path :=
  unstable_keep_if w (has_extension_pred w ".dll")
    (get_files_recursive w (package_dir paths spec // "bin")).

(** The command line of [dumpbin /dependents] for a module, as
    [check_outdated_crt_linkage_of_dlls] builds it, and what the tool
    answers. *)
Definition dependents_cmd_line (w : World) (dumpbin_exe dll : path) : string :=
  Strings_format w
    (dq +++ "%s" +++ dq +++ " /dependents " +++ dq +++ "%s" +++ dq)
    [ArgString dumpbin_exe; ArgString dll].

Definition dependents (w : World) (dumpbin_exe dll : path) : ExitCodeAndOutput :=
  run_process w (dependents_cmd_line w dumpbin_exe dll).

(** The first entry of a list of outdated runtimes that the dependents of
    a module match. *)
Definition first_outdated_crt (w : World) (crts : list OutdatedDynamicCrt)
    (dumpbin_exe dll : path) : option OutdatedDynamicCrt :=
  find (fun crt => regex_search w (output (dependents w dumpbin_exe dll))
                                (crt_regex_of crt))
       crts.

(** The modules with an outdated runtime, each with the entry found. *)
Definition outdated_dlls (w : World) (crts : list OutdatedDynamicCrt)
    (dumpbin_exe : path) (dlls : list path) : list OutdatedDynamicCrtAndFile :=
  flat_map
    (fun dll =>
       match first_outdated_crt w crts dumpbin_exe dll with
       | Some crt => [{| odc_file := dll; outdated_crt := crt |}]
       | None => []
       end)
    dlls.

(** The regular files of a package that are not under its [debug/include]
    directory. *)
Definition files_elsewhere (w : World) (package_dir : path) : list path :=
  filter
    (fun g =>
       negb (fs_is_directory w g)
       && negb (existsb (String.eqb g)
                        (get_files_recursive w (package_dir // "debug" // "include"))))
    (get_files_recursive w package_dir).

(** The architecture derived from a module, and from a static archive when
    it reports exactly one machine type. *)
Definition dll_architecture (w : World) (f : path) : string :=
  get_actual_architecture (machine_type (read_dll w f)).

Definition lib_architecture (w : World) (f : path) : option string :=
  match machine_types (read_lib w f) with
  | [m] => Some (get_actual_architecture m)
  | _ => None
  end.

(** The files of a list whose derived architecture is not the expected
    one. *)
Definition invalid_architecture (arch : path -> option string)
    (expected_architecture : string) (files : list path) : list FileAndArch :=
  flat_map
    (fun f =>
       match arch f with
       | Some a =>
           if negb (String.eqb expected_architecture a)
           then [{| file := f; actual_arch := a |}]
           else []
       | None => []
       end)
    files.

(** What [print_invalid_architecture_files] prints. *)
Definition invalid_architecture_lines (expected_architecture : string)
    (binaries : list FileAndArch) : list Event :=
  [ Println warning "The following files were built for an incorrect architecture:" [];
    Println plain EmptyString [] ]
  ++ flat_map
       (fun b =>
          [ Println plain "    %s" [ArgString (file b)];
            Println plain "Expected %s, but was: %s"
                    [ArgString expected_architecture; ArgString (actual_arch b)];
            Println plain EmptyString [] ])
       binaries.

(* ===================================================================== *)
(** * Sample packages *)
(* ===================================================================== *)

Module Sample.

Definition spec : PackageSpec :=
  {| spec_name := "zlib"; spec_dir := "zlib_x64-windows" |}.

Definition pkg : path := "packages" // "zlib_x64-windows".

Definition paths (dumpbin_exe : path) : VcpkgPaths :=
  {| packages := "packages";
     buildtrees := "buildtrees";
     ports := "ports";
     package_dir := fun s => "packages" // spec_dir s;
     get_toolset := fun _ => {| dumpbin := dumpbin_exe |} |}.

Definition pre (toolset_version : option string)
    (bt : option ConfigurationType) : PreBuildInfo :=
  {| target_architecture := "x64";
     cmake_system_name := "Windows";
     platform_toolset := toolset_version;
     build_type := bt |}.

Definition build (l : LinkageType) (ps : list (BuildPolicy * bool)) : BuildInfo :=
  {| crt_linkage := DYNAMIC;
     library_linkage := l;
     policies := {| m_policies := ps |} |}.

(** A well-formed dynamic package: headers, one import library and one
    module for each configuration, the copyright file. *)
Definition tree : list Mem.entry := [
  (pkg // "include", true);
  (pkg // "include" // "zlib.h", false);
  (pkg // "lib", true);
  (pkg // "lib" // "zlib.lib", false);
  (pkg // "bin", true);
  (pkg // "bin" // "zlib1.dll", false);
  (pkg // "debug", true);
  (pkg // "debug" // "lib", true);
  (pkg // "debug" // "lib" // "zlibd.lib", false);
  (pkg // "debug" // "bin", true);
  (pkg // "debug" // "bin" // "zlibd1.dll", false);
  (pkg // "share", true);
  (pkg // "share" // "zlib", true);
  (pkg // "share" // "zlib" // "copyright", false)
].

(** A [dumpbin] that succeeds: the modules have exports and depend on
    [dependents]. *)
Definition dumpbin_reports (dependents : string) (cmd_line : string)
  : ExitCodeAndOutput :=
  if contains "/exports" cmd_line
  then {| exit_code := 0; output := "    ordinal hint RVA      name" |}
  else if contains "/dependents" cmd_line
  then {| exit_code := 0; output := dependents |}
  else {| exit_code := 0; output := "App Container" |}.

(** A [dumpbin] that cannot be run. *)
Definition dumpbin_broken (cmd_line : string) : ExitCodeAndOutput :=
  {| exit_code := 1; output := "fatal error" |}.

Definition all_x64_dll (p : path) : MachineType := AMD64.
Definition all_x64_lib (p : path) : list MachineType := [AMD64].

Definition w : World :=
  Mem.world true tree (dumpbin_reports "KERNEL32.dll VCRUNTIME140.dll")
            all_x64_dll all_x64_lib.

(** The sample tree without its release import library. *)
Definition no_release_lib : World :=
  Mem.world true
    (filter (fun e => negb (String.eqb (fst e) (pkg // "lib" // "zlib.lib"))) tree)
    (dumpbin_reports "KERNEL32.dll VCRUNTIME140.dll") all_x64_dll all_x64_lib.

(** The sample tree when its modules link the runtime of toolset v120. *)
Definition links_msvcr120 : World :=
  Mem.world true tree (dumpbin_reports "KERNEL32.dll MSVCR120.dll")
            all_x64_dll all_x64_lib.

(** A tree whose only file is a header under [debug/include]. *)
Definition debug_header_only : World :=
  Mem.world true
    [ (pkg // "debug", true);
      (pkg // "debug" // "include", true);
      (pkg // "debug" // "include" // "config-debug.h", false) ]
    dumpbin_broken all_x64_dll all_x64_lib.

(** A static x64 package whose release library was built for x86, next to
    a debug library in which the COFF reader finds no machine type. *)
Definition folly_tree : list Mem.entry := [
  (pkg // "include", true);
  (pkg // "include" // "folly.h", false);
  (pkg // "lib", true);
  (pkg // "lib" // "folly.lib", false);
  (pkg // "debug", true);
  (pkg // "debug" // "lib", true);
  (pkg // "debug" // "lib" // "follyd.lib", false);
  (pkg // "share", true);
  (pkg // "share" // "zlib", true);
  (pkg // "share" // "zlib" // "copyright", false)
].

Definition folly_lib (p : path) : list MachineType :=
  if String.eqb p (pkg // "debug" // "lib" // "follyd.lib") then [] else [I386].

Definition folly : World :=
  Mem.world true folly_tree dumpbin_broken all_x64_dll folly_lib.

(** The sample tree when its archives hold objects of two architectures,
    on a Windows host or on another one. *)
Definition mixed (win32 : bool) : World :=
  Mem.world win32 tree (dumpbin_reports "KERNEL32.dll VCRUNTIME140.dll")
            all_x64_dll (fun _ => [AMD64; I386]).

(** The sample tree when [dumpbin] cannot be run. *)
Definition no_dumpbin : World :=
  Mem.world true tree dumpbin_broken all_x64_dll all_x64_lib.

(** A tree with a release library and nothing else. *)
Definition release_only : World :=
  Mem.world true [(pkg // "lib" // "zlib.lib", false)]
            dumpbin_broken all_x64_dll all_x64_lib.

End Sample.

(* ===================================================================== *)
(** * Reports of the scanning checks *)
(* ===================================================================== *)

(** A check reports the list [xs]: with nothing to report it returns
    [SUCCESS] and is silent; otherwise it returns [ERROR_DETECTED] and the
    list of paths it prints is [xs], once. *)
Definition reports (m : M LintStatus) (xs : list path) : Prop :=
  (xs = [] /\ m = ([], Done SUCCESS))
  \/ (xs <> [] /\ result m = Done ERROR_DETECTED
      /\ forall ps, In (PrintPaths ps) (trace m) <-> ps = xs).

(** The candidate license files of [check_for_copyright_file]: the entries
    directly inside a directory of [buildtrees/<name>/src] that are named
    LICENSE, LICENSE.txt or COPYING. *)
Definition is_license_name (w : World) (src_file : path) : bool :=
  String.eqb (filename w src_file) "LICENSE"
  || String.eqb (filename w src_file) "LICENSE.txt"
  || String.eqb (filename w src_file) "COPYING".

Definition potential_copyright_files (w : World) (spec : PackageSpec)
    (paths : VcpkgPaths) : list path :=
  flat_map
    (fun src_dir => filter (is_license_name w) (get_files_non_recursive w src_dir))
    (filter (fs_is_directory w)
            (get_files_non_recursive w (buildtrees paths // spec_name spec // "src"))).

(** The cmake files that [check_for_misplaced_cmake_files] looks for. *)
Definition misplaced_cmake_files (w : World) (package_dir : path) : list path :=
  filter (fun f => negb (fs_is_directory w f) && String.eqb (extension w f) ".cmake")
         (get_files_recursive w (package_dir // "cmake")
          ++ get_files_recursive w (package_dir // "debug" // "cmake")
          ++ get_files_recursive w (package_dir // "lib" // "cmake")
          ++ get_files_recursive w (package_dir // "debug" // "lib" // "cmake")).

(** The command line of [dumpbin] with one inspection flag, as the checks
    build it. *)
Definition dumpbin_cmd_line (w : World) (flag : string) (dumpbin_exe file : path)
  : string :=
  Strings_format w
    (dq +++ "%s" +++ dq +++ flag +++ dq +++ "%s" +++ dq)
    [ArgString dumpbin_exe; ArgString file].

(** The build type reported for a static library: the first of [VALUES],
    other than the expected one, whose CRT pattern its directives match. *)
Definition first_bad_build_type (w : World) (expected_build_type : BuildType)
    (dumpbin_exe lib : path) : option BuildType :=
  find (fun b => regex_search w
                   (output (run_process w (dumpbin_cmd_line w " /directives " dumpbin_exe lib)))
                   (crt_regex w b))
       (remove BuildType_eq_dec expected_build_type VALUES).

Definition libs_with_invalid_crt (w : World) (expected_build_type : BuildType)
    (dumpbin_exe : path) (libs : list path) : list BuildTypeAndFile :=
  flat_map
    (fun lib =>
       match first_bad_build_type w expected_build_type dumpbin_exe lib with
       | Some b => [{| btf_file := lib; btf_build_type := b |}]
       | None => []
       end)
    libs.

(** The verdict of a check that returns. *)
Definition verdict_of (c : M LintStatus) : LintStatus :=
  match result c with
  | Done v => v
  | Exit _ _ => SUCCESS
  end.

(** Formats of the diagnostics that the properties below name. *)
Definition copyright_fmt : string :=
  "The software license must be available at ${CURRENT_PACKAGES_DIR}/share/%s/copyright".

Definition copyright_remedy_fmt : string :=
  nl +++ "    file(COPY ${CURRENT_BUILDTREES_DIR}/%s DESTINATION ${CURRENT_PACKAGES_DIR}/share/%s)" +++ nl
  +++ "    file(RENAME ${CURRENT_PACKAGES_DIR}/share/%s/%s ${CURRENT_PACKAGES_DIR}/share/%s/copyright)".

Definition include_folder_fmt : string :=
  "The folder /include is empty or not present. This indicates the library was not correctly installed.".

Definition no_dlls_fmt : string :=
  "DLLs should not be present in a static build, but the following DLLs were found:".

(** Every event of the computation satisfies the proposition [P]. *)
Definition emitsP (P : Event -> Prop) {A} (m : M A) : Prop :=
  Forall P (trace m).

(** The command lines a run may execute: [dumpbin] with one of its four
    inspection flags, on a module or a library that the orchestrator
    collected, under the linkage, the platform and the policies that select
    the corresponding check. *)
Inductive allowed_cmd (w : World) (spec : PackageSpec) (paths : VcpkgPaths)
          (pre_build_info : PreBuildInfo) (build_info : BuildInfo) : string -> Prop :=
| allowed_exports dll :
    library_linkage build_info = DYNAMIC ->
    In dll (debug_dlls w paths spec ++ release_dlls w paths spec) ->
    allowed_cmd w spec paths pre_build_info build_info
      (dumpbin_cmd_line w " /exports " (dumpbin (get_toolset paths pre_build_info)) dll)
| allowed_headers dll :
    library_linkage build_info = DYNAMIC ->
    cmake_system_name pre_build_info = "WindowsStore" ->
    In dll (debug_dlls w paths spec ++ release_dlls w paths spec) ->
    allowed_cmd w spec paths pre_build_info build_info
      (dumpbin_cmd_line w " /headers " (dumpbin (get_toolset paths pre_build_info)) dll)
| allowed_dependents dll :
    library_linkage build_info = DYNAMIC ->
    is_enabled (policies build_info) ALLOW_OBSOLETE_MSVCRT = false ->
    In dll (debug_dlls w paths spec ++ release_dlls w paths spec) ->
    allowed_cmd w spec paths pre_build_info build_info
      (dumpbin_cmd_line w " /dependents " (dumpbin (get_toolset paths pre_build_info)) dll)
| allowed_directives_release lib :
    library_linkage build_info = STATIC ->
    In lib (release_libs w paths spec) ->
    allowed_cmd w spec paths pre_build_info build_info
      (dumpbin_cmd_line w " /directives " (dumpbin (get_toolset paths pre_build_info)) lib)
| allowed_directives_debug lib :
    library_linkage build_info = STATIC ->
    is_enabled (policies build_info) ONLY_RELEASE_CRT = false ->
    In lib (debug_libs w paths spec) ->
    allowed_cmd w spec paths pre_build_info build_info
      (dumpbin_cmd_line w " /directives " (dumpbin (get_toolset paths pre_build_info)) lib).

(* ===================================================================== *)
(** * More sample packages *)
(* ===================================================================== *)

Module Cases.

Definition pkg : path := Sample.pkg.

(** A package with an executable under [bin], a module under [lib], an
    empty directory, and files in its root beside the two control files. *)
Definition untidy_tree : list Mem.entry := [
  (pkg // "CONTROL", false);
  (pkg // "build_info", false);
  (pkg // "readme.txt", false);
  (pkg // "bin", true);
  (pkg // "bin" // "zlib1.dll", false);
  (pkg // "bin" // "minigzip.exe", false);
  (pkg // "lib", true);
  (pkg // "lib" // "zlib.lib", false);
  (pkg // "lib" // "zlib.dll", false);
  (pkg // "lib" // "cmake", true);
  (pkg // "lib" // "cmake" // "zlib-config.cmake", false);
  (pkg // "tools", true)
].

Definition untidy : World :=
  Mem.world true untidy_tree
            (Sample.dumpbin_reports "KERNEL32.dll VCRUNTIME140.dll")
            Sample.all_x64_dll Sample.all_x64_lib.

(** Unpacked sources with one license file, and a package without its
    copyright file. *)
Definition sources_tree : list Mem.entry := [
  ("buildtrees" // "zlib" // "src", true);
  ("buildtrees" // "zlib" // "src" // "zlib-1.2.11.tar.gz", false);
  ("buildtrees" // "zlib" // "src" // "zlib-1.2.11", true);
  ("buildtrees" // "zlib" // "src" // "zlib-1.2.11" // "README", false);
  ("buildtrees" // "zlib" // "src" // "zlib-1.2.11" // "LICENSE", false);
  ("buildtrees" // "zlib" // "src" // "zlib-1.2.11" // "contrib", true);
  (pkg // "include", true);
  (pkg // "include" // "zlib.h", false)
].

Definition sources : World :=
  Mem.world true sources_tree Sample.dumpbin_broken
            Sample.all_x64_dll Sample.all_x64_lib.

(** A [dumpbin] for static libraries: the directives of [zlibd.lib] name
    the debug dynamic runtime, those of any other library the release
    dynamic runtime. *)
Definition directives (cmd_line : string) : ExitCodeAndOutput :=
  if contains "zlibd.lib" cmd_line
  then {| exit_code := 0; output := "   /DEFAULTLIB:MSVCRTD " |}
  else {| exit_code := 0; output := "   /DEFAULTLIB:MSVCRT " |}.

Definition static_libs : World :=
  Mem.world true Sample.tree directives Sample.all_x64_dll Sample.all_x64_lib.

(** Two static packages on the tree of [Sample.folly].  In the first the
    COFF reader finds no machine type in the debug archive, which is read
    first, and two in the release archive; in the second the two archives
    are exchanged. *)
Definition stub_then_mixed_lib (p : path) : list MachineType :=
  if String.eqb p (pkg // "debug" // "lib" // "follyd.lib") then [] else [AMD64; I386].

Definition stub_then_mixed : World :=
  Mem.world true Sample.folly_tree Sample.dumpbin_broken
            Sample.all_x64_dll stub_then_mixed_lib.

Definition mixed_then_stub_lib (p : path) : list MachineType :=
  if String.eqb p (pkg // "debug" // "lib" // "follyd.lib") then [AMD64; I386] else [].

Definition mixed_then_stub : World :=
  Mem.world true Sample.folly_tree Sample.dumpbin_broken
            Sample.all_x64_dll mixed_then_stub_lib.

End Cases.
(* ===================================================================== *)
(** * The monad *)
(* ===================================================================== *)

Section MonadLaws.

Context {A B C : Type}.

Lemma bind_ret_l (a : A) (f : A -> M B) : bind (ret a) f = f a.
Proof. unfold bind, ret. destruct (f a). reflexivity. Qed.

Lemma bind_nil_done (a : A) (f : A -> M B) : bind ([], Done a) f = f a.
Proof. apply bind_ret_l. Qed.

Lemma bind_ret_r (m : M A) : bind m ret = m.
Proof.
  destruct m as [t [a | fmt args]]; simpl; [rewrite app_nil_r|]; reflexivity.
Qed.

Lemma bind_assoc (m : M A) (f : A -> M B) (g : B -> M C) :
  bind (bind m f) g = bind m (fun a => bind (f a) g).
Proof.
  destruct m as [t [a | fmt args]]; simpl; [|reflexivity].
  destruct (f a) as [t1 [b | fmt args]]; simpl; [|reflexivity].
  destruct (g b) as [t2 r]. rewrite app_assoc. reflexivity.
Qed.

Lemma bind_ext (m : M A) (f g : A -> M B) :
  (forall a, f a = g a) -> bind m f = bind m g.
Proof.
  intros E. destruct m as [t [a | fmt args]]; simpl; [|reflexivity].
  rewrite E. reflexivity.
Qed.

Lemma bind_done (m : M A) (f : A -> M B) t (b : B) :
  bind m f = (t, Done b) ->
  exists t1 a t2, m = (t1, Done a) /\ f a = (t2, Done b) /\ t = t1 ++ t2.
Proof.
  destruct m as [t1 [a | fmt args]]; simpl; [|discriminate].
  destruct (f a) as [t2 r] eqn:E. intros H. inversion H; subst.
  exists t1, a, t2. auto.
Qed.

Lemma bind_exit (m : M A) (f : A -> M B) t fmt args :
  m = (t, Exit fmt args) -> bind m f = (t, Exit fmt args).
Proof. intros ->. reflexivity. Qed.

Lemma bind_step (m : M A) (f : A -> M B) t a :
  m = (t, Done a) -> bind m f = (t ++ trace (f a), result (f a)).
Proof. intros ->. simpl. destruct (f a). reflexivity. Qed.

Lemma trace_bind (m : M A) (f : A -> M B) :
  exists t, trace (bind m f) = trace m ++ t.
Proof.
  destruct m as [t [a | fmt args]]; cbn [bind].
  - destruct (f a) as [t' r]. exists t'. reflexivity.
  - exists []. symmetry. apply app_nil_r.
Qed.

End MonadLaws.

(** ** Invariants of the events of a computation *)


Section Emits.

Variable P : Event -> bool.

Lemma emits_ret {A} (a : A) : emits P (ret a).
Proof. reflexivity. Qed.

Lemma emits_bind {A B} (m : M A) (f : A -> M B) :
  emits P m -> (forall a, emits P (f a)) -> emits P (bind m f).
Proof.
  unfold emits, trace. destruct m as [t [a | fmt args]]; simpl; auto.
  intros Hm Hf. specialize (Hf a). destruct (f a) as [t' r]; simpl in *.
  rewrite forallb_app, Hm, Hf. reflexivity.
Qed.

Lemma emits_println c fmt args :
  P (Println c fmt args) = true -> emits P (println c fmt args).
Proof. unfold emits; simpl. intros ->. reflexivity. Qed.

Lemma emits_print_paths ps :
  P (PrintPaths ps) = true -> emits P (print_paths ps).
Proof. unfold emits; simpl. intros ->. reflexivity. Qed.

Lemma emits_cmd w cmd_line :
  P (CmdExecute cmd_line) = true ->
  emits P (cmd_execute_and_capture_output w cmd_line).
Proof. unfold emits; simpl. intros ->. reflexivity. Qed.

Lemma emits_check_exit cond fmt args : emits P (check_exit cond fmt args).
Proof. destruct cond; reflexivity. Qed.

Lemma emits_unreachable {A} : emits P (@unreachable A).
Proof. reflexivity. Qed.

Lemma emits_vector_at {A} (l : list A) i : emits P (vector_at l i).
Proof. unfold vector_at. destruct (nth_error l i); reflexivity. Qed.

Lemma emits_for_each {A S} (l : list A) (body : A -> S -> M S) :
  (forall a s, emits P (body a s)) -> forall s, emits P (for_each l body s).
Proof.
  intros Hb. induction l as [|a l IH]; intros s; simpl.
  - apply emits_ret.
  - apply emits_bind; auto.
Qed.

Lemma emits_for_each_ret {A S R} (l : list A)
      (body : A -> S -> M (LoopStep S R)) :
  (forall a s, emits P (body a s)) ->
  forall s, emits P (for_each_ret l body s).
Proof.
  intros Hb. induction l as [|a l IH]; intros s; simpl.
  - apply emits_ret.
  - apply emits_bind; auto. intros [s' | r]; auto using emits_ret.
Qed.

Lemma emits_add_status ec (c : M LintStatus) :
  emits P c -> emits P (add_status ec c).
Proof. intros H. apply emits_bind; auto using emits_ret. Qed.

Lemma emits_run_checks (cs : list (M LintStatus)) :
  Forall (emits P) cs -> emits P (run_checks cs).
Proof.
  induction 1; simpl; [apply emits_ret|].
  apply emits_bind; auto. intros v.
  apply emits_bind; auto using emits_ret.
Qed.

End Emits.

(* ===================================================================== *)
(** * The orchestrator is the loop over [checks_run] *)
(* ===================================================================== *)

Lemma accumulate_app (a b : list (M LintStatus)) (ec : size_t) :
  accumulate (a ++ b) ec = bind (accumulate a ec) (accumulate b).
Proof.
  revert ec. induction a as [|c a IH]; intros ec.
  - symmetry. apply (bind_ret_l ec (accumulate b)).
  - cbn [app accumulate]. rewrite bind_assoc. apply bind_ext. intros ec'. apply IH.
Qed.

Lemma accumulate_one (c : M LintStatus) (ec : size_t) :
  accumulate [c] ec = add_status ec c.
Proof. cbn [accumulate]. apply bind_ret_r. Qed.

(** One step of the comparison of the function with the loop. *)
Ltac orchestrator_step :=
  first
    [ reflexivity
    | rewrite accumulate_one
    | rewrite bind_ret_r; reflexivity
    | apply bind_ext; intro
    | rewrite bind_assoc
    | rewrite bind_ret_l
    | rewrite accumulate_app
    | progress cbn [accumulate app] ].

Lemma perform_eq_accumulate w spec paths pre_build_info build_info :
  library_linkage build_info <> LINKAGE_OTHER ->
  perform_all_checks_and_return_error_count w spec paths pre_build_info build_info
  = accumulate (checks_run w spec paths pre_build_info build_info) 0.
Proof.
  intros Hlink.
  unfold perform_all_checks_and_return_error_count, checks_run.
  destruct (is_enabled (policies build_info) EMPTY_PACKAGE); [reflexivity|].
  cbn [app accumulate].
  do 11 (apply bind_ext; intro).
  destruct (is_none (build_type pre_build_info));
    destruct (library_linkage build_info); try congruence;
      destruct (negb (empty (dumpbin (get_toolset paths pre_build_info))));
      destruct (WIN32 w);
      destruct (negb (is_enabled (policies build_info) ONLY_RELEASE_CRT));
      cbn [app accumulate];
      repeat orchestrator_step.
Qed.

(** ** The count is the plain sum *)

Lemma sum_of_verdicts_count (vs : list LintStatus) :
  sum_of_verdicts vs = Z.of_nat (count_errors vs).
Proof.
  unfold sum_of_verdicts, count_errors.
  induction vs as [|v vs IH]; [reflexivity|].
  cbn [map fold_right count_occ]. rewrite IH.
  destruct v; destruct (LintStatus_eq_dec _ _); try congruence; simpl static_cast_size_t; lia.
Qed.

Lemma count_errors_le_length (vs : list LintStatus) :
  (count_errors vs <= length vs)%nat.
Proof. apply count_occ_bound. Qed.

Lemma run_checks_length cs t vs :
  run_checks cs = (t, Done vs) -> length vs = length cs.
Proof.
  revert t vs. induction cs as [|c cs IH]; intros t vs H.
  - inversion H. reflexivity.
  - cbn [run_checks] in H.
    apply bind_done in H as (t1 & v & t2 & _ & H & _).
    apply bind_done in H as (t3 & vs' & t4 & Hr & H & _).
    inversion H; subst. simpl. f_equal. eapply IH; eauto.
Qed.

Lemma accumulate_run_checks cs ec :
  0 <= ec < SIZE_MAX_plus_1 ->
  accumulate cs ec
  = bind (run_checks cs)
         (fun vs => ret ((ec + sum_of_verdicts vs) mod SIZE_MAX_plus_1)).
Proof.
  revert ec. induction cs as [|c cs IH]; intros ec Hec.
  - cbn [accumulate run_checks]. rewrite bind_ret_l.
    unfold sum_of_verdicts; simpl. rewrite Z.add_0_r, Z.mod_small; auto.
  - cbn [accumulate run_checks]. unfold add_status.
    rewrite !bind_assoc. apply bind_ext. intros v.
    rewrite bind_ret_l, bind_assoc.
    rewrite IH by (unfold operator_plus_eq; apply Z.mod_pos_bound; reflexivity).
    apply bind_ext. intros vs. rewrite bind_ret_l. f_equal.
    unfold operator_plus_eq, sum_of_verdicts. cbn [map fold_right].
    rewrite Z.add_mod_idemp_l by discriminate. f_equal. lia.
Qed.

Lemma checks_run_length w spec paths pre_build_info build_info :
  (length (checks_run w spec paths pre_build_info build_info) <= 23)%nat.
Proof.
  unfold checks_run.
  destruct (is_enabled (policies build_info) EMPTY_PACKAGE); [simpl; lia|].
  destruct (is_none (build_type pre_build_info));
    destruct (library_linkage build_info);
    destruct (negb (empty (dumpbin (get_toolset paths pre_build_info))));
    destruct (WIN32 w);
    destruct (negb (is_enabled (policies build_info) ONLY_RELEASE_CRT));
    simpl; lia.
Qed.

(** The function runs the checks of [checks_run] in order and returns the
  sum of their verdicts. *)
Lemma perform_eq_run_checks w spec paths pre_build_info build_info :
  library_linkage build_info <> LINKAGE_OTHER ->
  perform_all_checks_and_return_error_count w spec paths pre_build_info build_info
  = bind (run_checks (checks_run w spec paths pre_build_info build_info))
         (fun vs => ret (sum_of_verdicts vs)).
Proof.
  intros Hlink. rewrite perform_eq_accumulate by assumption.
  rewrite accumulate_run_checks by (unfold SIZE_MAX_plus_1; lia).
  destruct (run_checks (checks_run w spec paths pre_build_info build_info))
    as [t [vs | fmt args]] eqn:E; [|reflexivity].
  simpl. repeat f_equal.
  apply run_checks_length in E.
  pose proof (checks_run_length w spec paths pre_build_info build_info).
  pose proof (count_errors_le_length vs).
  rewrite sum_of_verdicts_count. apply Z.mod_small.
  unfold SIZE_MAX_plus_1. lia.
Qed.

(** ** Fatal exits *)


Lemma aborts_bind_l {A B} (m : M A) (f : A -> M B) :
  aborts m -> aborts (bind m f).
Proof.
  destruct m as [t [a | fmt args]]; intros (f' & a' & H); simpl in H; [discriminate|].
  exists fmt, args. reflexivity.
Qed.

Lemma aborts_bind_r {A B} (m : M A) (f : A -> M B) :
  (forall a, aborts (f a)) -> aborts (bind m f).
Proof.
  intros H. destruct m as [t [a | fmt args]]; simpl.
  - destruct (H a) as (fmt & args & E). destruct (f a) as [t' r]. simpl in *.
    exists fmt, args. assumption.
  - exists fmt, args. reflexivity.
Qed.

Lemma aborts_not_done {A} (m : M A) t a : m = (t, Done a) -> ~ aborts m.
Proof. intros -> (fmt & args & H). discriminate. Qed.

Lemma aborts_accumulate cs c ec :
  In c cs -> aborts c -> aborts (accumulate cs ec).
Proof.
  revert ec. induction cs as [|c' cs IH]; intros ec Hin Hc; [destruct Hin|].
  destruct Hin as [-> | Hin]; cbn [accumulate].
  - apply aborts_bind_l. unfold add_status. apply aborts_bind_l. assumption.
  - apply aborts_bind_r. intros ec'. apply IH; assumption.
Qed.

Lemma perform_other_linkage_aborts w spec paths pre_build_info build_info :
  is_enabled (policies build_info) EMPTY_PACKAGE = false ->
  library_linkage build_info = LINKAGE_OTHER ->
  aborts (perform_all_checks_and_return_error_count
            w spec paths pre_build_info build_info).
Proof.
  intros He Hl. unfold perform_all_checks_and_return_error_count.
  rewrite He, Hl.
  do 13 (apply aborts_bind_r; intro).
  apply aborts_bind_l. exists "unreachable", []. reflexivity.
Qed.

(** ** Subprocess failures stop the run *)

Section FailFast.

Variable w : World.

Lemma fail_fast_of_emits {A} (m : M A) : emits no_cmd m -> fail_fast w m.
Proof.
  unfold emits. intros H. left.
  rewrite forallb_forall in *. intros e He. specialize (H e He).
  destruct e; simpl in *; auto; discriminate.
Qed.

Lemma fail_fast_ret {A} (a : A) : fail_fast w (ret a).
Proof. left. reflexivity. Qed.

Lemma fail_fast_bind {A B} (m : M A) (f : A -> M B) :
  fail_fast w m -> (forall a, fail_fast w (f a)) -> fail_fast w (bind m f).
Proof.
  intros Hm Hf. destruct m as [t [a | fmt args]].
  - destruct Hm as [Hm | (t0 & c & fmt & args & E & _)]; [|inversion E].
    simpl in Hm. specialize (Hf a). cbn [bind].
    destruct (f a) as [t' r].
    destruct Hf as [Hf | (t0 & c & fmt & args & E & H0 & Hc)].
    + left. simpl in *. rewrite forallb_app, Hm, Hf. reflexivity.
    + right. inversion E; subst. exists (t ++ t0), c, fmt, args.
      rewrite app_assoc, forallb_app, Hm, H0. split; [|split]; first [assumption | reflexivity].
  - destruct Hm as [Hm | (t0 & c & fmt' & args' & E & H0 & Hc)].
    + left. assumption.
    + right. exists t0, c, fmt', args'. cbn [bind]. inversion E; subst.
      split; [|split]; first [assumption | reflexivity].
Qed.

(** The shape of every call of [dumpbin]: run it, and exit unless it
    returned 0. *)
Lemma fail_fast_cmd_checked {B} cmd_line fmt
      (args : ExitCodeAndOutput -> list FormatArg)
      (k : ExitCodeAndOutput -> M B) :
  (forall ec_data, fail_fast w (k ec_data)) ->
  fail_fast w
    (ec_data <- cmd_execute_and_capture_output w cmd_line ;;
     check_exit (exit_code ec_data =? 0) fmt (args ec_data) ;;
     k ec_data).
Proof.
  intros Hk. unfold cmd_execute_and_capture_output. cbn [bind].
  destruct (exit_code (run_process w cmd_line) =? 0) eqn:E.
  - cbn [check_exit]. rewrite bind_ret_l.
    specialize (Hk (run_process w cmd_line)).
    destruct (k (run_process w cmd_line)) as [t r].
    destruct Hk as [Hk | (t0 & c & fmt' & args' & E' & H0 & Hc)].
    + left. simpl in *. rewrite E, Hk. reflexivity.
    + right. inversion E'; subst.
      exists (CmdExecute cmd_line :: t0), c, fmt', args'.
      simpl. rewrite E, H0. split; [|split]; first [assumption | reflexivity].
  - right. exists [], cmd_line, fmt, (args (run_process w cmd_line)). simpl.
    repeat split. apply Z.eqb_neq. assumption.
Qed.

Lemma fail_fast_for_each {A S} (l : list A) (body : A -> S -> M S) :
  (forall a s, fail_fast w (body a s)) ->
  forall s, fail_fast w (for_each l body s).
Proof.
  intros Hb. induction l as [|a l IH]; intros s; cbn [for_each].
  - apply fail_fast_ret.
  - apply fail_fast_bind; auto.
Qed.

Lemma fail_fast_add_status ec (c : M LintStatus) :
  fail_fast w c -> fail_fast w (add_status ec c).
Proof. intros H. apply fail_fast_bind; auto using fail_fast_ret. Qed.

End FailFast.

(** ** Automation for the invariants *)

(** Proves [emits P m] for a computation [m] built from the primitives,
    when [P] computes on each event that [m] may emit. *)
Ltac emits_step :=
  first
    [ apply emits_ret
    | apply emits_check_exit
    | apply emits_vector_at
    | apply emits_unreachable
    | apply emits_println; reflexivity
    | apply emits_print_paths; reflexivity
    | apply emits_cmd; reflexivity
    | apply emits_add_status
    | apply emits_for_each; intros
    | apply emits_for_each_ret; intros
    | apply emits_bind; [|intros]
    | match goal with
      | |- emits _ (if ?b then _ else _) => destruct b
      | |- emits _ (match ?x with _ => _ end) => destruct x
      end
    | progress cbv beta zeta ].

Ltac emits_auto := repeat emits_step.

(** Unfolds the checks that occur in the goal. *)
Ltac unfold_checks :=
  try unfold check_for_files_in_include_directory;
  try unfold check_for_files_in_debug_include_directory;
  try unfold check_for_files_in_debug_share_directory;
  try unfold check_folder_lib_cmake;
  try unfold check_for_misplaced_cmake_files;
  try unfold check_folder_debug_lib_cmake;
  try unfold check_for_dlls_in_lib_dir;
  try unfold check_for_copyright_file;
  try unfold check_for_exes;
  try unfold check_exports_of_dlls;
  try unfold check_uwp_bit_of_dlls;
  try unfold check_dll_architecture;
  try unfold check_lib_architecture;
  try unfold check_no_dlls_present;
  try unfold check_matching_debug_and_release_binaries;
  try unfold check_lib_files_are_available_if_dlls_are_available;
  try unfold check_bin_folders_are_not_present_in_static_build;
  try unfold check_no_empty_folders;
  try unfold check_crt_linkage_of_libs;
  try unfold check_outdated_crt_linkage_of_dlls;
  try unfold check_no_files_in_dir;
  try unfold print_invalid_architecture_files.

(** ** The trace of a list of checks *)

Lemma run_checks_trace_incl cs t vs c :
  run_checks cs = (t, Done vs) -> In c cs -> incl (trace c) t.
Proof.
  revert t vs. induction cs as [|c' cs IH]; intros t vs H Hin; [destruct Hin|].
  cbn [run_checks] in H.
  apply bind_done in H as (t1 & v & t2 & Hc & H & ->).
  apply bind_done in H as (t3 & vs' & t4 & Hr & H & ->).
  inversion H; subst. rewrite app_nil_r.
  destruct Hin as [E | Hin].
  - rewrite <- E. apply incl_appl, incl_refl.
  - apply incl_appr. eapply IH; eauto.
Qed.

Lemma run_checks_trace_from cs e :
  In e (trace (run_checks cs)) -> exists c, In c cs /\ In e (trace c).
Proof.
  induction cs as [|c cs IH]; cbn [run_checks]; intros H; [destruct H|].
  destruct c as [t [v | fmt args]] eqn:Ec; cbn [bind] in H.
  - destruct (run_checks cs) as [t' [vs | fmt args]] eqn:Er; cbn [bind ret] in H;
      cbn [trace fst] in *; rewrite ?app_nil_r in H;
      (apply in_app_or in H as [H | H];
       [ exists (t, Done v); split; [left; reflexivity | exact H]
       | destruct (IH H) as (c' & Hc' & He); exists c'; split; [right|]; assumption ]).
  - exists (t, @Exit LintStatus fmt args). split; [left; reflexivity | exact H].
Qed.

(** What [perform_all_checks] adds to the checks: two banner lines and,
    for a nonzero count, the summary. *)
Lemma perform_all_checks_done w spec paths pre_build_info build_info t n :
  perform_all_checks w spec paths pre_build_info build_info = (t, Done n) ->
  exists tc,
    perform_all_checks_and_return_error_count w spec paths pre_build_info build_info
    = (tc, Done n)
    /\ t = [Println plain "-- Performing post-build validation" []]
           ++ tc
           ++ (if negb (n =? 0)
               then [Println error
                       ("Found %u error(s). Please correct the portfile:" +++ nl +++ "    %s")
                       [ArgSize n;
                        ArgString (ports paths // spec_name spec // "portfile.cmake")]]
               else [])
           ++ [Println plain "-- Performing post-build validation done" []].
Proof.
  unfold perform_all_checks. intros H.
  apply bind_done in H as (t1 & [] & t2 & E1 & H & ->).
  apply bind_done in H as (tc & n' & t3 & Ec & H & ->).
  apply bind_done in H as (t4 & [] & t5 & E4 & H & ->).
  apply bind_done in H as (t6 & [] & t7 & E6 & H & ->).
  inversion H; subst. inversion E1; subst. inversion E6; subst.
  exists tc. split; [assumption|].
  destruct (negb (n =? 0)); inversion E4; subst; reflexivity.
Qed.

Lemma perform_all_checks_aborts w spec paths pre_build_info build_info :
  aborts (perform_all_checks_and_return_error_count
            w spec paths pre_build_info build_info) ->
  aborts (perform_all_checks w spec paths pre_build_info build_info).
Proof.
  intros H. unfold perform_all_checks.
  apply aborts_bind_r. intros _. apply aborts_bind_l. assumption.
Qed.

(** A run that returns a count ran every check of [checks_run]. *)
Lemma perform_done_run_checks w spec paths pre_build_info build_info tc n :
  perform_all_checks_and_return_error_count w spec paths pre_build_info build_info
  = (tc, Done n) ->
  exists vs,
    run_checks (checks_run w spec paths pre_build_info build_info) = (tc, Done vs)
    /\ n = sum_of_verdicts vs.
Proof.
  intros H.
  destruct (is_enabled (policies build_info) EMPTY_PACKAGE) eqn:He.
  - unfold perform_all_checks_and_return_error_count in H. rewrite He in H.
    inversion H; subst. unfold checks_run. rewrite He. exists []. auto.
  - assert (Hl : library_linkage build_info <> LINKAGE_OTHER).
    { intros Hl. eapply aborts_not_done; [exact H|].
      apply perform_other_linkage_aborts; assumption. }
    rewrite perform_eq_run_checks in H by assumption.
    apply bind_done in H as (t1 & vs & t2 & Hr & H & ->).
    inversion H; subst. rewrite app_nil_r. exists vs. auto.
Qed.

(** ** Which checks a run contains *)

Ltac find_check := cbn [is_none app]; repeat first [left; reflexivity | right].

Lemma perform_all_checks_trace_incl w spec paths pre_build_info build_info t n c :
  perform_all_checks w spec paths pre_build_info build_info = (t, Done n) ->
  In c (checks_run w spec paths pre_build_info build_info) ->
  incl (trace c) t.
Proof.
  intros H Hin.
  apply perform_all_checks_done in H as (tc & H & ->).
  apply perform_done_run_checks in H as (vs & Hr & _).
  apply incl_appr, incl_appl. eapply run_checks_trace_incl; eassumption.
Qed.

Section ChecksRun.

Variables (w : World) (spec : PackageSpec) (paths : VcpkgPaths)
          (pre_build_info : PreBuildInfo) (build_info : BuildInfo).

Hypothesis not_empty_package :
  is_enabled (policies build_info) EMPTY_PACKAGE = false.

Lemma checks_run_matching_libs :
  build_type pre_build_info = None ->
  In (check_matching_debug_and_release_binaries
        (debug_libs w paths spec) (release_libs w paths spec))
     (checks_run w spec paths pre_build_info build_info).
Proof.
  intros Hb. unfold checks_run. rewrite not_empty_package, Hb. find_check.
Qed.

Lemma checks_run_matching_dlls :
  build_type pre_build_info = None ->
  library_linkage build_info = DYNAMIC ->
  In (check_matching_debug_and_release_binaries
        (debug_dlls w paths spec) (release_dlls w paths spec))
     (checks_run w spec paths pre_build_info build_info).
Proof.
  intros Hb Hl. unfold checks_run. rewrite not_empty_package, Hb, Hl. find_check.
Qed.

Lemma checks_run_lib_architecture :
  In (check_lib_architecture w (target_architecture pre_build_info)
        (debug_libs w paths spec ++ release_libs w paths spec))
     (checks_run w spec paths pre_build_info build_info).
Proof.
  unfold checks_run. rewrite not_empty_package.
  destruct (is_none (build_type pre_build_info)); find_check.
Qed.

Lemma checks_run_import_libs_debug :
  library_linkage build_info = DYNAMIC ->
  In (check_lib_files_are_available_if_dlls_are_available
        w (policies build_info)
        (size (debug_libs w paths spec)) (size (debug_dlls w paths spec))
        (package_dir paths spec // "debug" // "lib"))
     (checks_run w spec paths pre_build_info build_info).
Proof.
  intros Hl. unfold checks_run. rewrite not_empty_package, Hl.
  destruct (is_none (build_type pre_build_info)); find_check.
Qed.

Lemma checks_run_import_libs_release :
  library_linkage build_info = DYNAMIC ->
  In (check_lib_files_are_available_if_dlls_are_available
        w (policies build_info)
        (size (release_libs w paths spec)) (size (release_dlls w paths spec))
        (package_dir paths spec // "lib"))
     (checks_run w spec paths pre_build_info build_info).
Proof.
  intros Hl. unfold checks_run. rewrite not_empty_package, Hl.
  destruct (is_none (build_type pre_build_info)); find_check.
Qed.

End ChecksRun.

(** ** Paths *)

Lemma length_append (a b : string) :
  String.length (a +++ b) = (String.length a + String.length b)%nat.
Proof. induction a as [|c a IH]; simpl; [|rewrite IH]; reflexivity. Qed.

Lemma debug_lib_dir_neq_release_lib_dir (package_dir : path) :
  package_dir // "debug" // "lib" <> package_dir // "lib".
Proof.
  intros H. apply (f_equal String.length) in H.
  unfold path_append in H. rewrite !length_append in H. simpl in H. lia.
Qed.

(** ** The import-library check *)

Lemma check_lib_files_are_available_if_dlls_are_available_eq
      w policies lib_count dll_count lib_dir :
  is_enabled policies DLLS_WITHOUT_LIBS = false ->
  check_lib_files_are_available_if_dlls_are_available
    w policies lib_count dll_count lib_dir
  = if (lib_count =? 0) && negb (dll_count =? 0)
    then ([ Println warning import_libs_fmt [ArgString lib_dir];
            Println warning
              ("If this is intended, add the following line in the portfile:" +++ nl
               +++ "    SET(%s enabled)")
              [ArgString (to_cmake_variable w DLLS_WITHOUT_LIBS)] ],
          Done ERROR_DETECTED)
    else ([], Done SUCCESS).
Proof.
  intros H. unfold check_lib_files_are_available_if_dlls_are_available.
  rewrite H. destruct ((lib_count =? 0) && negb (dll_count =? 0)); reflexivity.
Qed.

Lemma import_libs_condition lib_count dll_count :
  (lib_count =? 0) && negb (dll_count =? 0) = true
  <-> lib_count = 0 /\ dll_count <> 0.
Proof.
  rewrite andb_true_iff, negb_true_iff, Z.eqb_eq, Z.eqb_neq. reflexivity.
Qed.

(** In a dynamic build, the import-library diagnostic comes from the two
    calls of the import-library check and from no other check. *)
Lemma checks_run_import_libs_only w spec paths pre_build_info build_info :
  library_linkage build_info = DYNAMIC ->
  Forall
    (fun c =>
       emits (not_println_of import_libs_fmt) c
       \/ c = check_lib_files_are_available_if_dlls_are_available
                w (policies build_info)
                (size (debug_libs w paths spec)) (size (debug_dlls w paths spec))
                (package_dir paths spec // "debug" // "lib")
       \/ c = check_lib_files_are_available_if_dlls_are_available
                w (policies build_info)
                (size (release_libs w paths spec)) (size (release_dlls w paths spec))
                (package_dir paths spec // "lib"))
    (checks_run w spec paths pre_build_info build_info).
Proof.
  intros Hl. unfold checks_run. rewrite Hl.
  destruct (is_enabled (policies build_info) EMPTY_PACKAGE); [constructor|].
  destruct (is_none (build_type pre_build_info));
    destruct (negb (empty (dumpbin (get_toolset paths pre_build_info))));
    destruct (WIN32 w);
    cbn [app];
    repeat (constructor;
            [ first [ left; solve [unfold_checks; emits_auto]
                    | right; left; reflexivity
                    | right; right; reflexivity ] |]);
    constructor.
Qed.

(** ** The outdated-runtime check *)

Lemma for_each_println {A} (l : list A) (line : A -> Event)
      (body : A -> unit -> M unit) :
  (forall a u, body a u = ([line a], Done tt)) ->
  for_each l body tt = (map line l, Done tt).
Proof.
  intros Hb. induction l as [|a l IH]; [reflexivity|].
  cbn [for_each map]. rewrite Hb. cbn [bind]. rewrite IH. reflexivity.
Qed.

Section OutdatedCrt.

Variables (w : World) (dumpbin_exe : path) (crts : list OutdatedDynamicCrt).

Lemma outdated_loop dlls acc :
  (forall dll, In dll dlls -> exit_code (dependents w dumpbin_exe dll) = 0) ->
  for_each dlls
    (fun dll dlls_with_outdated_crt =>
       let cmd_line :=
         Strings_format w
           (dq +++ "%s" +++ dq +++ " /dependents " +++ dq +++ "%s" +++ dq)
           [ArgString dumpbin_exe; ArgString dll] in
       ec_data <- cmd_execute_and_capture_output w cmd_line ;;
       check_exit (exit_code ec_data =? 0) running_command_failed
                  [ArgString cmd_line] ;;
       ret (push_first_match
              (fun outdated_crt =>
                 regex_search w (output ec_data) (crt_regex_of outdated_crt))
              (fun outdated_crt =>
                 {| odc_file := dll; outdated_crt := outdated_crt |})
              crts dlls_with_outdated_crt))
    acc
  = (map (fun dll => CmdExecute (dependents_cmd_line w dumpbin_exe dll)) dlls,
     Done (acc ++ outdated_dlls w crts dumpbin_exe dlls)).
Proof.
  revert acc. induction dlls as [|dll dlls IH]; intros acc Hok.
  - cbn. rewrite app_nil_r. reflexivity.
  - cbn [for_each]. cbv zeta. unfold cmd_execute_and_capture_output.
    cbn [bind].
    assert (E : exit_code (dependents w dumpbin_exe dll) = 0)
      by (apply Hok; left; reflexivity).
    unfold dependents, dependents_cmd_line in E. rewrite E.
    cbn [Z.eqb check_exit ret bind app].
    rewrite IH by (intros d Hd; apply Hok; right; exact Hd).
    cbn [map outdated_dlls flat_map]. unfold push_first_match, first_outdated_crt.
    unfold dependents, dependents_cmd_line.
    match goal with
    | |- context [find ?f crts] => destruct (find f crts)
    end; cbn [app]; rewrite <- ?app_assoc, ?app_nil_r; reflexivity.
Qed.

Lemma outdated_dlls_in dlls btf :
  In btf (outdated_dlls w crts dumpbin_exe dlls)
  <-> In (odc_file btf) dlls
      /\ first_outdated_crt w crts dumpbin_exe (odc_file btf) = Some (outdated_crt btf).
Proof.
  unfold outdated_dlls. rewrite in_flat_map. split.
  - intros (dll & Hin & H).
    destruct (first_outdated_crt w crts dumpbin_exe dll) as [c|] eqn:E;
      [|destruct H].
    destruct H as [<- | []]. cbn. auto.
  - intros (Hin & E). exists (odc_file btf). split; [assumption|].
    rewrite E. left. destruct btf; reflexivity.
Qed.

Lemma first_outdated_crt_some dll :
  (exists crt, first_outdated_crt w crts dumpbin_exe dll = Some crt)
  <-> exists crt,
        In crt crts
        /\ regex_search w (output (dependents w dumpbin_exe dll)) (crt_regex_of crt)
           = true.
Proof.
  unfold first_outdated_crt. split.
  - intros (crt & E). apply find_some in E. exists crt. exact E.
  - intros (crt0 & Hin & Hm).
    destruct (find (fun crt => regex_search w (output (dependents w dumpbin_exe dll))
                                            (crt_regex_of crt)) crts)
      as [c|] eqn:E.
    + exists c. reflexivity.
    + eapply find_none in E; [|exact Hin]. cbv beta in E. congruence.
Qed.

End OutdatedCrt.

(** The line printed for a module with an outdated runtime. *)
Lemma check_outdated_crt_linkage_of_dlls_eq w dlls dumpbin_exe build_info pre_build_info :
  is_enabled (policies build_info) ALLOW_OBSOLETE_MSVCRT = false ->
  (forall dll, In dll dlls -> exit_code (dependents w dumpbin_exe dll) = 0) ->
  check_outdated_crt_linkage_of_dlls w dlls dumpbin_exe build_info pre_build_info
  = let flagged :=
        outdated_dlls w (get_outdated_dynamic_crts (platform_toolset pre_build_info))
                      dumpbin_exe dlls in
    (map (fun dll => CmdExecute (dependents_cmd_line w dumpbin_exe dll)) dlls
     ++ (if vempty flagged then []
         else [Println warning outdated_crt_detected_fmt [];
               Println plain EmptyString []]
              ++ map (fun btf =>
                        Println plain "    %s: %s"
                                [ArgString (odc_file btf);
                                 ArgString (name (outdated_crt btf))])
                     flagged
              ++ [Println plain EmptyString [];
                  Println warning
                    ("To inspect the dll files, use:" +++ nl
                     +++ "    dumpbin.exe /dependents mydllfile.dll")
                    []]),
     Done (if vempty flagged then SUCCESS else ERROR_DETECTED)).
Proof.
  intros Hp Hok. unfold check_outdated_crt_linkage_of_dlls. rewrite Hp.
  pose proof (outdated_loop w dumpbin_exe
                (get_outdated_dynamic_crts (platform_toolset pre_build_info))
                dlls [] Hok) as E.
  cbv zeta in E. cbv zeta. rewrite E. cbn [app bind].
  destruct (outdated_dlls w (get_outdated_dynamic_crts (platform_toolset pre_build_info))
                          dumpbin_exe dlls) as [|btf flagged] eqn:Ef.
  - cbn. reflexivity.
  - cbn [vempty negb].
    rewrite (for_each_println (btf :: flagged)
               (fun btf =>
                  Println plain "    %s: %s"
                          [ArgString (odc_file btf);
                           ArgString (name (outdated_crt btf))]))
      by reflexivity.
    reflexivity.
Qed.

Lemma outdated_dlls_nonempty w crts dumpbin_exe dlls :
  vempty (outdated_dlls w crts dumpbin_exe dlls) = false
  <-> exists dll,
        In dll dlls
        /\ exists crt,
             In crt crts
             /\ regex_search w (output (dependents w dumpbin_exe dll)) (crt_regex_of crt)
                = true.
Proof.
  split.
  - destruct (outdated_dlls w crts dumpbin_exe dlls) as [|btf l] eqn:E;
      [discriminate|]. intros _.
    assert (Hin : In btf (outdated_dlls w crts dumpbin_exe dlls))
      by (rewrite E; left; reflexivity).
    apply outdated_dlls_in in Hin as [Hin Hf].
    exists (odc_file btf). split; [assumption|].
    apply first_outdated_crt_some. eauto.
  - intros (dll & Hin & Hm). apply first_outdated_crt_some in Hm as (crt & Hf).
    assert (H : In {| odc_file := dll; outdated_crt := crt |}
                   (outdated_dlls w crts dumpbin_exe dlls))
      by (apply outdated_dlls_in; split; assumption).
    destruct (outdated_dlls w crts dumpbin_exe dlls); [destruct H | reflexivity].
Qed.

(** The lines that name a module and its outdated runtime are those of
    the modules found. *)
Lemma outdated_line_in_trace w dlls dumpbin_exe build_info pre_build_info dll nm :
  is_enabled (policies build_info) ALLOW_OBSOLETE_MSVCRT = false ->
  (forall dll, In dll dlls -> exit_code (dependents w dumpbin_exe dll) = 0) ->
  In (Println plain "    %s: %s" [ArgString dll; ArgString nm])
     (trace (check_outdated_crt_linkage_of_dlls w dlls dumpbin_exe build_info
                                                pre_build_info))
  <-> In dll dlls
      /\ exists crt,
           first_outdated_crt
             w (get_outdated_dynamic_crts (platform_toolset pre_build_info))
             dumpbin_exe dll = Some crt
           /\ name crt = nm.
Proof.
  intros Hp Hok.
  rewrite check_outdated_crt_linkage_of_dlls_eq by assumption.
  cbv zeta. cbn [trace fst].
  set (crts := get_outdated_dynamic_crts (platform_toolset pre_build_info)).
  rewrite in_app_iff. split.
  - intros [H | H].
    + apply in_map_iff in H as (d & H & _). discriminate H.
    + destruct (vempty (outdated_dlls w crts dumpbin_exe dlls)); [destruct H|].
      cbn [app In] in H. destruct H as [H | [H | H]]; try discriminate H.
      apply in_app_or in H as [H | H].
      * apply in_map_iff in H as (btf & E & Hin).
        apply outdated_dlls_in in Hin as [Hin Hf].
        inversion E; subst. split; [assumption|]. eauto.
      * destruct H as [H | [H | []]]; discriminate H.
  - intros (Hin & crt & Hf & <-). right.
    assert (H : In {| odc_file := dll; outdated_crt := crt |}
                   (outdated_dlls w crts dumpbin_exe dlls))
      by (apply outdated_dlls_in; split; assumption).
    destruct (outdated_dlls w crts dumpbin_exe dlls) as [|b l] eqn:E; [destruct H|].
    cbn [vempty app In]. right. right. apply in_or_app. left.
    apply in_map_iff. eexists. split; [|exact H]. reflexivity.
Qed.

(** ** The architecture checks *)

Lemma print_invalid_architecture_files_eq expected_architecture binaries :
  print_invalid_architecture_files expected_architecture binaries
  = (invalid_architecture_lines expected_architecture binaries, Done tt).
Proof.
  unfold print_invalid_architecture_files, invalid_architecture_lines.
  assert (E : forall l u,
             for_each l
               (fun (b : FileAndArch) (_ : unit) =>
                  println plain "    %s" [ArgString (file b)] ;;
                  println plain "Expected %s, but was: %s"
                          [ArgString expected_architecture; ArgString (actual_arch b)] ;;
                  println plain EmptyString [])
               u
             = (flat_map
                  (fun b =>
                     [ Println plain "    %s" [ArgString (file b)];
                       Println plain "Expected %s, but was: %s"
                               [ArgString expected_architecture; ArgString (actual_arch b)];
                       Println plain EmptyString [] ])
                  l,
                Done tt)).
  { induction l as [|b l IH]; intros []; [reflexivity|].
    cbn [for_each]. erewrite bind_ext; [|intros u; apply IH]. reflexivity. }
  rewrite E. reflexivity.
Qed.

Lemma invalid_architecture_in arch expected_architecture files b :
  In b (invalid_architecture arch expected_architecture files)
  <-> In (file b) files
      /\ arch (file b) = Some (actual_arch b)
      /\ actual_arch b <> expected_architecture.
Proof.
  unfold invalid_architecture. rewrite in_flat_map. split.
  - intros (f & Hin & H). destruct (arch f) as [a|] eqn:Ea; [|destruct H].
    destruct (String.eqb expected_architecture a) eqn:E; [destruct H|].
    destruct H as [<- | []]. cbn. apply String.eqb_neq in E. auto.
  - intros (Hin & Ha & Hne). exists (file b). split; [assumption|].
    rewrite Ha. destruct (String.eqb expected_architecture (actual_arch b)) eqn:E.
    + apply String.eqb_eq in E. congruence.
    + left. destruct b; reflexivity.
Qed.

Lemma invalid_architecture_lines_in expected_architecture binaries f :
  In (Println plain "    %s" [ArgString f])
     (invalid_architecture_lines expected_architecture binaries)
  <-> exists b, In b binaries /\ file b = f.
Proof.
  unfold invalid_architecture_lines. rewrite in_app_iff, in_flat_map. split.
  - intros [[H | [H | []]] | (b & Hin & H)]; try discriminate H.
    destruct H as [H | [H | [H | []]]]; try discriminate H.
    inversion H. eauto.
  - intros (b & Hin & <-). right. exists b. split; [assumption|]. left. reflexivity.
Qed.

Section Architecture.

Variables (w : World) (expected_architecture : string).

Lemma dll_architecture_loop files acc :
  (forall f, In f files -> extension w f = ".dll") ->
  for_each files
    (fun file binaries_with_invalid_architecture =>
       check_exit (String.eqb (extension w file) ".dll")
                  "The file extension was not .dll: %s" [ArgString file] ;;
       let info := read_dll w file in
       let actual_architecture := get_actual_architecture (machine_type info) in
       if negb (String.eqb expected_architecture actual_architecture)
       then ret (binaries_with_invalid_architecture
                   ++ [{| file := file; actual_arch := actual_architecture |}])
       else ret binaries_with_invalid_architecture)
    acc
  = ([], Done (acc ++ invalid_architecture (fun f => Some (dll_architecture w f))
                                           expected_architecture files)).
Proof.
  revert acc. induction files as [|f files IH]; intros acc Hext.
  - cbn. rewrite app_nil_r. reflexivity.
  - cbn [for_each]. rewrite (Hext f) by (left; reflexivity).
    cbn [String.eqb Ascii.eqb Bool.eqb andb check_exit]. rewrite bind_ret_l.
    cbv zeta. cbn [invalid_architecture flat_map]. unfold dll_architecture.
    destruct (negb (String.eqb expected_architecture
                               (get_actual_architecture (machine_type (read_dll w f)))));
      rewrite bind_ret_l, IH by (intros g Hg; apply Hext; right; exact Hg);
      rewrite <- ?app_assoc; reflexivity.
Qed.

Lemma lib_architecture_loop files acc :
  (forall f, In f files ->
             extension w f = ".lib" /\ length (machine_types (read_lib w f)) = 1%nat) ->
  for_each_ret files
    (fun file binaries_with_invalid_architecture =>
       check_exit (String.eqb (extension w file) ".lib")
                  "The file extension was not .lib: %s" [ArgString file] ;;
       let info := read_lib w file in
       if size (machine_types info) =? 0 then ret (Return SUCCESS)
       else
         check_exit (size (machine_types info) =? 1)
                    "Found more than 1 architecture in file %s" [ArgString file] ;;
         m <- vector_at (machine_types info) 0 ;;
         let actual_architecture := get_actual_architecture m in
         if negb (String.eqb expected_architecture actual_architecture)
         then ret (Continue
                     (binaries_with_invalid_architecture
                        ++ [{| file := file; actual_arch := actual_architecture |}]))
         else ret (Continue binaries_with_invalid_architecture))
    acc
  = ([], Done (Continue
                 (acc ++ invalid_architecture (lib_architecture w)
                                              expected_architecture files))).
Proof.
  revert acc. induction files as [|f files IH]; intros acc Hok.
  - cbn. rewrite app_nil_r. reflexivity.
  - cbn [for_each_ret]. destruct (Hok f) as [He Hl]; [left; reflexivity|].
    rewrite He. cbn [String.eqb Ascii.eqb Bool.eqb andb check_exit].
    rewrite bind_ret_l. cbv zeta.
    cbn [invalid_architecture flat_map]. unfold lib_architecture, size.
    destruct (machine_types (read_lib w f)) as [|m [|m' l]]; try discriminate Hl.
    cbn [length Z.of_nat Pos.of_succ_nat Z.eqb Pos.eqb check_exit vector_at nth_error].
    rewrite !bind_ret_l.
    destruct (negb (String.eqb expected_architecture (get_actual_architecture m)));
      rewrite bind_ret_l, IH by (intros g Hg; apply Hok; right; exact Hg);
      rewrite <- ?app_assoc; reflexivity.
Qed.

End Architecture.

Lemma check_dll_architecture_eq w expected_architecture files :
  (forall f, In f files -> extension w f = ".dll") ->
  check_dll_architecture w expected_architecture files
  = let invalid :=
        invalid_architecture (fun f => Some (dll_architecture w f))
                             expected_architecture files in
    if vempty invalid then ([], Done SUCCESS)
    else (invalid_architecture_lines expected_architecture invalid,
          Done ERROR_DETECTED).
Proof.
  intros Hext. unfold check_dll_architecture.
  rewrite dll_architecture_loop by assumption. rewrite bind_nil_done.
  cbn [app]. cbv zeta.
  destruct (invalid_architecture (fun f => Some (dll_architecture w f))
                                 expected_architecture files) as [|b l];
    [reflexivity|].
  cbn [vempty negb]. rewrite print_invalid_architecture_files_eq.
  cbn [bind ret]. rewrite app_nil_r. reflexivity.
Qed.

Lemma check_lib_architecture_eq w expected_architecture files :
  WIN32 w = true ->
  (forall f, In f files ->
             extension w f = ".lib" /\ length (machine_types (read_lib w f)) = 1%nat) ->
  check_lib_architecture w expected_architecture files
  = let invalid :=
        invalid_architecture (lib_architecture w) expected_architecture files in
    if vempty invalid then ([], Done SUCCESS)
    else (invalid_architecture_lines expected_architecture invalid,
          Done ERROR_DETECTED).
Proof.
  intros Hw Hok. unfold check_lib_architecture. rewrite Hw.
  rewrite lib_architecture_loop by assumption. rewrite bind_nil_done.
  cbn [app]. cbv zeta.
  destruct (invalid_architecture (lib_architecture w) expected_architecture files)
    as [|b l]; [reflexivity|].
  cbn [vempty negb]. rewrite print_invalid_architecture_files_eq.
  cbn [bind ret]. rewrite app_nil_r. reflexivity.
Qed.

(** When every file has a derived architecture, an architecture check
    built on [invalid_architecture] names every file whose architecture
    differs and passes when there is none. *)
Lemma invalid_architecture_report arch expected_architecture files (m : M LintStatus) :
  m = (let invalid := invalid_architecture arch expected_architecture files in
       if vempty invalid then ([], Done SUCCESS)
       else (invalid_architecture_lines expected_architecture invalid,
             Done ERROR_DETECTED)) ->
  (forall f a, In f files -> arch f = Some a -> a <> expected_architecture ->
               In (Println plain "    %s" [ArgString f]) (trace m))
  /\ (forall f, In (Println plain "    %s" [ArgString f]) (trace m) ->
                In f files /\ exists a, arch f = Some a /\ a <> expected_architecture)
  /\ ((forall f a, In f files -> arch f = Some a -> a = expected_architecture) ->
      m = ([], Done SUCCESS))
  /\ (result m = Done ERROR_DETECTED
      <-> exists f a, In f files /\ arch f = Some a /\ a <> expected_architecture).
Proof.
  intros ->. cbv zeta.
  set (invalid := invalid_architecture arch expected_architecture files).
  assert (Hin : forall f a,
             In f files -> arch f = Some a -> a <> expected_architecture ->
             In {| file := f; actual_arch := a |} invalid)
    by (intros; apply invalid_architecture_in; cbn; auto).
  split; [|split; [|split]].
  - intros f a Hf Ha Hne. specialize (Hin f a Hf Ha Hne).
    destruct invalid as [|b l] eqn:E; [destruct Hin|]. cbn [vempty trace fst].
    apply invalid_architecture_lines_in. eexists. split; [exact Hin | reflexivity].
  - intros f H. destruct invalid as [|b l] eqn:E; [destruct H|].
    cbn [vempty trace fst] in H. apply invalid_architecture_lines_in in H as (b' & Hb & <-).
    rewrite <- E in Hb. apply invalid_architecture_in in Hb as (Hf & Ha & Hne). eauto.
  - intros Hall. destruct invalid as [|b l] eqn:E; [reflexivity|].
    assert (Hb : In b invalid) by (rewrite E; left; reflexivity).
    apply invalid_architecture_in in Hb as (Hf & Ha & Hne).
    exfalso. apply Hne. eapply Hall; eassumption.
  - split.
    + destruct invalid as [|b l] eqn:E; [discriminate|]. intros _.
      assert (Hb : In b invalid) by (rewrite E; left; reflexivity).
      apply invalid_architecture_in in Hb as (Hf & Ha & Hne). eauto.
    + intros (f & a & Hf & Ha & Hne). specialize (Hin f a Hf Ha Hne).
      destruct invalid; [destruct Hin | reflexivity].
Qed.

(** ** Every check stops at a failed subprocess *)

Ltac fail_fast_step :=
  first
    [ apply fail_fast_ret
    | apply fail_fast_cmd_checked; intros
    | apply fail_fast_add_status
    | apply fail_fast_for_each; intros
    | match goal with
      | |- fail_fast _ (if ?b then _ else _) => destruct b
      | |- fail_fast _ (match ?x with _ => _ end) => destruct x
      end
    | apply fail_fast_bind; [|intros]
    | progress cbv beta zeta
    | apply fail_fast_of_emits; solve [emits_auto] ].

Ltac fail_fast_auto := repeat fail_fast_step.

Lemma perform_all_checks_fail_fast w spec paths pre_build_info build_info :
  fail_fast w (perform_all_checks w spec paths pre_build_info build_info).
Proof.
  unfold perform_all_checks, perform_all_checks_and_return_error_count.
  unfold_checks. fail_fast_auto.
Qed.

(** ** Archives with several machine types *)

Lemma check_exit_false_aborts {B} fmt args (k : unit -> M B) :
  aborts (bind (check_exit false fmt args) k).
Proof. exists fmt, args. reflexivity. Qed.

(** The archives are read in order: the check exits at an archive with more
    than one machine type when no archive before it is without machine
    types, whatever follows. *)
Lemma check_lib_architecture_aborts_at w expected_architecture pre f post :
  WIN32 w = true ->
  (forall g, In g pre -> machine_types (read_lib w g) <> []) ->
  (1 < length (machine_types (read_lib w f)))%nat ->
  aborts (check_lib_architecture w expected_architecture (pre ++ f :: post)).
Proof.
  intros Hw Hnz Hmany. unfold check_lib_architecture. rewrite Hw.
  apply aborts_bind_l.
  match goal with
  | |- aborts (for_each_ret _ ?body []) =>
      cut (forall acc, aborts (for_each_ret (pre ++ f :: post) body acc));
        [intros H; apply H|]
  end.
  induction pre as [|g pre IH]; intros acc; cbn [app for_each_ret].
  - destruct (String.eqb (extension w f) ".lib");
      [|apply aborts_bind_l, check_exit_false_aborts].
    cbn [check_exit]. rewrite bind_ret_l. cbv zeta. unfold size.
    destruct (machine_types (read_lib w f)) as [|m [|m' l]];
      [simpl in Hmany; lia | simpl in Hmany; lia | ].
    cbn [length].
    replace (Z.of_nat (S (S (length l))) =? 0) with false
      by (symmetry; apply Z.eqb_neq; lia).
    replace (Z.of_nat (S (S (length l))) =? 1) with false
      by (symmetry; apply Z.eqb_neq; lia).
    apply aborts_bind_l, check_exit_false_aborts.
  - destruct (String.eqb (extension w g) ".lib");
      [|apply aborts_bind_l, check_exit_false_aborts].
    cbn [check_exit]. rewrite bind_ret_l. cbv zeta.
    pose proof (Hnz g (or_introl eq_refl)) as Hg.
    unfold size.
    destruct (machine_types (read_lib w g)) as [|m [|m' l]] eqn:Em;
      [congruence | | ].
    + cbn [length Z.of_nat Pos.of_succ_nat Z.eqb Pos.eqb check_exit vector_at nth_error].
      rewrite !bind_ret_l.
      destruct (negb (String.eqb expected_architecture (get_actual_architecture m)));
        rewrite bind_ret_l;
        (apply IH; intros g' Hg'; apply Hnz; right; exact Hg').
    + cbn [length].
      replace (Z.of_nat (S (S (length l))) =? 0) with false
        by (symmetry; apply Z.eqb_neq; lia).
      replace (Z.of_nat (S (S (length l))) =? 1) with false
        by (symmetry; apply Z.eqb_neq; lia).
      apply aborts_bind_l, check_exit_false_aborts.
Qed.

(* ===================================================================== *)
(** * The outdated-runtime table *)
(* ===================================================================== *)

(** The entries [V_NO_MSVCRT] adds to [V_NO_120]. *)
Lemma V_NO_MSVCRT_eq :
  V_NO_MSVCRT
  = V_NO_120
      ++ [ mk_OutdatedDynamicCrt "msvcp120.dll" "msvcp120\.dll";
           mk_OutdatedDynamicCrt "msvcp120_clr0400.dll" "msvcp120_clr0400\.dll";
           mk_OutdatedDynamicCrt "msvcr120.dll" "msvcr120\.dll";
           mk_OutdatedDynamicCrt "msvcr120_clr0400.dll" "msvcr120_clr0400\.dll" ].
Proof. reflexivity. Qed.

Lemma get_outdated_dynamic_crts_other (toolset_version : option string) :
  toolset_version <> Some "v120" ->
  get_outdated_dynamic_crts toolset_version = V_NO_MSVCRT.
Proof.
  intros H. destruct toolset_version as [tsv|]; [|reflexivity].
  unfold get_outdated_dynamic_crts.
  destruct (String.eqb tsv "v120") eqn:E; [|reflexivity].
  apply String.eqb_eq in E. subst. congruence.
Qed.

(** C3.  [get_outdated_dynamic_crts] returns the historical list [V_NO_120]
    when the toolset version is present and equal to "v120", and the list
    [V_NO_MSVCRT] for every other input, an absent version included.
    [V_NO_MSVCRT] is [V_NO_120] followed by exactly four entries, whose
    names are pairwise different and none of which is a name of
    [V_NO_120]: by name it is a strict superset. *)
Theorem get_outdated_dynamic_crts_table (toolset_version : option string) :
  (toolset_version = Some "v120" ->
   get_outdated_dynamic_crts toolset_version = V_NO_120)
  /\ (toolset_version <> Some "v120" ->
      get_outdated_dynamic_crts toolset_version = V_NO_MSVCRT)
  /\ (exists extra,
        V_NO_MSVCRT = V_NO_120 ++ extra
        /\ length extra = 4%nat
        /\ NoDup (map name extra)
        /\ forall n, In n (map name extra) -> ~ In n (map name V_NO_120))
  /\ incl (map name V_NO_120) (map name V_NO_MSVCRT)
  /\ ~ incl (map name V_NO_MSVCRT) (map name V_NO_120).
Proof.
  split; [intros ->; reflexivity|].
  split; [apply get_outdated_dynamic_crts_other|].
  split; [|split].
  - eexists. split; [apply V_NO_MSVCRT_eq|].
    split; [reflexivity|]. split.
    + cbn [map name mk_OutdatedDynamicCrt].
      repeat (constructor; [simpl; intuition discriminate|]). constructor.
    + intros n Hn. cbn [map name mk_OutdatedDynamicCrt In] in Hn.
      repeat (destruct Hn as [<- | Hn]; [simpl; intuition discriminate|]).
      destruct Hn.
  - rewrite V_NO_MSVCRT_eq, map_app. apply incl_appl, incl_refl.
  - intros H. specialize (H "msvcp120.dll").
    assert (Hin : In "msvcp120.dll" (map name V_NO_MSVCRT))
      by (rewrite V_NO_MSVCRT_eq, map_app; apply in_or_app; right; left; reflexivity).
    apply H in Hin. simpl in Hin. intuition discriminate.
Qed.

Lemma get_outdated_dynamic_crts_table_witness :
  get_outdated_dynamic_crts (Some "v120") = V_NO_120
  /\ get_outdated_dynamic_crts (Some "v141") = V_NO_MSVCRT
  /\ get_outdated_dynamic_crts None = V_NO_MSVCRT.
Proof.
  split; [|split].
  - apply (proj1 (get_outdated_dynamic_crts_table (Some "v120"))). reflexivity.
  - apply (proj1 (proj2 (get_outdated_dynamic_crts_table (Some "v141")))).
    discriminate.
  - apply (proj1 (proj2 (get_outdated_dynamic_crts_table None))).
    discriminate.
Defined.

(* ===================================================================== *)
(** * The empty-package policy *)
(* ===================================================================== *)

(** C6.  When the policy [EMPTY_PACKAGE] is enabled,
    [perform_all_checks_and_return_error_count] returns 0 and emits no event
    at all: no check prints a diagnostic or runs a command, the list of the
    checks run is empty, and the whole of what [perform_all_checks] prints are
    its two banner lines. *)
Theorem empty_package_suppresses_suite w spec paths pre_build_info build_info :
  is_enabled (policies build_info) EMPTY_PACKAGE = true ->
  perform_all_checks_and_return_error_count w spec paths pre_build_info build_info
  = ([], Done 0)
  /\ checks_run w spec paths pre_build_info build_info = []
  /\ perform_all_checks w spec paths pre_build_info build_info
     = ([ Println plain "-- Performing post-build validation" [];
          Println plain "-- Performing post-build validation done" [] ],
        Done 0).
Proof.
  intros H.
  assert (E : perform_all_checks_and_return_error_count
                w spec paths pre_build_info build_info = ([], Done 0)).
  { unfold perform_all_checks_and_return_error_count. rewrite H. reflexivity. }
  split; [exact E|]. split.
  - unfold checks_run. rewrite H. reflexivity.
  - unfold perform_all_checks. rewrite E. reflexivity.
Qed.

(** A package tree that breaks many conventions (no include folder, no
    copyright file, a stray file in the package root) is accepted without a
    word once the policy is enabled. *)
Lemma empty_package_suppresses_suite_witness :
  perform_all_checks_and_return_error_count
    (Mem.world true [(Sample.pkg // "stray.txt", false)]
               Sample.dumpbin_broken Sample.all_x64_dll Sample.all_x64_lib)
    Sample.spec (Sample.paths "dumpbin.exe") (Sample.pre None None)
    (Sample.build DYNAMIC [(EMPTY_PACKAGE, true)])
  = ([], Done 0).
Proof.
  apply (proj1 (empty_package_suppresses_suite
                  (Mem.world true [(Sample.pkg // "stray.txt", false)]
                             Sample.dumpbin_broken Sample.all_x64_dll
                             Sample.all_x64_lib)
                  Sample.spec (Sample.paths "dumpbin.exe") (Sample.pre None None)
                  (Sample.build DYNAMIC [(EMPTY_PACKAGE, true)])
                  eq_refl)).
Defined.

(* ===================================================================== *)
(** * The sandboxing marker *)
(* ===================================================================== *)

(** C10.  When the expected system name is not "WindowsStore",
    [check_uwp_bit_of_dlls] returns [SUCCESS] for every list of modules and
    emits nothing, so [dumpbin] is not run; a run of [dumpbin] in the trace
    of the check implies that the system name is "WindowsStore", and under
    that name the check does run [dumpbin /headers] on the first module. *)
Theorem check_uwp_bit_only_for_WindowsStore w expected_system_name dlls dumpbin_exe :
  (expected_system_name <> "WindowsStore" ->
   check_uwp_bit_of_dlls w expected_system_name dlls dumpbin_exe
   = ([], Done SUCCESS))
  /\ (forall cmd_line,
        In (CmdExecute cmd_line)
           (trace (check_uwp_bit_of_dlls w expected_system_name dlls dumpbin_exe)) ->
        expected_system_name = "WindowsStore")
  /\ (expected_system_name = "WindowsStore" ->
      forall dll rest, dlls = dll :: rest ->
      exists t,
        trace (check_uwp_bit_of_dlls w expected_system_name dlls dumpbin_exe)
        = CmdExecute
            (Strings_format w
               (dq +++ "%s" +++ dq +++ " /headers " +++ dq +++ "%s" +++ dq)
               [ArgString dumpbin_exe; ArgString dll]) :: t).
Proof.
  unfold check_uwp_bit_of_dlls.
  destruct (String.eqb expected_system_name "WindowsStore") eqn:E.
  - apply String.eqb_eq in E. split; [congruence|]. split; [auto|].
    intros _ dll rest ->. cbn [negb for_each].
    rewrite !bind_assoc.
    match goal with
    | |- exists t, trace (bind ?m ?f) = _ =>
        destruct (trace_bind m f) as [t Ht]; exists t; exact Ht
    end.
  - apply String.eqb_neq in E. cbn [negb]. split; [reflexivity|].
    split; [intros c []|congruence].
Qed.

Lemma check_uwp_bit_only_for_WindowsStore_witness :
  check_uwp_bit_of_dlls
    Sample.no_dumpbin "Windows" [Sample.pkg // "bin" // "zlib1.dll"] "dumpbin.exe"
  = ([], Done SUCCESS)
  /\ exists t,
       trace (check_uwp_bit_of_dlls
                Sample.no_dumpbin "WindowsStore"
                [Sample.pkg // "bin" // "zlib1.dll"] "dumpbin.exe")
       = CmdExecute
           (Strings_format Sample.no_dumpbin
              (dq +++ "%s" +++ dq +++ " /headers " +++ dq +++ "%s" +++ dq)
              [ArgString "dumpbin.exe";
               ArgString (Sample.pkg // "bin" // "zlib1.dll")]) :: t.
Proof.
  split.
  - apply (proj1 (check_uwp_bit_only_for_WindowsStore
                    Sample.no_dumpbin "Windows"
                    [Sample.pkg // "bin" // "zlib1.dll"] "dumpbin.exe")).
    discriminate.
  - apply (proj2 (proj2 (check_uwp_bit_only_for_WindowsStore
                           Sample.no_dumpbin "WindowsStore"
                           [Sample.pkg // "bin" // "zlib1.dll"] "dumpbin.exe"))
                 eq_refl (Sample.pkg // "bin" // "zlib1.dll") []).
    reflexivity.
Defined.

(* ===================================================================== *)
(** * The count is the sum of the verdicts *)
(* ===================================================================== *)

(** C1.  When [perform_all_checks] returns a count [n], the checks that
    were run are those of [checks_run], each returned a verdict, and [n] is
    the arithmetic sum of the verdicts, [ERROR_DETECTED] counting for 1 and
    [SUCCESS] for 0: [n] is the number of checks that returned
    [ERROR_DETECTED], whatever each of them printed.  What the run printed
    is the banner, the diagnostics of these checks in order, the summary when
    [n] is not zero, and the closing banner. *)
Theorem perform_all_checks_sums_verdicts w spec paths pre_build_info build_info t n :
  perform_all_checks w spec paths pre_build_info build_info = (t, Done n) ->
  exists vs tc,
    run_checks (checks_run w spec paths pre_build_info build_info) = (tc, Done vs)
    /\ length vs = length (checks_run w spec paths pre_build_info build_info)
    /\ n = fold_right Z.add 0 (map static_cast_size_t vs)
    /\ static_cast_size_t ERROR_DETECTED = 1
    /\ static_cast_size_t SUCCESS = 0
    /\ n = Z.of_nat (count_occ LintStatus_eq_dec vs ERROR_DETECTED)
    /\ t = [Println plain "-- Performing post-build validation" []]
           ++ tc
           ++ (if negb (n =? 0)
               then [Println error
                       ("Found %u error(s). Please correct the portfile:" +++ nl +++ "    %s")
                       [ArgSize n;
                        ArgString (ports paths // spec_name spec // "portfile.cmake")]]
               else [])
           ++ [Println plain "-- Performing post-build validation done" []].
Proof.
  intros H.
  apply perform_all_checks_done in H as (tc & H & Ht).
  apply perform_done_run_checks in H as (vs & Hr & Hn).
  exists vs, tc. split; [assumption|].
  split; [eapply run_checks_length; eassumption|].
  split; [exact Hn|]. split; [reflexivity|]. split; [reflexivity|].
  split; [rewrite Hn; apply sum_of_verdicts_count | exact Ht].
Qed.

(** A static build of the sample tree: the two modules under [bin] and
    [debug/bin] make one error, the two [bin] folders another. *)
Lemma perform_all_checks_sums_verdicts_witness :
  exists vs tc,
    run_checks (checks_run Sample.w Sample.spec (Sample.paths "dumpbin.exe")
                           (Sample.pre (Some "v141") None)
                           (Sample.build STATIC []))
    = (tc, Done vs)
    /\ length vs = 20%nat
    /\ 2 = fold_right Z.add 0 (map static_cast_size_t vs)
    /\ 2 = Z.of_nat (count_occ LintStatus_eq_dec vs ERROR_DETECTED).
Proof.
  destruct (perform_all_checks_sums_verdicts
              Sample.w Sample.spec (Sample.paths "dumpbin.exe")
              (Sample.pre (Some "v141") None) (Sample.build STATIC [])
              (t := trace (perform_all_checks
                             Sample.w Sample.spec (Sample.paths "dumpbin.exe")
                             (Sample.pre (Some "v141") None)
                             (Sample.build STATIC [])))
              (n := 2) eq_refl)
    as (vs & tc & Hr & Hl & Hn & _ & _ & Hc & _).
  exists vs, tc.
  split; [exact Hr|]. split; [exact Hl|]. split; [exact Hn | exact Hc].
Defined.

(* ===================================================================== *)
(** * Matching debug and release binaries *)
(* ===================================================================== *)

Lemma check_matching_debug_and_release_binaries_eq debug_binaries release_binaries :
  check_matching_debug_and_release_binaries debug_binaries release_binaries
  = if size debug_binaries =? size release_binaries
    then ([], Done SUCCESS)
    else (Println warning mismatching_number_fmt
                  [ArgSize (size debug_binaries); ArgSize (size release_binaries)]
          :: Println plain "Debug binaries" []
          :: PrintPaths debug_binaries
          :: Println plain "Release binaries" []
          :: PrintPaths release_binaries
          :: (if size debug_binaries =? 0
              then [Println warning "Debug binaries were not found" []]
              else [])
          ++ (if size release_binaries =? 0
              then [Println warning "Release binaries were not found" []]
              else [])
          ++ [Println plain EmptyString []],
          Done ERROR_DETECTED).
Proof.
  unfold check_matching_debug_and_release_binaries.
  destruct (size debug_binaries =? size release_binaries); [reflexivity|].
  destruct (size debug_binaries =? 0); destruct (size release_binaries =? 0);
    reflexivity.
Qed.

Lemma size_eqb_length {A} (a b : list A) :
  (size a =? size b) = Nat.eqb (length a) (length b).
Proof.
  unfold size. destruct (Nat.eqb (length a) (length b)) eqn:E.
  - apply Nat.eqb_eq in E. rewrite E. apply Z.eqb_refl.
  - apply Nat.eqb_neq in E. apply Z.eqb_neq. lia.
Qed.

(** Without the mismatch check, no event of the run is the mismatch
    diagnostic. *)
Lemma perform_all_checks_single_configuration w spec paths pre_build_info build_info bt :
  build_type pre_build_info = Some bt ->
  emits (not_println_of mismatching_number_fmt)
        (perform_all_checks w spec paths pre_build_info build_info).
Proof.
  intros H.
  unfold perform_all_checks, perform_all_checks_and_return_error_count.
  rewrite H. cbn [is_none].
  unfold_checks.
  emits_auto.
Qed.

(** C5.  [check_matching_debug_and_release_binaries] returns
    [ERROR_DETECTED] exactly when the two lists differ in size, and then the
    first line it prints is the mismatch diagnostic with the two sizes as its
    arguments; with equal sizes it returns [SUCCESS] and prints nothing.  In
    a run, the mismatch diagnostic is printed only when
    [pre_build_info.build_type] is absent: with a declared build type the
    check is run neither for the libraries nor for the modules.  Without
    one, a run that returns a count has run the check on the libraries and,
    for a dynamic library linkage, on the modules. *)
Theorem check_matching_debug_and_release_binaries_spec
        debug_binaries release_binaries w spec paths pre_build_info build_info :
  (result (check_matching_debug_and_release_binaries debug_binaries release_binaries)
   = Done ERROR_DETECTED
   <-> length debug_binaries <> length release_binaries)
  /\ (result (check_matching_debug_and_release_binaries debug_binaries release_binaries)
      = Done SUCCESS
      <-> length debug_binaries = length release_binaries)
  /\ (length debug_binaries <> length release_binaries ->
      exists rest,
        trace (check_matching_debug_and_release_binaries debug_binaries release_binaries)
        = Println warning mismatching_number_fmt
                  [ArgSize (Z.of_nat (length debug_binaries));
                   ArgSize (Z.of_nat (length release_binaries))]
          :: rest)
  /\ (length debug_binaries = length release_binaries ->
      trace (check_matching_debug_and_release_binaries debug_binaries release_binaries)
      = [])
  /\ (forall c args,
        In (Println c mismatching_number_fmt args)
           (trace (perform_all_checks w spec paths pre_build_info build_info)) ->
        build_type pre_build_info = None)
  /\ (build_type pre_build_info = None ->
      is_enabled (policies build_info) EMPTY_PACKAGE = false ->
      forall t n,
        perform_all_checks w spec paths pre_build_info build_info = (t, Done n) ->
        incl (trace (check_matching_debug_and_release_binaries
                       (debug_libs w paths spec) (release_libs w paths spec))) t
        /\ (library_linkage build_info = DYNAMIC ->
            incl (trace (check_matching_debug_and_release_binaries
                           (debug_dlls w paths spec) (release_dlls w paths spec))) t)).
Proof.
  assert (Hrun :
            build_type pre_build_info = None ->
            is_enabled (policies build_info) EMPTY_PACKAGE = false ->
            forall t n,
              perform_all_checks w spec paths pre_build_info build_info = (t, Done n) ->
              incl (trace (check_matching_debug_and_release_binaries
                             (debug_libs w paths spec) (release_libs w paths spec))) t
              /\ (library_linkage build_info = DYNAMIC ->
                  incl (trace (check_matching_debug_and_release_binaries
                                 (debug_dlls w paths spec) (release_dlls w paths spec))) t)).
  { intros Hb He t n H. split; [|intros Hl];
      (eapply perform_all_checks_trace_incl; [exact H|]).
    - apply checks_run_matching_libs; assumption.
    - apply checks_run_matching_dlls; assumption. }
  assert (Honly :
            forall c args,
              In (Println c mismatching_number_fmt args)
                 (trace (perform_all_checks w spec paths pre_build_info build_info)) ->
              build_type pre_build_info = None).
  { intros c args Hin.
    destruct (build_type pre_build_info) as [bt|] eqn:Hb; [|reflexivity].
    pose proof (perform_all_checks_single_configuration
                  w spec paths pre_build_info build_info Hb) as He.
    unfold emits in He. rewrite forallb_forall in He. apply He in Hin.
    unfold not_println_of in Hin. cbn [is_println_of] in Hin.
    rewrite String.eqb_refl in Hin. discriminate. }
  rewrite check_matching_debug_and_release_binaries_eq, size_eqb_length.
  destruct (Nat.eqb (length debug_binaries) (length release_binaries)) eqn:E;
    [apply Nat.eqb_eq in E | apply Nat.eqb_neq in E]; cbn [result snd trace fst].
  - split; [split; [discriminate | contradiction]|].
    split; [split; auto|]. split; [contradiction|]. split; [reflexivity|].
    split; assumption.
  - split; [split; auto|].
    split; [split; [discriminate | contradiction]|].
    split; [intros _; eexists; reflexivity|]. split; [contradiction|].
    split; assumption.
Qed.

(** Two debug binaries and one release binary: an error, and the message
    cites 2 and 1.  A release-only build of a tree without any debug library
    prints no mismatch diagnostic; the same tree built for both
    configurations gets the diagnostic, with 0 and 1. *)
Lemma check_matching_debug_and_release_binaries_spec_witness :
  result (check_matching_debug_and_release_binaries
            ["debug/lib/a.lib"; "debug/lib/b.lib"] ["lib/a.lib"])
  = Done ERROR_DETECTED
  /\ (exists rest,
        trace (check_matching_debug_and_release_binaries
                 ["debug/lib/a.lib"; "debug/lib/b.lib"] ["lib/a.lib"])
        = Println warning mismatching_number_fmt [ArgSize 2; ArgSize 1] :: rest)
  /\ (forall c args,
        ~ In (Println c mismatching_number_fmt args)
             (trace (perform_all_checks
                       Sample.release_only Sample.spec (Sample.paths EmptyString)
                       (Sample.pre None (Some RELEASE)) (Sample.build DYNAMIC []))))
  /\ In (Println warning mismatching_number_fmt [ArgSize 0; ArgSize 1])
        (trace (perform_all_checks
                  Sample.release_only Sample.spec (Sample.paths EmptyString)
                  (Sample.pre None None) (Sample.build DYNAMIC []))).
Proof.
  pose proof (check_matching_debug_and_release_binaries_spec
                ["debug/lib/a.lib"; "debug/lib/b.lib"] ["lib/a.lib"]
                Sample.release_only Sample.spec (Sample.paths EmptyString)
                (Sample.pre None (Some RELEASE)) (Sample.build DYNAMIC []))
    as (He & _ & Ht & _ & Honly & _).
  split; [apply He; simpl; lia|].
  split; [apply Ht; simpl; lia|].
  split; [intros c args Hin; apply Honly in Hin; discriminate Hin|].
  pose proof (check_matching_debug_and_release_binaries_spec
                [] []
                Sample.release_only Sample.spec (Sample.paths EmptyString)
                (Sample.pre None None) (Sample.build DYNAMIC []))
    as (_ & _ & _ & _ & _ & Hrun).
  destruct (Hrun eq_refl eq_refl
                 (trace (perform_all_checks
                           Sample.release_only Sample.spec (Sample.paths EmptyString)
                           (Sample.pre None None) (Sample.build DYNAMIC [])))
                 3 eq_refl) as [Hlibs _].
  apply Hlibs. left. reflexivity.
Defined.

(* ===================================================================== *)
(** * Import libraries *)
(* ===================================================================== *)

(** Where the import-library diagnostic of a dynamic build comes from. *)
Lemma import_libs_diagnostic_in_run w spec paths pre_build_info build_info t n lib_dir :
  library_linkage build_info = DYNAMIC ->
  is_enabled (policies build_info) DLLS_WITHOUT_LIBS = false ->
  perform_all_checks w spec paths pre_build_info build_info = (t, Done n) ->
  In (Println warning import_libs_fmt [ArgString lib_dir]) t ->
  (lib_dir = package_dir paths spec // "debug" // "lib"
   /\ size (debug_libs w paths spec) = 0 /\ size (debug_dlls w paths spec) <> 0)
  \/ (lib_dir = package_dir paths spec // "lib"
      /\ size (release_libs w paths spec) = 0 /\ size (release_dlls w paths spec) <> 0).
Proof.
  intros Hl Hp H Hin.
  apply perform_all_checks_done in H as (tc & H & ->).
  apply perform_done_run_checks in H as (vs & Hr & _).
  cbn [app] in Hin. destruct Hin as [Hin | Hin]; [discriminate Hin|].
  apply in_app_or in Hin as [Hin | Hin].
  - replace tc with (trace (run_checks (checks_run w spec paths pre_build_info build_info)))
      in Hin by (rewrite Hr; reflexivity).
    apply run_checks_trace_from in Hin as (c & Hc & Hin).
    pose proof (@checks_run_import_libs_only w spec paths pre_build_info build_info Hl) as Hall.
    rewrite Forall_forall in Hall. destruct (Hall c Hc) as [He | [-> | ->]].
    + unfold emits in He. rewrite forallb_forall in He. apply He in Hin.
      unfold not_println_of in Hin. cbn [is_println_of] in Hin.
      rewrite String.eqb_refl in Hin. discriminate Hin.
    + rewrite check_lib_files_are_available_if_dlls_are_available_eq in Hin by assumption.
      destruct ((size (debug_libs w paths spec) =? 0)
                && negb (size (debug_dlls w paths spec) =? 0)) eqn:E;
        cbn [trace fst In] in Hin.
      * apply import_libs_condition in E.
        destruct Hin as [Hin | [Hin | []]]; [|discriminate Hin].
        inversion Hin; subst. left. tauto.
      * destruct Hin.
    + rewrite check_lib_files_are_available_if_dlls_are_available_eq in Hin by assumption.
      destruct ((size (release_libs w paths spec) =? 0)
                && negb (size (release_dlls w paths spec) =? 0)) eqn:E;
        cbn [trace fst In] in Hin.
      * apply import_libs_condition in E.
        destruct Hin as [Hin | [Hin | []]]; [|discriminate Hin].
        inversion Hin; subst. right. tauto.
      * destruct Hin.
  - apply in_app_or in Hin as [Hin | Hin].
    + destruct (negb (n =? 0)); [destruct Hin as [Hin | []]; discriminate Hin | destruct Hin].
    + destruct Hin as [Hin | []]; discriminate Hin.
Qed.

(** C7.  With the policy [DLLS_WITHOUT_LIBS] not enabled,
    [check_lib_files_are_available_if_dlls_are_available] returns
    [ERROR_DETECTED] exactly when the library count is zero and the module
    count is not, and then it prints the import-library diagnostic with the
    library directory as its argument; otherwise it returns [SUCCESS] and
    prints nothing.  A dynamic build applies the check to the debug pair
    ([debug/lib], with the counts of [debug/lib] and [debug/bin]) and to
    the release pair ([lib], with the counts of [lib] and [bin]), each on
    its own: a run that returns a count printed the diagnostic for a
    directory exactly when that pair has no library and some module. *)
Theorem check_lib_files_are_available_if_dlls_are_available_spec
        w pol lib_count dll_count lib_dir
        spec paths pre_build_info build_info t n :
  (is_enabled pol DLLS_WITHOUT_LIBS = false ->
   (result (check_lib_files_are_available_if_dlls_are_available
              w pol lib_count dll_count lib_dir) = Done ERROR_DETECTED
    <-> lib_count = 0 /\ dll_count <> 0)
   /\ (lib_count = 0 /\ dll_count <> 0 ->
       exists rest,
         trace (check_lib_files_are_available_if_dlls_are_available
                  w pol lib_count dll_count lib_dir)
         = Println warning import_libs_fmt [ArgString lib_dir] :: rest)
   /\ (~ (lib_count = 0 /\ dll_count <> 0) ->
       check_lib_files_are_available_if_dlls_are_available
         w pol lib_count dll_count lib_dir = ([], Done SUCCESS)))
  /\ (library_linkage build_info = DYNAMIC ->
      is_enabled (policies build_info) DLLS_WITHOUT_LIBS = false ->
      is_enabled (policies build_info) EMPTY_PACKAGE = false ->
      perform_all_checks w spec paths pre_build_info build_info = (t, Done n) ->
      (In (Println warning import_libs_fmt
                   [ArgString (package_dir paths spec // "debug" // "lib")]) t
       <-> size (debug_libs w paths spec) = 0 /\ size (debug_dlls w paths spec) <> 0)
      /\ (In (Println warning import_libs_fmt
                      [ArgString (package_dir paths spec // "lib")]) t
          <-> size (release_libs w paths spec) = 0
              /\ size (release_dlls w paths spec) <> 0)).
Proof.
  split.
  - intros Hp.
    rewrite check_lib_files_are_available_if_dlls_are_available_eq by assumption.
    pose proof (import_libs_condition lib_count dll_count) as Hc.
    destruct ((lib_count =? 0) && negb (dll_count =? 0)); cbn [result snd trace fst].
    + split; [split; intros; [apply Hc|]; reflexivity|].
      split; [intros _; eexists; reflexivity|].
      intros Hn. exfalso. apply Hn, Hc. reflexivity.
    + split; [split; [discriminate|intros H; apply Hc in H; discriminate H]|].
      split; [intros H; apply Hc in H; discriminate H | reflexivity].
  - intros Hl Hp He H. split; split.
    + intros Hin.
      destruct (@import_libs_diagnostic_in_run _ _ _ _ _ _ _ _ Hl Hp H Hin)
        as [(_ & Hc) | (E & _)]; [exact Hc|].
      exfalso. eapply debug_lib_dir_neq_release_lib_dir. exact E.
    + intros Hc. apply import_libs_condition in Hc.
      eapply perform_all_checks_trace_incl;
        [exact H | apply checks_run_import_libs_debug; assumption |].
      rewrite check_lib_files_are_available_if_dlls_are_available_eq, Hc by assumption.
      left. reflexivity.
    + intros Hin.
      destruct (@import_libs_diagnostic_in_run _ _ _ _ _ _ _ _ Hl Hp H Hin)
        as [(E & _) | (_ & Hc)]; [|exact Hc].
      exfalso. eapply debug_lib_dir_neq_release_lib_dir. symmetry. exact E.
    + intros Hc. apply import_libs_condition in Hc.
      eapply perform_all_checks_trace_incl;
        [exact H | apply checks_run_import_libs_release; assumption |].
      rewrite check_lib_files_are_available_if_dlls_are_available_eq, Hc by assumption.
      left. reflexivity.
Qed.

(** The sample tree without its release import library: the check fails
    for [lib] and passes for [debug/lib]. *)
Lemma check_lib_files_are_available_if_dlls_are_available_spec_witness :
  result (check_lib_files_are_available_if_dlls_are_available
            Sample.no_release_lib {| m_policies := [] |} 0 1 (Sample.pkg // "lib"))
  = Done ERROR_DETECTED
  /\ In (Println warning import_libs_fmt [ArgString (Sample.pkg // "lib")])
        (trace (perform_all_checks
                  Sample.no_release_lib Sample.spec (Sample.paths "dumpbin.exe")
                  (Sample.pre None None) (Sample.build DYNAMIC [])))
  /\ ~ In (Println warning import_libs_fmt
                   [ArgString (Sample.pkg // "debug" // "lib")])
          (trace (perform_all_checks
                    Sample.no_release_lib Sample.spec (Sample.paths "dumpbin.exe")
                    (Sample.pre None None) (Sample.build DYNAMIC []))).
Proof.
  destruct (check_lib_files_are_available_if_dlls_are_available_spec
              Sample.no_release_lib {| m_policies := [] |} 0 1 (Sample.pkg // "lib")
              Sample.spec (Sample.paths "dumpbin.exe")
              (Sample.pre None None) (Sample.build DYNAMIC [])
              (trace (perform_all_checks
                        Sample.no_release_lib Sample.spec (Sample.paths "dumpbin.exe")
                        (Sample.pre None None) (Sample.build DYNAMIC [])))
              3)
    as [Hf Hrun].
  destruct (Hf eq_refl) as (Herr & _ & _).
  destruct (Hrun eq_refl eq_refl eq_refl eq_refl) as [Hdebug Hrelease].
  split; [apply Herr; split; [reflexivity | discriminate]|].
  split.
  - apply (proj2 Hrelease). split; [reflexivity | discriminate].
  - intros Hin. destruct (proj1 Hdebug Hin) as [E _]. discriminate E.
Defined.

(* ===================================================================== *)
(** * Outdated runtimes *)
(* ===================================================================== *)

(** C8.  With the policy [ALLOW_OBSOLETE_MSVCRT] not enabled and
    [dumpbin /dependents] succeeding on every module,
    [check_outdated_crt_linkage_of_dlls] returns [ERROR_DETECTED] exactly
    when the dependents of some module match some entry of the list that
    [get_outdated_dynamic_crts] selects for the declared toolset version; a
    module is named in the detail exactly when some entry of that list
    matches its dependents, and the runtime printed with it is the first
    such entry.  For the toolset "v120" no module is ever reported with one
    of the four names that only the later list has. *)
Theorem check_outdated_crt_linkage_of_dlls_spec
        w dlls dumpbin_exe build_info pre_build_info :
  is_enabled (policies build_info) ALLOW_OBSOLETE_MSVCRT = false ->
  (forall dll, In dll dlls -> exit_code (dependents w dumpbin_exe dll) = 0) ->
  let crts := get_outdated_dynamic_crts (platform_toolset pre_build_info) in
  let m := check_outdated_crt_linkage_of_dlls w dlls dumpbin_exe build_info
                                              pre_build_info in
  let matches dll crt :=
    regex_search w (output (dependents w dumpbin_exe dll)) (crt_regex_of crt) = true in
  (result m = Done ERROR_DETECTED
   <-> exists dll, In dll dlls /\ exists crt, In crt crts /\ matches dll crt)
  /\ (result m = Done SUCCESS
      <-> ~ exists dll, In dll dlls /\ exists crt, In crt crts /\ matches dll crt)
  /\ (forall dll,
        (exists nm, In (Println plain "    %s: %s" [ArgString dll; ArgString nm])
                       (trace m))
        <-> In dll dlls /\ exists crt, In crt crts /\ matches dll crt)
  /\ (forall dll nm,
        In (Println plain "    %s: %s" [ArgString dll; ArgString nm]) (trace m)
        <-> In dll dlls
            /\ exists crt,
                 find (fun crt => regex_search w (output (dependents w dumpbin_exe dll))
                                               (crt_regex_of crt)) crts = Some crt
                 /\ name crt = nm)
  /\ (platform_toolset pre_build_info = Some "v120" ->
      forall dll nm,
        In nm ["msvcp120.dll"; "msvcp120_clr0400.dll";
               "msvcr120.dll"; "msvcr120_clr0400.dll"] ->
        ~ In (Println plain "    %s: %s" [ArgString dll; ArgString nm]) (trace m)).
Proof.
  intros Hp Hok crts m matches. unfold matches. clear matches.
  assert (Hline : forall dll nm,
             In (Println plain "    %s: %s" [ArgString dll; ArgString nm]) (trace m)
             <-> In dll dlls
                 /\ exists crt,
                      first_outdated_crt w crts dumpbin_exe dll = Some crt
                      /\ name crt = nm)
    by (intros; apply outdated_line_in_trace; assumption).
  pose proof (outdated_dlls_nonempty w crts dumpbin_exe dlls) as Hne.
  assert (Hres : result m
                 = Done (if vempty (outdated_dlls w crts dumpbin_exe dlls)
                         then SUCCESS else ERROR_DETECTED)).
  { unfold m. rewrite check_outdated_crt_linkage_of_dlls_eq by assumption.
    reflexivity. }
  split; [|split; [|split; [|split]]].
  - rewrite Hres, <- Hne.
    destruct (vempty (outdated_dlls w crts dumpbin_exe dlls));
      split; congruence.
  - rewrite Hres, <- Hne.
    destruct (vempty (outdated_dlls w crts dumpbin_exe dlls));
      split; congruence.
  - intros dll. split.
    + intros (nm & H). apply Hline in H as (Hin & crt & Hf & _).
      split; [assumption|]. apply first_outdated_crt_some. eauto.
    + intros (Hin & Hm). apply first_outdated_crt_some in Hm as (crt & Hf).
      exists (name crt). apply Hline. eauto.
  - exact Hline.
  - intros Hv dll nm Hnm H. apply Hline in H as (_ & crt & Hf & <-).
    apply find_some in Hf as [Hin _].
    unfold crts in Hin. rewrite Hv in Hin. cbn [get_outdated_dynamic_crts] in Hin.
    apply (in_map name) in Hin.
    revert Hnm Hin. generalize (name crt). intros n Hn Hin.
    simpl in Hn, Hin. intuition (subst; discriminate).
Qed.

(** A module that depends on MSVCR120.dll: built with the toolset v120 it
    passes, and the name is not reported; built with v141 it is reported
    with that name. *)
Lemma check_outdated_crt_linkage_of_dlls_spec_witness :
  result (check_outdated_crt_linkage_of_dlls
            Sample.links_msvcr120 [Sample.pkg // "bin" // "zlib1.dll"] "dumpbin.exe"
            (Sample.build DYNAMIC []) (Sample.pre (Some "v120") None))
  = Done SUCCESS
  /\ ~ In (Println plain "    %s: %s"
                   [ArgString (Sample.pkg // "bin" // "zlib1.dll");
                    ArgString "msvcr120.dll"])
          (trace (check_outdated_crt_linkage_of_dlls
                    Sample.links_msvcr120 [Sample.pkg // "bin" // "zlib1.dll"]
                    "dumpbin.exe"
                    (Sample.build DYNAMIC []) (Sample.pre (Some "v120") None)))
  /\ result (check_outdated_crt_linkage_of_dlls
               Sample.links_msvcr120 [Sample.pkg // "bin" // "zlib1.dll"] "dumpbin.exe"
               (Sample.build DYNAMIC []) (Sample.pre (Some "v141") None))
     = Done ERROR_DETECTED
  /\ In (Println plain "    %s: %s"
                 [ArgString (Sample.pkg // "bin" // "zlib1.dll");
                  ArgString "msvcr120.dll"])
        (trace (check_outdated_crt_linkage_of_dlls
                  Sample.links_msvcr120 [Sample.pkg // "bin" // "zlib1.dll"]
                  "dumpbin.exe"
                  (Sample.build DYNAMIC []) (Sample.pre (Some "v141") None))).
Proof.
  assert (Hok : forall dll,
             In dll [Sample.pkg // "bin" // "zlib1.dll"] ->
             exit_code (dependents Sample.links_msvcr120 "dumpbin.exe" dll) = 0)
    by (intros dll [<- | []]; reflexivity).
  destruct (check_outdated_crt_linkage_of_dlls_spec
              Sample.links_msvcr120 [Sample.pkg // "bin" // "zlib1.dll"] "dumpbin.exe"
              (Sample.build DYNAMIC []) (Sample.pre (Some "v120") None)
              eq_refl Hok)
    as (_ & Hs & _ & _ & Hv).
  destruct (check_outdated_crt_linkage_of_dlls_spec
              Sample.links_msvcr120 [Sample.pkg // "bin" // "zlib1.dll"] "dumpbin.exe"
              (Sample.build DYNAMIC []) (Sample.pre (Some "v141") None)
              eq_refl Hok)
    as (He & _ & _ & Hl & _).
  split; [|split; [|split]].
  - apply Hs. intros (dll & [<- | []] & crt & Hin & Hm).
    cbn [Sample.pre platform_toolset get_outdated_dynamic_crts] in Hin.
    simpl in Hin.
    repeat (destruct Hin as [<- | Hin]; [vm_compute in Hm; discriminate Hm|]).
    destruct Hin.
  - apply Hv; [reflexivity|]. right. right. left. reflexivity.
  - apply He. exists (Sample.pkg // "bin" // "zlib1.dll").
    split; [left; reflexivity|].
    exists (mk_OutdatedDynamicCrt "msvcr120.dll" "msvcr120\.dll").
    split; [|vm_compute; reflexivity].
    do 15 right. left. reflexivity.
  - apply Hl. split; [left; reflexivity|].
    exists (mk_OutdatedDynamicCrt "msvcr120.dll" "msvcr120\.dll").
    split; [vm_compute|]; reflexivity.
Defined.

(* ===================================================================== *)
(** * Files under debug/include *)
(* ===================================================================== *)

Lemma vempty_false_iff {A} (l : list A) : vempty l = false <-> exists a, In a l.
Proof.
  destruct l as [|a l]; split; try discriminate; try reflexivity.
  - intros (a & []).
  - intros _. exists a. left. reflexivity.
Qed.

Lemma keep_if_nonempty w (pred : path -> bool) (l : list path) :
  keep_if_spec w ->
  vempty (unstable_keep_if w pred l) = false
  <-> exists f, In f l /\ pred f = true.
Proof.
  intros Hk. rewrite vempty_false_iff. split.
  - intros (f & Hf). apply (Permutation_in _ (Hk pred l)) in Hf.
    apply filter_In in Hf. eauto.
  - intros (f & Hf). exists f.
    apply (Permutation_in _ (Permutation_sym (Hk pred l))).
    apply filter_In. exact Hf.
Qed.

Lemma Mem_world_keep_if_spec win32 tree run dll lib :
  keep_if_spec (Mem.world win32 tree run dll lib).
Proof. intros pred l. apply Permutation_refl. Qed.

(** C9 (as stated, refuted).  The only regular file of the package is a
    header under [debug/include]: no file elsewhere in the package can be
    duplicated by it, and the check reports a violation all the same. *)
Lemma debug_include_flags_files_that_duplicate_nothing :
  result (check_for_files_in_debug_include_directory
            Sample.debug_header_only Sample.pkg)
  = Done ERROR_DETECTED
  /\ files_elsewhere Sample.debug_header_only Sample.pkg = [].
Proof. split; reflexivity. Qed.

(** C9 (amended).  [check_for_files_in_debug_include_directory] returns
    [ERROR_DETECTED], and prints its warning, exactly when some entry found
    recursively under [debug/include] is not a directory and has an extension
    other than ".ifc", whether or not the file exists elsewhere in the
    package; otherwise it returns [SUCCESS] and prints nothing. *)
Theorem check_for_files_in_debug_include_directory_spec w package_dir :
  keep_if_spec w ->
  let offending :=
    exists f,
      In f (get_files_recursive w (package_dir // "debug" // "include"))
      /\ fs_is_directory w f = false
      /\ extension w f <> ".ifc" in
  (result (check_for_files_in_debug_include_directory w package_dir)
   = Done ERROR_DETECTED <-> offending)
  /\ (check_for_files_in_debug_include_directory w package_dir
      = ([], Done SUCCESS) <-> ~ offending)
  /\ (offending ->
      exists fmt,
        trace (check_for_files_in_debug_include_directory w package_dir)
        = [Println warning fmt []]).
Proof.
  intros Hk offending.
  set (pred := fun p : path =>
                 negb (fs_is_directory w p) && negb (String.eqb (extension w p) ".ifc")).
  assert (Hoff : offending
                 <-> vempty (unstable_keep_if w pred
                               (get_files_recursive w (package_dir // "debug" // "include")))
                     = false).
  { rewrite keep_if_nonempty by assumption. unfold offending, pred.
    split; intros (f & Hin & H); exists f; (split; [assumption|]).
    - destruct H as [Hd He]. rewrite Hd. apply String.eqb_neq in He. rewrite He. reflexivity.
    - apply andb_true_iff in H as [Hd He].
      rewrite negb_true_iff in Hd, He. apply String.eqb_neq in He. auto. }
  unfold check_for_files_in_debug_include_directory. cbv zeta. fold pred.
  destruct (vempty (unstable_keep_if w pred
                      (get_files_recursive w (package_dir // "debug" // "include")))).
  - cbn [negb result snd trace fst].
    split; [split; [discriminate | intros H; apply Hoff in H; discriminate H]|].
    split; [split; [intros _ H; apply Hoff in H; discriminate H | reflexivity]|].
    intros H. apply Hoff in H. discriminate H.
  - cbn [negb result snd trace fst].
    split; [split; [intros _; apply Hoff; reflexivity | reflexivity]|].
    split; [split; [discriminate | intros H; exfalso; apply H, Hoff; reflexivity]|].
    intros _. eexists. reflexivity.
Qed.

Lemma check_for_files_in_debug_include_directory_spec_witness :
  result (check_for_files_in_debug_include_directory
            Sample.debug_header_only Sample.pkg)
  = Done ERROR_DETECTED
  /\ check_for_files_in_debug_include_directory Sample.w Sample.pkg
     = ([], Done SUCCESS).
Proof.
  split.
  - apply (proj1 (check_for_files_in_debug_include_directory_spec
                    Sample.pkg
                    (Mem_world_keep_if_spec _ _ _ _ _))).
    exists (Sample.pkg // "debug" // "include" // "config-debug.h").
    split; [left; reflexivity|]. split; [reflexivity | discriminate].
  - apply (proj1 (proj2 (check_for_files_in_debug_include_directory_spec
                           Sample.pkg
                           (Mem_world_keep_if_spec true Sample.tree
                              (Sample.dumpbin_reports "KERNEL32.dll VCRUNTIME140.dll")
                              Sample.all_x64_dll Sample.all_x64_lib)))).
    intros (f & [] & _).
Defined.

(* ===================================================================== *)
(** * Architectures *)
(* ===================================================================== *)

(** What the two architecture checks do achieve.  Given modules with the
    extension ".dll", [check_dll_architecture] names in its detail exactly
    the modules whose architecture is not the expected one and returns
    [SUCCESS] when all match. *)
Lemma check_dll_architecture_reports_every_mismatch w expected_architecture files :
  (forall f, In f files -> extension w f = ".dll") ->
  let m := check_dll_architecture w expected_architecture files in
  (forall f, In f files -> dll_architecture w f <> expected_architecture ->
             In (Println plain "    %s" [ArgString f]) (trace m))
  /\ ((forall f, In f files -> dll_architecture w f = expected_architecture) ->
      m = ([], Done SUCCESS))
  /\ (result m = Done ERROR_DETECTED
      <-> exists f, In f files /\ dll_architecture w f <> expected_architecture).
Proof.
  intros Hext m.
  destruct (invalid_architecture_report
              (fun f => Some (dll_architecture w f)) expected_architecture files
              (m := m) (@check_dll_architecture_eq w expected_architecture files Hext))
    as (Hin & _ & Hs & He).
  split; [|split].
  - intros f Hf Hne. eapply Hin; eauto.
  - intros Hall. apply Hs. intros f a Hf Ha. inversion Ha; subst. auto.
  - rewrite He. split.
    + intros (f & a & Hf & Ha & Hne). inversion Ha; subst. eauto.
    + intros (f & Hf & Hne). eauto.
Qed.

(** The same holds of [check_lib_architecture] on a Windows host as long as
    every archive of the list reports exactly one machine type. *)
Lemma check_lib_architecture_reports_every_mismatch w expected_architecture files :
  WIN32 w = true ->
  (forall f, In f files ->
             extension w f = ".lib" /\ length (machine_types (read_lib w f)) = 1%nat) ->
  let m := check_lib_architecture w expected_architecture files in
  (forall f a, In f files -> lib_architecture w f = Some a ->
               a <> expected_architecture ->
               In (Println plain "    %s" [ArgString f]) (trace m))
  /\ ((forall f a, In f files -> lib_architecture w f = Some a ->
                   a = expected_architecture) ->
      m = ([], Done SUCCESS))
  /\ (result m = Done ERROR_DETECTED
      <-> exists f a, In f files /\ lib_architecture w f = Some a
                      /\ a <> expected_architecture).
Proof.
  intros Hw Hok m.
  destruct (invalid_architecture_report
              (lib_architecture w) expected_architecture files
              (m := m) (@check_lib_architecture_eq w expected_architecture files Hw Hok))
    as (Hin & _ & Hs & He).
  auto.
Qed.

(** C4 (not met by the code).  In an x64 package the release
    archive [lib/folly.lib] was built for x86, and the COFF reader finds no
    machine type in the debug archive [debug/lib/follyd.lib].  Alone, the
    release archive is reported.  With the debug archive in the list, before
    or after it, [check_lib_architecture] returns [SUCCESS] and prints
    nothing: the [return] taken for the archive without machine types leaves
    the function, so the archives after it are not examined and the
    mismatches found before it are dropped.  The whole run of the package
    returns 0. *)
Theorem check_lib_architecture_returns_at_archive_without_machine_types :
  lib_architecture Sample.folly (Sample.pkg // "lib" // "folly.lib") = Some "x86"
  /\ target_architecture (Sample.pre (Some "v141") None) = "x64"
  /\ machine_types (read_lib Sample.folly (Sample.pkg // "debug" // "lib" // "follyd.lib"))
     = []
  /\ check_lib_architecture Sample.folly "x64" [Sample.pkg // "lib" // "folly.lib"]
     = (invalid_architecture_lines
          "x64" [{| file := Sample.pkg // "lib" // "folly.lib"; actual_arch := "x86" |}],
        Done ERROR_DETECTED)
  /\ check_lib_architecture Sample.folly "x64"
       [Sample.pkg // "debug" // "lib" // "follyd.lib"; Sample.pkg // "lib" // "folly.lib"]
     = ([], Done SUCCESS)
  /\ check_lib_architecture Sample.folly "x64"
       [Sample.pkg // "lib" // "folly.lib"; Sample.pkg // "debug" // "lib" // "follyd.lib"]
     = ([], Done SUCCESS)
  /\ debug_libs Sample.folly (Sample.paths EmptyString) Sample.spec
     ++ release_libs Sample.folly (Sample.paths EmptyString) Sample.spec
     = [Sample.pkg // "debug" // "lib" // "follyd.lib"; Sample.pkg // "lib" // "folly.lib"]
  /\ perform_all_checks Sample.folly Sample.spec (Sample.paths EmptyString)
       (Sample.pre (Some "v141") None) (Sample.build STATIC [])
     = ([ Println plain "-- Performing post-build validation" [];
          Println plain "-- Performing post-build validation done" [] ],
        Done 0).
Proof. repeat split; vm_compute; reflexivity. Qed.

(* ===================================================================== *)
(** * Fatal conditions *)
(* ===================================================================== *)

(** C2 (as stated, refuted).  With the policy [EMPTY_PACKAGE] enabled the
    run returns 0 without aborting although the library linkage is neither
    [DYNAMIC] nor [STATIC], and although the archives of the package hold
    objects of two architectures; on a host other than Windows the run of a
    dynamic package with such archives returns a count as well.  On a
    Windows host and without the policy, the run of a static package returns
    0 when the archive of two architectures is read after an archive in
    which the COFF reader finds no machine type. *)
Lemma fatal_conditions_can_be_skipped :
  perform_all_checks_and_return_error_count
    Sample.w Sample.spec (Sample.paths "dumpbin.exe") (Sample.pre (Some "v141") None)
    (Sample.build LINKAGE_OTHER [(EMPTY_PACKAGE, true)])
  = ([], Done 0)
  /\ machine_types (read_lib (Sample.mixed true) (Sample.pkg // "lib" // "zlib.lib"))
     = [AMD64; I386]
  /\ In (Sample.pkg // "lib" // "zlib.lib")
        (release_libs (Sample.mixed true) (Sample.paths "dumpbin.exe") Sample.spec)
  /\ perform_all_checks_and_return_error_count
       (Sample.mixed true) Sample.spec (Sample.paths "dumpbin.exe")
       (Sample.pre (Some "v141") None)
       (Sample.build STATIC [(EMPTY_PACKAGE, true)])
     = ([], Done 0)
  /\ result (perform_all_checks
               (Sample.mixed false) Sample.spec (Sample.paths "dumpbin.exe")
               (Sample.pre (Some "v141") None) (Sample.build DYNAMIC []))
     = Done 0
  /\ WIN32 Cases.stub_then_mixed = true
  /\ debug_libs Cases.stub_then_mixed (Sample.paths EmptyString) Sample.spec
     ++ release_libs Cases.stub_then_mixed (Sample.paths EmptyString) Sample.spec
     = [Sample.pkg // "debug" // "lib" // "follyd.lib"; Sample.pkg // "lib" // "folly.lib"]
  /\ machine_types (read_lib Cases.stub_then_mixed
                              (Sample.pkg // "debug" // "lib" // "follyd.lib"))
     = []
  /\ machine_types (read_lib Cases.stub_then_mixed (Sample.pkg // "lib" // "folly.lib"))
     = [AMD64; I386]
  /\ perform_all_checks
       Cases.stub_then_mixed Sample.spec (Sample.paths EmptyString)
       (Sample.pre (Some "v141") None) (Sample.build STATIC [])
     = ([ Println plain "-- Performing post-build validation" [];
          Println plain "-- Performing post-build validation done" [] ],
        Done 0).
Proof. repeat split; vm_compute; auto. Qed.

(** C2 (amended).  In every run:
    - a subprocess that returns a nonzero exit status ends the run: the run
      exits and that command is the last event of its trace;
    - unless the policy [EMPTY_PACKAGE] is enabled, a library linkage that
      is neither [DYNAMIC] nor [STATIC] makes the run exit;
    - unless the policy [EMPTY_PACKAGE] is enabled, on a Windows host, an
      archive with more than one machine type among those collected from
      [debug/lib] and then [lib] makes the run exit, when no archive before
      it in that list is without machine types, whatever the archives after
      it;
    - a run that returns a count ran no subprocess that failed. *)
Theorem fatal_conditions_abort_the_run w spec paths pre_build_info build_info :
  let m := perform_all_checks w spec paths pre_build_info build_info in
  let libs := debug_libs w paths spec ++ release_libs w paths spec in
  (forall cmd_line,
      In (CmdExecute cmd_line) (trace m) ->
      exit_code (run_process w cmd_line) <> 0 ->
      aborts m /\ exists t0, trace m = t0 ++ [CmdExecute cmd_line])
  /\ (is_enabled (policies build_info) EMPTY_PACKAGE = false ->
      library_linkage build_info = LINKAGE_OTHER ->
      aborts m)
  /\ (is_enabled (policies build_info) EMPTY_PACKAGE = false ->
      WIN32 w = true ->
      forall pre f post,
        libs = pre ++ f :: post ->
        (forall g, In g pre -> machine_types (read_lib w g) <> []) ->
        (1 < length (machine_types (read_lib w f)))%nat ->
        aborts m)
  /\ (forall t n,
        m = (t, Done n) ->
        forall cmd_line,
          In (CmdExecute cmd_line) t -> exit_code (run_process w cmd_line) = 0).
Proof.
  intros m libs.
  pose proof (perform_all_checks_fail_fast w spec paths pre_build_info build_info)
    as Hff. fold m in Hff.
  assert (Hok : forall t cmd_line,
             forallb (cmd_ok w) t = true -> In (CmdExecute cmd_line) t ->
             exit_code (run_process w cmd_line) = 0).
  { intros t c Hall Hin. rewrite forallb_forall in Hall.
    apply Hall in Hin. apply Z.eqb_eq. exact Hin. }
  split; [|split; [|split]].
  - intros c Hin Hne.
    destruct Hff as [Hall | (t0 & c' & fmt & args & E & H0 & Hc)].
    + exfalso. apply Hne. eapply Hok; eassumption.
    + rewrite E in *. cbn [trace fst] in Hin.
      split; [exists fmt, args; reflexivity|].
      apply in_app_or in Hin as [Hin | [Hin | []]].
      * exfalso. apply Hne. eapply Hok; eassumption.
      * inversion Hin; subst. exists t0. reflexivity.
  - intros He Hl. apply perform_all_checks_aborts.
    apply perform_other_linkage_aborts; assumption.
  - intros He Hw pre f post Hlibs Hnz Hmany. apply perform_all_checks_aborts.
    destruct (library_linkage build_info) eqn:Hl;
      [ | | apply perform_other_linkage_aborts; assumption ];
      (rewrite perform_eq_accumulate by congruence;
       eapply aborts_accumulate;
       [ apply checks_run_lib_architecture; assumption
       | fold libs; rewrite Hlibs;
         apply check_lib_architecture_aborts_at; assumption ]).
  - intros t n E c Hin.
    destruct Hff as [Hall | (t0 & c' & fmt & args & E' & _)].
    + rewrite E in Hall. eapply Hok; eassumption.
    + rewrite E in E'. discriminate E'.
Qed.

(** A [dumpbin] that cannot be run, an unknown linkage and an archive of
    two architectures each end the run of the sample package, the last also
    when the archive read after it has no machine type; the run of the
    well-formed package returns a count, and the commands it ran succeeded. *)
Lemma fatal_conditions_abort_the_run_witness :
  aborts (perform_all_checks
            Sample.no_dumpbin Sample.spec (Sample.paths "dumpbin.exe")
            (Sample.pre (Some "v141") None) (Sample.build DYNAMIC []))
  /\ aborts (perform_all_checks
               Sample.w Sample.spec (Sample.paths "dumpbin.exe")
               (Sample.pre (Some "v141") None) (Sample.build LINKAGE_OTHER []))
  /\ aborts (perform_all_checks
               (Sample.mixed true) Sample.spec (Sample.paths "dumpbin.exe")
               (Sample.pre (Some "v141") None) (Sample.build DYNAMIC []))
  /\ (machine_types (read_lib Cases.mixed_then_stub (Sample.pkg // "lib" // "folly.lib"))
      = []
      /\ aborts (perform_all_checks
                   Cases.mixed_then_stub Sample.spec (Sample.paths EmptyString)
                   (Sample.pre (Some "v141") None) (Sample.build STATIC [])))
  /\ exit_code
       (run_process Sample.w
          (dependents_cmd_line Sample.w "dumpbin.exe"
                               (Sample.pkg // "bin" // "zlib1.dll")))
     = 0.
Proof.
  split; [|split; [|split; [|split]]].
  - destruct (fatal_conditions_abort_the_run
                Sample.no_dumpbin Sample.spec (Sample.paths "dumpbin.exe")
                (Sample.pre (Some "v141") None) (Sample.build DYNAMIC []))
      as (Ha & _).
    apply (Ha (Strings_format Sample.no_dumpbin
                 (dq +++ "%s" +++ dq +++ " /exports " +++ dq +++ "%s" +++ dq)
                 [ArgString "dumpbin.exe";
                  ArgString (Sample.pkg // "debug" // "bin" // "zlibd1.dll")])).
    + vm_compute. right. left. reflexivity.
    + vm_compute. discriminate.
  - destruct (fatal_conditions_abort_the_run
                Sample.w Sample.spec (Sample.paths "dumpbin.exe")
                (Sample.pre (Some "v141") None) (Sample.build LINKAGE_OTHER []))
      as (_ & Hb & _).
    apply Hb; reflexivity.
  - destruct (fatal_conditions_abort_the_run
                (Sample.mixed true) Sample.spec (Sample.paths "dumpbin.exe")
                (Sample.pre (Some "v141") None) (Sample.build DYNAMIC []))
      as (_ & _ & Hc & _).
    apply (Hc eq_refl eq_refl
              [] (Sample.pkg // "debug" // "lib" // "zlibd.lib")
              [Sample.pkg // "lib" // "zlib.lib"]).
    + vm_compute. reflexivity.
    + intros g [].
    + simpl. lia.
  - split; [reflexivity|].
    destruct (fatal_conditions_abort_the_run
                Cases.mixed_then_stub Sample.spec (Sample.paths EmptyString)
                (Sample.pre (Some "v141") None) (Sample.build STATIC []))
      as (_ & _ & Hc & _).
    apply (Hc eq_refl eq_refl
              [] (Sample.pkg // "debug" // "lib" // "follyd.lib")
              [Sample.pkg // "lib" // "folly.lib"]).
    + vm_compute. reflexivity.
    + intros g [].
    + simpl. lia.
  - destruct (fatal_conditions_abort_the_run
                Sample.w Sample.spec (Sample.paths "dumpbin.exe")
                (Sample.pre (Some "v141") None) (Sample.build DYNAMIC []))
      as (_ & _ & _ & Hd).
    apply (Hd (trace (perform_all_checks
                        Sample.w Sample.spec (Sample.paths "dumpbin.exe")
                        (Sample.pre (Some "v141") None) (Sample.build DYNAMIC [])))
              0).
    + vm_compute. reflexivity.
    + vm_compute. do 4 right. left. reflexivity.
Defined.

(* ===================================================================== *)
(** * Further properties of the checks *)
(* ===================================================================== *)

(** ** Scans of a directory *)

Lemma reports_spec w (pred : path -> bool) (files : list path) (m : M LintStatus) :
  keep_if_spec w ->
  reports m (unstable_keep_if w pred files) ->
  (result m = Done ERROR_DETECTED <-> exists f, In f files /\ pred f = true)
  /\ (m = ([], Done SUCCESS) <-> ~ exists f, In f files /\ pred f = true)
  /\ (forall ps, In (PrintPaths ps) (trace m)
                 <-> (exists f, In f files /\ pred f = true)
                     /\ ps = unstable_keep_if w pred files)
  /\ (forall f, In f (unstable_keep_if w pred files) <-> In f files /\ pred f = true).
Proof.
  intros Hk Hr.
  assert (Hin : forall f, In f (unstable_keep_if w pred files)
                          <-> In f files /\ pred f = true).
  { intros f. rewrite <- filter_In. split; apply Permutation_in;
      [|apply Permutation_sym]; apply Hk. }
  destruct Hr as [[Hx Hm] | (Hx & Hres & Hps)].
  - assert (Hnone : ~ exists f, In f files /\ pred f = true).
    { intros (f & Hf). apply Hin in Hf. rewrite Hx in Hf. destruct Hf. }
    subst m. cbn [result snd trace fst]. split; [split; [discriminate | tauto]|].
    split; [tauto|]. split; [|exact Hin].
    intros ps. split; [intros [] | intros [H _]; tauto].
  - assert (Hsome : exists f, In f files /\ pred f = true).
    { destruct (unstable_keep_if w pred files) as [|f l] eqn:E; [congruence|].
      exists f. apply Hin. left. reflexivity. }
    split; [tauto|]. split; [|split; [|exact Hin]].
    + split; [|tauto]. intros E. rewrite E in Hres. discriminate Hres.
    + intros ps. rewrite Hps. tauto.
Qed.

Ltac prove_reports :=
  match goal with
  | |- reports _ ?xs =>
      destruct xs as [|x l] eqn:E; cbn [vempty negb];
      [ left; split; reflexivity
      | right; split; [discriminate|]; split; [reflexivity|];
        intros ps; cbn [trace fst println print_paths bind ret app In];
        split;
        [ intros H; repeat (destruct H as [H | H]; [try discriminate H|]);
          try contradiction; inversion H; reflexivity
        | intros ->; auto 6 ] ]
  end.

Lemma check_for_exes_reports w package_dir :
  reports (check_for_exes w package_dir)
          (unstable_keep_if w (has_extension_pred w ".exe")
                            (get_files_recursive w (package_dir // "bin"))).
Proof. unfold check_for_exes. cbv zeta. prove_reports. Qed.

Lemma check_for_dlls_in_lib_dir_reports w package_dir :
  reports (check_for_dlls_in_lib_dir w package_dir)
          (unstable_keep_if w (has_extension_pred w ".dll")
                            (get_files_recursive w (package_dir // "lib"))).
Proof. unfold check_for_dlls_in_lib_dir. cbv zeta. prove_reports. Qed.

Lemma check_no_empty_folders_reports w dir :
  reports (check_no_empty_folders w dir)
          (unstable_keep_if w
             (fun current => fs_is_directory w current && fs_is_empty w current)
             (get_files_recursive w dir)).
Proof. unfold check_no_empty_folders. cbv zeta. prove_reports. Qed.

Lemma check_no_files_in_dir_reports w dir :
  reports (check_no_files_in_dir w dir)
          (unstable_keep_if w
             (fun path =>
                let filename := filename w path in
                if case_insensitive_ascii_equals w filename "CONTROL"
                   || case_insensitive_ascii_equals w filename "BUILD_INFO"
                then false
                else negb (fs_is_directory w path))
             (get_files_non_recursive w dir)).
Proof. unfold check_no_files_in_dir. cbv zeta. prove_reports. Qed.

Lemma has_extension_pred_true w ext f :
  has_extension_pred w ext f = true
  <-> fs_is_directory w f = false /\ extension w f = ext.
Proof.
  unfold has_extension_pred.
  rewrite andb_true_iff, negb_true_iff, String.eqb_eq. reflexivity.
Qed.

(** X1.  [check_for_exes] returns [ERROR_DETECTED] exactly when some entry
    found recursively under [bin] of the directory it is given is not a
    directory and has the extension ".exe".  It then prints a list of paths,
    the entries that [unstable_keep_if] kept for [has_extension_pred], which
    are exactly those entries; without any it returns [SUCCESS] in silence.
    [check_for_dlls_in_lib_dir] does the same for the extension ".dll" under
    [lib]. *)
Theorem extension_scans_spec w package_dir :
  keep_if_spec w ->
  let found dir ext f :=
    In f (get_files_recursive w (package_dir // dir))
    /\ fs_is_directory w f = false /\ extension w f = ext in
  let listed dir ext :=
    unstable_keep_if w (has_extension_pred w ext)
                     (get_files_recursive w (package_dir // dir)) in
  ((result (check_for_exes w package_dir) = Done ERROR_DETECTED
    <-> exists f, found "bin" ".exe" f)
   /\ (check_for_exes w package_dir = ([], Done SUCCESS)
       <-> ~ exists f, found "bin" ".exe" f)
   /\ (forall ps, In (PrintPaths ps) (trace (check_for_exes w package_dir))
                  <-> (exists f, found "bin" ".exe" f) /\ ps = listed "bin" ".exe")
   /\ (forall f, In f (listed "bin" ".exe") <-> found "bin" ".exe" f))
  /\ ((result (check_for_dlls_in_lib_dir w package_dir) = Done ERROR_DETECTED
       <-> exists f, found "lib" ".dll" f)
      /\ (check_for_dlls_in_lib_dir w package_dir = ([], Done SUCCESS)
          <-> ~ exists f, found "lib" ".dll" f)
      /\ (forall ps, In (PrintPaths ps) (trace (check_for_dlls_in_lib_dir w package_dir))
                     <-> (exists f, found "lib" ".dll" f) /\ ps = listed "lib" ".dll")
      /\ (forall f, In f (listed "lib" ".dll") <-> found "lib" ".dll" f)).
Proof.
  intros Hk found listed.
  assert (Hf : forall dir ext f,
             found dir ext f
             <-> In f (get_files_recursive w (package_dir // dir))
                 /\ has_extension_pred w ext f = true)
    by (intros; unfold found; rewrite has_extension_pred_true; reflexivity).
  assert (Hex : forall dir ext,
             (exists f, found dir ext f)
             <-> exists f, In f (get_files_recursive w (package_dir // dir))
                           /\ has_extension_pred w ext f = true)
    by (intros; split; intros (f & H); exists f; apply Hf; exact H).
  split.
  - destruct (reports_spec (has_extension_pred w ".exe") _ Hk
                           (check_for_exes_reports w package_dir))
      as (He & Hs & Hp & Hl).
    split; [|split; [|split]].
    + rewrite He. symmetry. apply Hex.
    + rewrite Hs, Hex. reflexivity.
    + intros ps. rewrite Hp, Hex. reflexivity.
    + intros f. unfold listed. rewrite Hl. symmetry. apply Hf.
  - destruct (reports_spec (has_extension_pred w ".dll") _ Hk
                           (check_for_dlls_in_lib_dir_reports w package_dir))
      as (He & Hs & Hp & Hl).
    split; [|split; [|split]].
    + rewrite He. symmetry. apply Hex.
    + rewrite Hs, Hex. reflexivity.
    + intros ps. rewrite Hp, Hex. reflexivity.
    + intros f. unfold listed. rewrite Hl. symmetry. apply Hf.
Qed.

Lemma extension_scans_spec_witness :
  (result (check_for_exes Cases.untidy Cases.pkg) = Done ERROR_DETECTED
   /\ In (PrintPaths [Cases.pkg // "bin" // "minigzip.exe"])
         (trace (check_for_exes Cases.untidy Cases.pkg)))
  /\ (result (check_for_dlls_in_lib_dir Cases.untidy Cases.pkg) = Done ERROR_DETECTED
      /\ In (PrintPaths [Cases.pkg // "lib" // "zlib.dll"])
            (trace (check_for_dlls_in_lib_dir Cases.untidy Cases.pkg)))
  /\ check_for_exes Sample.w Sample.pkg = ([], Done SUCCESS).
Proof.
  destruct (extension_scans_spec Cases.pkg
              (Mem_world_keep_if_spec true Cases.untidy_tree
                 (Sample.dumpbin_reports "KERNEL32.dll VCRUNTIME140.dll")
                 Sample.all_x64_dll Sample.all_x64_lib))
    as ((He & _ & Hpe & _) & (Hd & _ & Hpd & _)).
  destruct (extension_scans_spec Sample.pkg
              (Mem_world_keep_if_spec true Sample.tree
                 (Sample.dumpbin_reports "KERNEL32.dll VCRUNTIME140.dll")
                 Sample.all_x64_dll Sample.all_x64_lib))
    as ((_ & Hs & _) & _).
  assert (Hexe : exists f,
             In f (get_files_recursive Cases.untidy (Cases.pkg // "bin"))
             /\ fs_is_directory Cases.untidy f = false
             /\ extension Cases.untidy f = ".exe").
  { exists (Cases.pkg // "bin" // "minigzip.exe").
    split; [vm_compute; auto | split; reflexivity]. }
  assert (Hdll : exists f,
             In f (get_files_recursive Cases.untidy (Cases.pkg // "lib"))
             /\ fs_is_directory Cases.untidy f = false
             /\ extension Cases.untidy f = ".dll").
  { exists (Cases.pkg // "lib" // "zlib.dll").
    split; [vm_compute; auto 6 | split; reflexivity]. }
  split; [|split].
  - split; [apply He; exact Hexe|].
    apply (proj2 (Hpe _)). split; [exact Hexe | reflexivity].
  - split; [apply Hd; exact Hdll|].
    apply (proj2 (Hpd _)). split; [exact Hdll | reflexivity].
  - apply Hs. intros (f & Hin & Hd' & He').
    vm_compute in Hin. destruct Hin as [<- | []]. discriminate He'.
Defined.

(** X2.  [check_no_files_in_dir] returns [ERROR_DETECTED] exactly when the
    directory has a direct entry that is not a directory and whose file name
    is neither CONTROL nor BUILD_INFO, compared without regard to case.  It
    then prints a list of paths, the entries that [unstable_keep_if] kept,
    which are exactly those entries; without any it returns [SUCCESS] in
    silence.  A file named CONTROL or BUILD_INFO, in any case, and a
    subdirectory are never reported. *)
Theorem check_no_files_in_dir_spec w dir :
  keep_if_spec w ->
  let misplaced f :=
    In f (get_files_non_recursive w dir)
    /\ fs_is_directory w f = false
    /\ case_insensitive_ascii_equals w (filename w f) "CONTROL" = false
    /\ case_insensitive_ascii_equals w (filename w f) "BUILD_INFO" = false in
  let listed :=
    unstable_keep_if w
      (fun path =>
         let filename := filename w path in
         if case_insensitive_ascii_equals w filename "CONTROL"
            || case_insensitive_ascii_equals w filename "BUILD_INFO"
         then false
         else negb (fs_is_directory w path))
      (get_files_non_recursive w dir) in
  (result (check_no_files_in_dir w dir) = Done ERROR_DETECTED
   <-> exists f, misplaced f)
  /\ (check_no_files_in_dir w dir = ([], Done SUCCESS) <-> ~ exists f, misplaced f)
  /\ (forall ps, In (PrintPaths ps) (trace (check_no_files_in_dir w dir))
                 <-> (exists f, misplaced f) /\ ps = listed)
  /\ (forall f, In f listed <-> misplaced f).
Proof.
  intros Hk misplaced listed.
  destruct (reports_spec _ _ Hk (check_no_files_in_dir_reports w dir))
    as (He & Hs & Hp & Hl).
  assert (Hf : forall f,
             misplaced f
             <-> In f (get_files_non_recursive w dir)
                 /\ (let filename := filename w f in
                     if case_insensitive_ascii_equals w filename "CONTROL"
                        || case_insensitive_ascii_equals w filename "BUILD_INFO"
                     then false
                     else negb (fs_is_directory w f)) = true).
  { intros f. unfold misplaced. cbv zeta.
    destruct (case_insensitive_ascii_equals w (filename w f) "CONTROL");
      destruct (case_insensitive_ascii_equals w (filename w f) "BUILD_INFO");
      destruct (fs_is_directory w f); cbn; intuition discriminate. }
  assert (Hex : (exists f, misplaced f)
                <-> exists f, In f (get_files_non_recursive w dir)
                              /\ (let filename := filename w f in
                                  if case_insensitive_ascii_equals w filename "CONTROL"
                                     || case_insensitive_ascii_equals w filename
                                                                      "BUILD_INFO"
                                  then false
                                  else negb (fs_is_directory w f)) = true)
    by (split; intros (f & H); exists f; apply Hf; exact H).
  split; [|split; [|split]].
  - rewrite He. symmetry. exact Hex.
  - rewrite Hs, Hex. reflexivity.
  - intros ps. rewrite Hp, Hex. reflexivity.
  - intros f. unfold listed. rewrite Hl. symmetry. apply Hf.
Qed.

Lemma check_no_files_in_dir_spec_witness :
  result (check_no_files_in_dir Cases.untidy Cases.pkg) = Done ERROR_DETECTED
  /\ In (PrintPaths [Cases.pkg // "readme.txt"])
        (trace (check_no_files_in_dir Cases.untidy Cases.pkg))
  /\ forall ps,
       In (PrintPaths ps) (trace (check_no_files_in_dir Cases.untidy Cases.pkg)) ->
       In (Cases.pkg // "readme.txt") ps
       /\ ~ In (Cases.pkg // "CONTROL") ps
       /\ ~ In (Cases.pkg // "build_info") ps
       /\ ~ In (Cases.pkg // "bin") ps.
Proof.
  destruct (check_no_files_in_dir_spec Cases.pkg
              (Mem_world_keep_if_spec true Cases.untidy_tree
                 (Sample.dumpbin_reports "KERNEL32.dll VCRUNTIME140.dll")
                 Sample.all_x64_dll Sample.all_x64_lib))
    as (He & _ & Hp & Hl).
  assert (Hex : exists f,
             In f (get_files_non_recursive Cases.untidy Cases.pkg)
             /\ fs_is_directory Cases.untidy f = false
             /\ case_insensitive_ascii_equals Cases.untidy
                  (filename Cases.untidy f) "CONTROL" = false
             /\ case_insensitive_ascii_equals Cases.untidy
                  (filename Cases.untidy f) "BUILD_INFO" = false).
  { exists (Cases.pkg // "readme.txt").
    split; [vm_compute; auto 6 | repeat split]. }
  split; [apply He; exact Hex|].
  split; [apply (proj2 (Hp _)); split; [exact Hex | reflexivity]|].
  intros ps Hin.
  destruct (proj1 (Hp ps) Hin) as [_ ->].
  split; [|split; [|split]].
  - apply Hl. split; [vm_compute; auto 6 | repeat split].
  - intros H. apply Hl in H as (_ & _ & H & _). discriminate H.
  - intros H. apply Hl in H as (_ & _ & _ & H). discriminate H.
  - intros H. apply Hl in H as (_ & H & _). discriminate H.
Defined.

(** X3.  [check_no_empty_folders] returns [ERROR_DETECTED] exactly when
    some entry found recursively under the directory is an empty directory.
    It then prints a list of paths, the entries that [unstable_keep_if]
    kept, which are exactly the empty directories; without any it returns
    [SUCCESS] in silence. *)
Theorem check_no_empty_folders_spec w dir :
  keep_if_spec w ->
  let empty_directory f :=
    In f (get_files_recursive w dir)
    /\ fs_is_directory w f = true /\ fs_is_empty w f = true in
  let listed :=
    unstable_keep_if w
      (fun current => fs_is_directory w current && fs_is_empty w current)
      (get_files_recursive w dir) in
  (result (check_no_empty_folders w dir) = Done ERROR_DETECTED
   <-> exists f, empty_directory f)
  /\ (check_no_empty_folders w dir = ([], Done SUCCESS)
      <-> ~ exists f, empty_directory f)
  /\ (forall ps, In (PrintPaths ps) (trace (check_no_empty_folders w dir))
                 <-> (exists f, empty_directory f) /\ ps = listed)
  /\ (forall f, In f listed <-> empty_directory f).
Proof.
  intros Hk empty_directory listed.
  destruct (reports_spec _ _ Hk (check_no_empty_folders_reports w dir))
    as (He & Hs & Hp & Hl).
  assert (Hf : forall f,
             empty_directory f
             <-> In f (get_files_recursive w dir)
                 /\ fs_is_directory w f && fs_is_empty w f = true)
    by (intros; unfold empty_directory; rewrite andb_true_iff; reflexivity).
  assert (Hex : (exists f, empty_directory f)
                <-> exists f, In f (get_files_recursive w dir)
                              /\ fs_is_directory w f && fs_is_empty w f = true)
    by (split; intros (f & H); exists f; apply Hf; exact H).
  split; [|split; [|split]].
  - rewrite He. symmetry. exact Hex.
  - rewrite Hs, Hex. reflexivity.
  - intros ps. rewrite Hp, Hex. reflexivity.
  - intros f. unfold listed. rewrite Hl. symmetry. apply Hf.
Qed.

Lemma check_no_empty_folders_spec_witness :
  result (check_no_empty_folders Cases.untidy Cases.pkg) = Done ERROR_DETECTED
  /\ In (PrintPaths [Cases.pkg // "tools"])
        (trace (check_no_empty_folders Cases.untidy Cases.pkg)).
Proof.
  destruct (check_no_empty_folders_spec Cases.pkg
              (Mem_world_keep_if_spec true Cases.untidy_tree
                 (Sample.dumpbin_reports "KERNEL32.dll VCRUNTIME140.dll")
                 Sample.all_x64_dll Sample.all_x64_lib))
    as (He & _ & Hp & _).
  assert (Hex : exists f,
             In f (get_files_recursive Cases.untidy Cases.pkg)
             /\ fs_is_directory Cases.untidy f = true
             /\ fs_is_empty Cases.untidy f = true).
  { exists (Cases.pkg // "tools"). split; [vm_compute; auto 20 | split; reflexivity]. }
  split; [apply He; exact Hex|].
  apply (proj2 (Hp _)). split; [exact Hex | reflexivity].
Defined.

(** ** Loops that collect into a vector *)

Lemma fold_left_push_if {A} (p : A -> bool) (l : list A) (acc : list A) :
  fold_left (fun acc x => if p x then acc ++ [x] else acc) l acc
  = acc ++ filter p l.
Proof.
  revert acc. induction l as [|x l IH]; intros acc; cbn [fold_left filter].
  - symmetry. apply app_nil_r.
  - rewrite IH. destruct (p x); [rewrite <- app_assoc|]; reflexivity.
Qed.

Lemma fold_left_push_nested {A B} (keep : A -> bool) (children : A -> list B)
      (p : B -> bool) (l : list A) (acc : list B) :
  fold_left
    (fun acc a =>
       if negb (keep a) then acc
       else fold_left (fun acc x => if p x then acc ++ [x] else acc) (children a) acc)
    l acc
  = acc ++ flat_map (fun a => filter p (children a)) (filter keep l).
Proof.
  revert acc. induction l as [|a l IH]; intros acc; cbn [fold_left filter].
  - symmetry. apply app_nil_r.
  - rewrite IH. destruct (keep a); cbn [negb flat_map]; [|reflexivity].
    rewrite fold_left_push_if, <- app_assoc. reflexivity.
Qed.

Lemma erase_front_path_append (p q : path) :
  erase_front (String.length p + 1) (p // q) = q.
Proof.
  unfold path_append. induction p as [|c p IH]; [reflexivity|]. exact IH.
Qed.

(** ** The copyright file *)

Lemma potential_copyright_files_eq w spec paths :
  fold_left
    (fun potential_copyright_files src_dir =>
       if negb (fs_is_directory w src_dir) then potential_copyright_files
       else
         fold_left
           (fun potential_copyright_files src_file =>
              let filename := filename w src_file in
              if String.eqb filename "LICENSE"
                 || String.eqb filename "LICENSE.txt"
                 || String.eqb filename "COPYING"
              then potential_copyright_files ++ [src_file]
              else potential_copyright_files)
           (get_files_non_recursive w src_dir) potential_copyright_files)
    (get_files_non_recursive w (buildtrees paths // spec_name spec // "src")) []
  = potential_copyright_files w spec paths.
Proof.
  apply (fold_left_push_nested (fs_is_directory w) (get_files_non_recursive w)
                               (is_license_name w)).
Qed.

(** X4.  [check_for_copyright_file] returns [SUCCESS] in silence when
    [share/<name>/copyright] exists in the package.  Otherwise it always
    returns [ERROR_DETECTED] and first prints where the license must be.  The
    candidates are the entries named LICENSE, LICENSE.txt or COPYING directly
    inside the directories of [buildtrees/<name>/src], in order: with exactly
    one candidate it prints the copy-and-rename remedy, whose source path is
    the candidate relative to [buildtrees/<name>]; with several it lists them;
    with none it prints nothing more. *)
Theorem check_for_copyright_file_spec w spec paths :
  let copyright_file :=
    packages paths // spec_dir spec // "share" // spec_name spec // "copyright" in
  let candidates := potential_copyright_files w spec paths in
  let nm := ArgString (spec_name spec) in
  (fs_exists w copyright_file = true ->
   check_for_copyright_file w spec paths = ([], Done SUCCESS))
  /\ (fs_exists w copyright_file = false ->
      result (check_for_copyright_file w spec paths) = Done ERROR_DETECTED
      /\ exists rest,
           trace (check_for_copyright_file w spec paths)
           = Println warning copyright_fmt [nm] :: rest
           /\ (candidates = [] -> rest = [])
           /\ (forall relative,
                 candidates = [buildtrees paths // spec_name spec // relative] ->
                 rest = [Println plain copyright_remedy_fmt
                           [ArgString relative; nm; nm;
                            ArgString (filename w (buildtrees paths // spec_name spec
                                                   // relative));
                            nm]])
           /\ ((1 < length candidates)%nat ->
               rest = [Println warning
                         "The following files are potential copyright files:" [];
                       PrintPaths candidates])).
Proof.
  intros copyright_file candidates nm.
  unfold check_for_copyright_file. cbv zeta. fold copyright_file.
  rewrite potential_copyright_files_eq. fold candidates.
  destruct (fs_exists w copyright_file); (split; [intros H | intros H]);
    try discriminate H; [reflexivity|].
  unfold size.
  destruct candidates as [|found [|second more]] eqn:E.
  - cbn. split; [reflexivity|]. eexists. split; [reflexivity|].
    split; [reflexivity|]. split; [discriminate | intros Hl; simpl in Hl; lia].
  - cbn [length Z.of_nat Pos.of_succ_nat Z.eqb Pos.eqb vector_at nth_error].
    rewrite bind_ret_l. cbn [println bind ret app result snd trace fst].
    split; [reflexivity|]. eexists. split; [reflexivity|].
    split; [discriminate|]. split; [|intros Hl; simpl in Hl; lia].
    intros relative Hc. inversion Hc; subst.
    rewrite erase_front_path_append. reflexivity.
  - cbn [length].
    replace (Z.of_nat (S (S (length more))) =? 1) with false
      by (symmetry; apply Z.eqb_neq; lia).
    replace (Z.of_nat (S (S (length more))) >? 1) with true
      by (symmetry; apply Z.gtb_lt; lia).
    cbn. split; [reflexivity|]. eexists. split; [reflexivity|].
    split; [discriminate|]. split; [discriminate | reflexivity].
Qed.

Lemma check_for_copyright_file_spec_witness :
  check_for_copyright_file Sample.w Sample.spec (Sample.paths "dumpbin.exe")
  = ([], Done SUCCESS)
  /\ trace (check_for_copyright_file Cases.sources Sample.spec (Sample.paths "dumpbin.exe"))
     = [ Println warning copyright_fmt [ArgString "zlib"];
         Println plain copyright_remedy_fmt
                 [ArgString "src/zlib-1.2.11/LICENSE"; ArgString "zlib";
                  ArgString "zlib"; ArgString "LICENSE"; ArgString "zlib"] ].
Proof.
  split.
  - apply (proj1 (check_for_copyright_file_spec
                    Sample.w Sample.spec (Sample.paths "dumpbin.exe"))).
    reflexivity.
  - destruct (proj2 (check_for_copyright_file_spec
                       Cases.sources Sample.spec (Sample.paths "dumpbin.exe"))
                    eq_refl)
      as (_ & rest & Ht & _ & Hone & _).
    rewrite Ht. rewrite (Hone "src/zlib-1.2.11/LICENSE" eq_refl). reflexivity.
Defined.

(** ** Misplaced cmake files *)

Lemma check_for_misplaced_cmake_files_reports w package_dir spec :
  reports (check_for_misplaced_cmake_files w package_dir spec)
          (misplaced_cmake_files w package_dir).
Proof.
  unfold check_for_misplaced_cmake_files. cbv zeta. cbn [fold_left].
  rewrite !fold_left_push_if. cbn [app].
  rewrite <- !app_assoc, <- !filter_app.
  fold (misplaced_cmake_files w package_dir).
  prove_reports.
Qed.

(** X5.  [check_for_misplaced_cmake_files] returns [ERROR_DETECTED] exactly
    when an entry that is not a directory and has the extension ".cmake" is
    found recursively under [cmake], [debug/cmake], [lib/cmake] or
    [debug/lib/cmake] of the package; the list it prints is those files in
    that order of directories, and otherwise it returns [SUCCESS] in
    silence. *)
Theorem check_for_misplaced_cmake_files_spec w package_dir spec :
  let scanned :=
    get_files_recursive w (package_dir // "cmake")
    ++ get_files_recursive w (package_dir // "debug" // "cmake")
    ++ get_files_recursive w (package_dir // "lib" // "cmake")
    ++ get_files_recursive w (package_dir // "debug" // "lib" // "cmake") in
  let misplaced f :=
    In f scanned /\ fs_is_directory w f = false /\ extension w f = ".cmake" in
  let m := check_for_misplaced_cmake_files w package_dir spec in
  (result m = Done ERROR_DETECTED <-> exists f, misplaced f)
  /\ (m = ([], Done SUCCESS) <-> ~ exists f, misplaced f)
  /\ (forall ps, In (PrintPaths ps) (trace m)
                 <-> (exists f, misplaced f)
                     /\ ps = filter (fun f => negb (fs_is_directory w f)
                                             && String.eqb (extension w f) ".cmake")
                                    scanned).
Proof.
  intros scanned misplaced m.
  pose proof (check_for_misplaced_cmake_files_reports w package_dir spec) as Hr.
  fold m in Hr. unfold misplaced_cmake_files in Hr. fold scanned in Hr.
  set (pred := fun f => negb (fs_is_directory w f)
                        && String.eqb (extension w f) ".cmake") in *.
  assert (Hin : forall f, In f (filter pred scanned) <-> misplaced f).
  { intros f. rewrite filter_In. unfold misplaced, pred.
    rewrite andb_true_iff, negb_true_iff, String.eqb_eq. reflexivity. }
  destruct Hr as [[Hx Hm] | (Hx & Hres & Hps)].
  - assert (Hnone : ~ exists f, misplaced f).
    { intros (f & Hf). apply Hin in Hf. rewrite Hx in Hf. destruct Hf. }
    rewrite Hm. cbn [result snd trace fst].
    split; [split; [discriminate | tauto]|]. split; [tauto|].
    intros ps. split; [intros [] | tauto].
  - assert (Hsome : exists f, misplaced f).
    { destruct (filter pred scanned) as [|f l] eqn:E; [congruence|].
      exists f. apply Hin. rewrite ?E. left. reflexivity. }
    split; [tauto|]. split.
    + split; [|tauto]. intros E. rewrite E in Hres. discriminate Hres.
    + intros ps. rewrite Hps. tauto.
Qed.

(** ** Loops that run [dumpbin] on every file *)

Section DumpbinLoop.

Variables (w : World) (S : Type).
Variables (cmd : path -> string) (fmt : string)
          (args : path -> ExitCodeAndOutput -> list FormatArg)
          (g : path -> S -> ExitCodeAndOutput -> S)
          (body : path -> S -> M S).

Hypothesis body_eq :
  forall file acc,
    body file acc
    = (ec_data <- cmd_execute_and_capture_output w (cmd file) ;;
       check_exit (exit_code ec_data =? 0) fmt (args file ec_data) ;;
       ret (g file acc ec_data)).

Lemma dumpbin_loop_ok files acc :
  (forall f, In f files -> exit_code (run_process w (cmd f)) = 0) ->
  for_each files body acc
  = (map (fun f => CmdExecute (cmd f)) files,
     Done (fold_left (fun acc f => g f acc (run_process w (cmd f))) files acc)).
Proof.
  revert acc. induction files as [|f files IH]; intros acc Hok; [reflexivity|].
  cbn [for_each]. rewrite body_eq. unfold cmd_execute_and_capture_output.
  cbn [bind]. rewrite (Hok f (or_introl eq_refl)).
  cbn [Z.eqb check_exit ret bind app].
  rewrite IH by (intros f' Hf; apply Hok; right; exact Hf). reflexivity.
Qed.

Lemma dumpbin_loop_fail pre bad post acc :
  (forall f, In f pre -> exit_code (run_process w (cmd f)) = 0) ->
  exit_code (run_process w (cmd bad)) <> 0 ->
  for_each (pre ++ bad :: post) body acc
  = (map (fun f => CmdExecute (cmd f)) pre ++ [CmdExecute (cmd bad)],
     Exit fmt (args bad (run_process w (cmd bad)))).
Proof.
  revert acc. induction pre as [|f pre IH]; intros acc Hok Hbad.
  - cbn [app for_each map]. rewrite body_eq. unfold cmd_execute_and_capture_output.
    cbn [bind]. apply Z.eqb_neq in Hbad. rewrite Hbad. reflexivity.
  - cbn [app for_each map]. rewrite body_eq. unfold cmd_execute_and_capture_output.
    cbn [bind]. rewrite (Hok f (or_introl eq_refl)).
    cbn [Z.eqb check_exit ret bind app].
    rewrite IH by (auto; intros f' Hf; apply Hok; right; exact Hf). reflexivity.
Qed.

End DumpbinLoop.

Lemma fold_left_push_unless {A} (p : A -> bool) (l acc : list A) :
  fold_left (fun acc x => if negb (p x) then acc ++ [x] else acc) l acc
  = acc ++ filter (fun x => negb (p x)) l.
Proof. apply (fold_left_push_if (fun x => negb (p x))). Qed.

(** ** Exports *)

Lemma check_exports_body_eq w dumpbin_exe dll acc :
  (let cmd_line :=
     Strings_format w
       (dq +++ "%s" +++ dq +++ " /exports " +++ dq +++ "%s" +++ dq)
       [ArgString dumpbin_exe; ArgString dll] in
   ec_data <- cmd_execute_and_capture_output w cmd_line ;;
   check_exit (exit_code ec_data =? 0) running_command_failed [ArgString cmd_line] ;;
   if negb (contains "ordinal hint RVA      name" (output ec_data))
   then ret (acc ++ [dll])
   else ret acc)
  = (ec_data <- cmd_execute_and_capture_output
                  w (dumpbin_cmd_line w " /exports " dumpbin_exe dll) ;;
     check_exit (exit_code ec_data =? 0) running_command_failed
                [ArgString (dumpbin_cmd_line w " /exports " dumpbin_exe dll)] ;;
     ret (if negb (contains "ordinal hint RVA      name" (output ec_data))
          then acc ++ [dll] else acc)).
Proof.
  cbv zeta. unfold dumpbin_cmd_line. apply bind_ext. intros ec_data.
  apply bind_ext. intros _.
  destruct (negb (contains "ordinal hint RVA      name" (output ec_data)));
    reflexivity.
Qed.

(** X6.  [check_exports_of_dlls] runs [dumpbin /exports] on the modules in
    order.  When every run returns 0, the check returns [ERROR_DETECTED]
    exactly when the output for some module does not contain the header of an
    export table, and the list it prints holds those modules in order.  When
    a run returns a nonzero status, the process exits there: the modules
    after it are not inspected and nothing is reported about those before
    it. *)
Theorem check_exports_of_dlls_spec w dlls dumpbin_exe :
  let cmd := dumpbin_cmd_line w " /exports " dumpbin_exe in
  let no_exports dll :=
    negb (contains "ordinal hint RVA      name" (output (run_process w (cmd dll)))) in
  let m := check_exports_of_dlls w dlls dumpbin_exe in
  ((forall dll, In dll dlls -> exit_code (run_process w (cmd dll)) = 0) ->
   (result m = Done ERROR_DETECTED
    <-> exists dll, In dll dlls /\ no_exports dll = true)
   /\ (m = (map (fun dll => CmdExecute (cmd dll)) dlls, Done SUCCESS)
       <-> ~ exists dll, In dll dlls /\ no_exports dll = true)
   /\ (forall ps, In (PrintPaths ps) (trace m)
                  <-> (exists dll, In dll dlls /\ no_exports dll = true)
                      /\ ps = filter no_exports dlls))
  /\ (forall pre bad post,
        dlls = pre ++ bad :: post ->
        (forall dll, In dll pre -> exit_code (run_process w (cmd dll)) = 0) ->
        exit_code (run_process w (cmd bad)) <> 0 ->
        m = (map (fun dll => CmdExecute (cmd dll)) pre ++ [CmdExecute (cmd bad)],
             Exit running_command_failed [ArgString (cmd bad)])).
Proof.
  intros cmd no_exports m. split.
  - intros Hok. unfold m, check_exports_of_dlls.
    rewrite (dumpbin_loop_ok w cmd running_command_failed
               (fun dll _ => [ArgString (cmd dll)])
               (fun dll acc ec_data =>
                  if negb (contains "ordinal hint RVA      name" (output ec_data))
                  then acc ++ [dll] else acc))
      by (intros; first [apply check_exports_body_eq | auto]).
    rewrite (fold_left_push_unless
               (fun dll => contains "ordinal hint RVA      name"
                                    (output (run_process w (cmd dll))))).
    cbn [app]. fold no_exports.
    assert (Hin : forall dll, In dll (filter no_exports dlls)
                              <-> In dll dlls /\ no_exports dll = true)
      by (intros; apply filter_In).
    destruct (filter no_exports dlls) as [|d l] eqn:E.
    + rewrite bind_nil_done || idtac.
      assert (Hnone : ~ exists dll, In dll dlls /\ no_exports dll = true)
        by (intros (dll & H); apply Hin in H; destruct H).
      cbn [bind vempty negb ret app result snd trace fst]. rewrite app_nil_r.
      split; [split; [discriminate | tauto]|]. split; [tauto|].
      intros ps. split; [|tauto]. intros H.
      apply in_map_iff in H as (x & H & _). discriminate H.
    + assert (Hsome : exists dll, In dll dlls /\ no_exports dll = true)
        by (exists d; apply Hin; left; reflexivity).
      cbn [bind vempty negb ret app result snd trace fst println print_paths].
      split; [tauto|]. split; [split; [discriminate | tauto]|].
      intros ps. rewrite in_app_iff. split.
      * intros [H | H].
        -- apply in_map_iff in H as (x & H & _). discriminate H.
        -- cbn [In] in H. destruct H as [H | [H | [H | []]]]; try discriminate H.
           inversion H. tauto.
      * intros (_ & ->). right. right. left. reflexivity.
  - intros pre bad post -> Hok Hbad. unfold m, check_exports_of_dlls.
    rewrite (dumpbin_loop_fail w cmd running_command_failed
               (fun dll _ => [ArgString (cmd dll)])
               (fun dll acc ec_data =>
                  if negb (contains "ordinal hint RVA      name" (output ec_data))
                  then acc ++ [dll] else acc))
      by (intros; first [apply check_exports_body_eq | auto]).
    reflexivity.
Qed.

Lemma check_exports_of_dlls_spec_witness :
  check_exports_of_dlls Sample.w
    [Sample.pkg // "debug" // "bin" // "zlibd1.dll"; Sample.pkg // "bin" // "zlib1.dll"]
    "dumpbin.exe"
  = ([ CmdExecute (dumpbin_cmd_line Sample.w " /exports " "dumpbin.exe"
                                    (Sample.pkg // "debug" // "bin" // "zlibd1.dll"));
       CmdExecute (dumpbin_cmd_line Sample.w " /exports " "dumpbin.exe"
                                    (Sample.pkg // "bin" // "zlib1.dll")) ],
     Done SUCCESS)
  /\ check_exports_of_dlls Sample.no_dumpbin
       [Sample.pkg // "debug" // "bin" // "zlibd1.dll"; Sample.pkg // "bin" // "zlib1.dll"]
       "dumpbin.exe"
     = ([ CmdExecute (dumpbin_cmd_line Sample.no_dumpbin " /exports " "dumpbin.exe"
                                       (Sample.pkg // "debug" // "bin" // "zlibd1.dll")) ],
        Exit running_command_failed
             [ArgString (dumpbin_cmd_line Sample.no_dumpbin " /exports " "dumpbin.exe"
                                          (Sample.pkg // "debug" // "bin" // "zlibd1.dll"))]).
Proof.
  split.
  - apply (proj1 (proj2 (proj1 (check_exports_of_dlls_spec Sample.w
                                  [Sample.pkg // "debug" // "bin" // "zlibd1.dll";
                                   Sample.pkg // "bin" // "zlib1.dll"]
                                  "dumpbin.exe")
                               (fun dll _ => eq_refl)))).
    intros (dll & [<- | [<- | []]] & H); discriminate H.
  - apply (proj2 (check_exports_of_dlls_spec Sample.no_dumpbin
                    [Sample.pkg // "debug" // "bin" // "zlibd1.dll";
                     Sample.pkg // "bin" // "zlib1.dll"]
                    "dumpbin.exe")
                 [] (Sample.pkg // "debug" // "bin" // "zlibd1.dll")
                 [Sample.pkg // "bin" // "zlib1.dll"] eq_refl).
    + intros dll [].
    + discriminate.
Defined.

(** ** The sandboxing marker *)

Lemma check_uwp_bit_body_eq w dumpbin_exe dll acc :
  (let cmd_line :=
     Strings_format w
       (dq +++ "%s" +++ dq +++ " /headers " +++ dq +++ "%s" +++ dq)
       [ArgString dumpbin_exe; ArgString dll] in
   ec_data <- cmd_execute_and_capture_output w cmd_line ;;
   check_exit (exit_code ec_data =? 0) running_command_failed [ArgString cmd_line] ;;
   if negb (contains "App Container" (output ec_data))
   then ret (acc ++ [dll])
   else ret acc)
  = (ec_data <- cmd_execute_and_capture_output
                  w (dumpbin_cmd_line w " /headers " dumpbin_exe dll) ;;
     check_exit (exit_code ec_data =? 0) running_command_failed
                [ArgString (dumpbin_cmd_line w " /headers " dumpbin_exe dll)] ;;
     ret (if negb (contains "App Container" (output ec_data))
          then acc ++ [dll] else acc)).
Proof.
  cbv zeta. unfold dumpbin_cmd_line. apply bind_ext. intros ec_data.
  apply bind_ext. intros _.
  destruct (negb (contains "App Container" (output ec_data)));
    reflexivity.
Qed.

(** X7.  For the system name "WindowsStore", [check_uwp_bit_of_dlls]
    runs [dumpbin /headers] on the modules in order.  When every run returns
    0, the check returns [ERROR_DETECTED] exactly when the output for some
    module does not contain "App Container", and the list it prints holds
    those modules in order.  When a run returns a nonzero status, the process
    exits there and the modules after it are not inspected. *)
Theorem check_uwp_bit_of_dlls_spec w dlls dumpbin_exe :
  let cmd := dumpbin_cmd_line w " /headers " dumpbin_exe in
  let no_marker dll :=
    negb (contains "App Container" (output (run_process w (cmd dll)))) in
  let m := check_uwp_bit_of_dlls w "WindowsStore" dlls dumpbin_exe in
  ((forall dll, In dll dlls -> exit_code (run_process w (cmd dll)) = 0) ->
   (result m = Done ERROR_DETECTED
    <-> exists dll, In dll dlls /\ no_marker dll = true)
   /\ (m = (map (fun dll => CmdExecute (cmd dll)) dlls, Done SUCCESS)
       <-> ~ exists dll, In dll dlls /\ no_marker dll = true)
   /\ (forall ps, In (PrintPaths ps) (trace m)
                  <-> (exists dll, In dll dlls /\ no_marker dll = true)
                      /\ ps = filter no_marker dlls))
  /\ (forall pre bad post,
        dlls = pre ++ bad :: post ->
        (forall dll, In dll pre -> exit_code (run_process w (cmd dll)) = 0) ->
        exit_code (run_process w (cmd bad)) <> 0 ->
        m = (map (fun dll => CmdExecute (cmd dll)) pre ++ [CmdExecute (cmd bad)],
             Exit running_command_failed [ArgString (cmd bad)])).
Proof.
  intros cmd no_marker m. split.
  - intros Hok. unfold m, check_uwp_bit_of_dlls. cbn [String.eqb Ascii.eqb Bool.eqb andb negb].
    rewrite (dumpbin_loop_ok w cmd running_command_failed
               (fun dll _ => [ArgString (cmd dll)])
               (fun dll acc ec_data =>
                  if negb (contains "App Container" (output ec_data))
                  then acc ++ [dll] else acc))
      by (intros; first [apply check_uwp_bit_body_eq | auto]).
    rewrite (fold_left_push_unless
               (fun dll => contains "App Container"
                                    (output (run_process w (cmd dll))))).
    cbn [app]. fold no_marker.
    assert (Hin : forall dll, In dll (filter no_marker dlls)
                              <-> In dll dlls /\ no_marker dll = true)
      by (intros; apply filter_In).
    destruct (filter no_marker dlls) as [|d l] eqn:E.
    + rewrite bind_nil_done || idtac.
      assert (Hnone : ~ exists dll, In dll dlls /\ no_marker dll = true)
        by (intros (dll & H); apply Hin in H; destruct H).
      cbn [bind vempty negb ret app result snd trace fst]. rewrite app_nil_r.
      split; [split; [discriminate | tauto]|]. split; [tauto|].
      intros ps. split; [|tauto]. intros H.
      apply in_map_iff in H as (x & H & _). discriminate H.
    + assert (Hsome : exists dll, In dll dlls /\ no_marker dll = true)
        by (exists d; apply Hin; left; reflexivity).
      cbn [bind vempty negb ret app result snd trace fst println print_paths].
      split; [tauto|]. split; [split; [discriminate | tauto]|].
      intros ps. rewrite in_app_iff. split.
      * intros [H | H].
        -- apply in_map_iff in H as (x & H & _). discriminate H.
        -- cbn [In] in H. destruct H as [H | [H | [H | []]]]; try discriminate H.
           inversion H. tauto.
      * intros (_ & ->). right. right. left. reflexivity.
  - intros pre bad post -> Hok Hbad. unfold m, check_uwp_bit_of_dlls. cbn [String.eqb Ascii.eqb Bool.eqb andb negb].
    rewrite (dumpbin_loop_fail w cmd running_command_failed
               (fun dll _ => [ArgString (cmd dll)])
               (fun dll acc ec_data =>
                  if negb (contains "App Container" (output ec_data))
                  then acc ++ [dll] else acc))
      by (intros; first [apply check_uwp_bit_body_eq | auto]).
    reflexivity.
Qed.

Lemma check_uwp_bit_of_dlls_spec_witness :
  check_uwp_bit_of_dlls Sample.w "WindowsStore"
    [Sample.pkg // "bin" // "zlib1.dll"] "dumpbin.exe"
  = ([ CmdExecute (dumpbin_cmd_line Sample.w " /headers " "dumpbin.exe"
                                    (Sample.pkg // "bin" // "zlib1.dll")) ],
     Done SUCCESS)
  /\ result (check_uwp_bit_of_dlls Sample.no_dumpbin "WindowsStore"
               [Sample.pkg // "bin" // "zlib1.dll"] "dumpbin.exe")
     = Exit running_command_failed
            [ArgString (dumpbin_cmd_line Sample.no_dumpbin " /headers " "dumpbin.exe"
                                         (Sample.pkg // "bin" // "zlib1.dll"))].
Proof.
  assert (Hok : forall dll,
             In dll [Sample.pkg // "bin" // "zlib1.dll"] ->
             exit_code (run_process Sample.w
                          (dumpbin_cmd_line Sample.w " /headers " "dumpbin.exe" dll)) = 0)
    by (intros dll [<- | []]; reflexivity).
  split.
  - apply (proj1 (proj2 (proj1 (check_uwp_bit_of_dlls_spec Sample.w
                                  [Sample.pkg // "bin" // "zlib1.dll"] "dumpbin.exe")
                               Hok))).
    intros (dll & [<- | []] & H). discriminate H.
  - rewrite (proj2 (check_uwp_bit_of_dlls_spec Sample.no_dumpbin
                      [Sample.pkg // "bin" // "zlib1.dll"] "dumpbin.exe")
                   [] (Sample.pkg // "bin" // "zlib1.dll") [] eq_refl).
    + reflexivity.
    + intros dll [].
    + discriminate.
Defined.

(** ** CRT linkage of static libraries *)

Lemma bind_done_eq {A B} (t : list Event) (a : A) (f : A -> M B) :
  bind (t, Done a) f = (t ++ trace (f a), result (f a)).
Proof. apply bind_step. reflexivity. Qed.

Lemma fold_left_push_first_match {A B C} (matches : A -> B -> bool)
      (mk : A -> B -> C) (candidates : list B) (l : list A) (acc : list C) :
  fold_left
    (fun acc x => push_first_match (matches x) (mk x) candidates acc) l acc
  = acc ++ flat_map (fun x => match find (matches x) candidates with
                              | Some b => [mk x b]
                              | None => []
                              end) l.
Proof.
  revert acc. induction l as [|x l IH]; intros acc; cbn [fold_left flat_map].
  - symmetry. apply app_nil_r.
  - rewrite IH. unfold push_first_match.
    destruct (find (matches x) candidates);
      rewrite <- ?app_assoc, ?app_nil_r; reflexivity.
Qed.

Lemma libs_with_invalid_crt_in w expected_build_type dumpbin_exe libs btf :
  In btf (libs_with_invalid_crt w expected_build_type dumpbin_exe libs)
  <-> In (btf_file btf) libs
      /\ first_bad_build_type w expected_build_type dumpbin_exe (btf_file btf)
         = Some (btf_build_type btf).
Proof.
  unfold libs_with_invalid_crt. rewrite in_flat_map. split.
  - intros (lib & Hin & H).
    destruct (first_bad_build_type w expected_build_type dumpbin_exe lib) as [b|] eqn:E;
      [|destruct H].
    destruct H as [<- | []]. cbn. auto.
  - intros (Hin & E). exists (btf_file btf). split; [assumption|].
    rewrite E. left. destruct btf; reflexivity.
Qed.

Lemma first_bad_build_type_some w expected_build_type dumpbin_exe lib :
  (exists b, first_bad_build_type w expected_build_type dumpbin_exe lib = Some b)
  <-> exists b,
        In b VALUES /\ b <> expected_build_type
        /\ regex_search w
             (output (run_process w (dumpbin_cmd_line w " /directives " dumpbin_exe lib)))
             (crt_regex w b) = true.
Proof.
  unfold first_bad_build_type. split.
  - intros (b & E). apply find_some in E as [Hin Hm].
    apply in_remove in Hin as [Hin Hne]. eauto.
  - intros (b & Hin & Hne & Hm).
    match goal with
    | |- exists x, find ?f ?l = Some x => destruct (find f l) as [b'|] eqn:E
    end.
    + eauto.
    + eapply find_none in E; [|apply in_in_remove; eassumption].
      cbv beta in E. congruence.
Qed.

Lemma check_crt_linkage_of_libs_eq w expected_build_type libs dumpbin_exe :
  (forall lib, In lib libs ->
     exit_code (run_process w (dumpbin_cmd_line w " /directives " dumpbin_exe lib)) = 0) ->
  check_crt_linkage_of_libs w expected_build_type libs dumpbin_exe
  = let invalid := libs_with_invalid_crt w expected_build_type dumpbin_exe libs in
    (map (fun lib => CmdExecute (dumpbin_cmd_line w " /directives " dumpbin_exe lib)) libs
     ++ (if vempty invalid then []
         else [Println warning
                 "Expected %s crt linkage, but the following libs had invalid crt linkage:"
                 [ArgString (BuildType_to_string w expected_build_type)];
               Println plain EmptyString []]
              ++ map (fun btf =>
                        Println plain "    %s: %s"
                                [ArgString (btf_file btf);
                                 ArgString (BuildType_to_string w (btf_build_type btf))])
                     invalid
              ++ [Println plain EmptyString [];
                  Println warning
                    ("To inspect the lib files, use:" +++ nl
                     +++ "    dumpbin.exe /directives mylibfile.lib")
                    []]),
     Done (if vempty invalid then SUCCESS else ERROR_DETECTED)).
Proof.
  intros Hok. unfold check_crt_linkage_of_libs. cbv zeta.
  rewrite (dumpbin_loop_ok w
             (dumpbin_cmd_line w " /directives " dumpbin_exe)
             ("Running command:" +++ nl +++ "   %s" +++ nl
              +++ " failed with message:" +++ nl +++ "%s")
             (fun lib ec_data =>
                [ArgString (dumpbin_cmd_line w " /directives " dumpbin_exe lib);
                 ArgString (output ec_data)])
             (fun lib acc ec_data =>
                push_first_match
                  (fun bad_build_type =>
                     regex_search w (output ec_data) (crt_regex w bad_build_type))
                  (fun bad_build_type =>
                     {| btf_file := lib; btf_build_type := bad_build_type |})
                  (remove BuildType_eq_dec expected_build_type VALUES) acc))
    by (intros; first [reflexivity | auto]).
  rewrite (fold_left_push_first_match
             (fun lib bad_build_type =>
                regex_search w
                  (output (run_process w (dumpbin_cmd_line w " /directives " dumpbin_exe lib)))
                  (crt_regex w bad_build_type))
             (fun lib bad_build_type =>
                {| btf_file := lib; btf_build_type := bad_build_type |})).
  rewrite bind_done_eq. cbn [app].
  change (flat_map _ libs)
    with (libs_with_invalid_crt w expected_build_type dumpbin_exe libs).
  destruct (libs_with_invalid_crt w expected_build_type dumpbin_exe libs)
    as [|btf invalid] eqn:E.
  - reflexivity.
  - cbn [vempty negb].
    rewrite (for_each_println (btf :: invalid)
               (fun btf =>
                  Println plain "    %s: %s"
                          [ArgString (btf_file btf);
                           ArgString (BuildType_to_string w (btf_build_type btf))]))
      by reflexivity.
    reflexivity.
Qed.

(** X8.  When [dumpbin /directives] returns 0 on every library,
    [check_crt_linkage_of_libs] returns [ERROR_DETECTED] exactly when the
    directives of some library match the CRT pattern of a build type of
    [VALUES] other than the expected one.  A library is named in the detail
    exactly in that case, with the first such build type in the order of
    [VALUES]; a library whose directives match no pattern but the expected
    one is not reported. *)
Theorem check_crt_linkage_of_libs_spec w expected_build_type libs dumpbin_exe :
  let cmd := dumpbin_cmd_line w " /directives " dumpbin_exe in
  let directives lib := output (run_process w (cmd lib)) in
  let m := check_crt_linkage_of_libs w expected_build_type libs dumpbin_exe in
  (forall lib, In lib libs -> exit_code (run_process w (cmd lib)) = 0) ->
  (result m = Done ERROR_DETECTED
   <-> exists lib b,
         In lib libs /\ In b VALUES /\ b <> expected_build_type
         /\ regex_search w (directives lib) (crt_regex w b) = true)
  /\ (forall lib s,
        In (Println plain "    %s: %s" [ArgString lib; ArgString s]) (trace m)
        <-> In lib libs
            /\ exists b,
                 find (fun b => regex_search w (directives lib) (crt_regex w b))
                      (remove BuildType_eq_dec expected_build_type VALUES) = Some b
                 /\ BuildType_to_string w b = s)
  /\ (forall lib,
        (forall b, In b VALUES ->
                   regex_search w (directives lib) (crt_regex w b) = true ->
                   b = expected_build_type) ->
        forall s,
          ~ In (Println plain "    %s: %s" [ArgString lib; ArgString s]) (trace m)).
Proof.
  intros cmd directives m Hok.
  set (invalid := libs_with_invalid_crt w expected_build_type dumpbin_exe libs).
  assert (Hm : m = (map (fun lib => CmdExecute (cmd lib)) libs
                    ++ (if vempty invalid then []
                        else [Println warning
                                "Expected %s crt linkage, but the following libs had invalid crt linkage:"
                                [ArgString (BuildType_to_string w expected_build_type)];
                              Println plain EmptyString []]
                             ++ map (fun btf =>
                                       Println plain "    %s: %s"
                                               [ArgString (btf_file btf);
                                                ArgString (BuildType_to_string
                                                             w (btf_build_type btf))])
                                    invalid
                             ++ [Println plain EmptyString [];
                                 Println warning
                                   ("To inspect the lib files, use:" +++ nl
                                    +++ "    dumpbin.exe /directives mylibfile.lib")
                                   []]),
                    Done (if vempty invalid then SUCCESS else ERROR_DETECTED)))
    by (apply check_crt_linkage_of_libs_eq; exact Hok).
  assert (Hline : forall lib s,
             In (Println plain "    %s: %s" [ArgString lib; ArgString s]) (trace m)
             <-> In lib libs
                 /\ exists b,
                      first_bad_build_type w expected_build_type dumpbin_exe lib = Some b
                      /\ BuildType_to_string w b = s).
  { intros lib s. rewrite Hm. cbn [trace fst]. rewrite in_app_iff. split.
    - intros [H | H].
      + apply in_map_iff in H as (x & H & _). discriminate H.
      + destruct (vempty invalid); [destruct H|].
        cbn [app In] in H. destruct H as [H | [H | H]]; try discriminate H.
        apply in_app_or in H as [H | H].
        * apply in_map_iff in H as (btf & E & Hin).
          apply libs_with_invalid_crt_in in Hin as [Hin Hf].
          inversion E; subst. split; [assumption|]. eauto.
        * destruct H as [H | [H | []]]; discriminate H.
    - intros (Hin & b & Hf & <-). right.
      assert (H : In {| btf_file := lib; btf_build_type := b |} invalid)
        by (apply libs_with_invalid_crt_in; split; assumption).
      destruct invalid as [|b0 l]; [destruct H|].
      cbn [vempty app In]. right. right. apply in_or_app. left.
      apply in_map_iff. eexists. split; [|exact H]. reflexivity. }
  split; [|split].
  - rewrite Hm. cbn [result snd]. split.
    + destruct invalid as [|btf l] eqn:E; [discriminate|]. intros _.
      assert (Hin : In btf invalid) by (rewrite E; left; reflexivity).
      apply libs_with_invalid_crt_in in Hin as [Hin Hf].
      assert (Hex : exists b, first_bad_build_type w expected_build_type dumpbin_exe
                                                   (btf_file btf) = Some b) by eauto.
      apply first_bad_build_type_some in Hex as (b & Hb).
      exists (btf_file btf), b. tauto.
    + intros (lib & b & Hin & Hb).
      assert (Hex : exists b, In b VALUES /\ b <> expected_build_type
                              /\ regex_search w
                                   (output (run_process w (dumpbin_cmd_line
                                                             w " /directives " dumpbin_exe lib)))
                                   (crt_regex w b) = true) by eauto.
      apply first_bad_build_type_some in Hex as (b' & Hf).
      assert (H : In {| btf_file := lib; btf_build_type := b' |} invalid)
        by (apply libs_with_invalid_crt_in; split; assumption).
      destruct invalid; [destruct H | reflexivity].
  - exact Hline.
  - intros lib Honly s H. apply Hline in H as (_ & b & Hf & _).
    apply find_some in Hf as [Hin Hmatch].
    apply in_remove in Hin as [Hin Hne]. apply Hne. apply Honly; assumption.
Qed.

Lemma check_crt_linkage_of_libs_spec_witness :
  In (Println plain "    %s: %s"
              [ArgString (Sample.pkg // "debug" // "lib" // "zlibd.lib");
               ArgString "Debug,Dynamic"])
     (trace (check_crt_linkage_of_libs Cases.static_libs RELEASE_DYNAMIC
               [Sample.pkg // "lib" // "zlib.lib";
                Sample.pkg // "debug" // "lib" // "zlibd.lib"]
               "dumpbin.exe"))
  /\ forall s,
       ~ In (Println plain "    %s: %s"
                     [ArgString (Sample.pkg // "lib" // "zlib.lib"); ArgString s])
            (trace (check_crt_linkage_of_libs Cases.static_libs RELEASE_DYNAMIC
                      [Sample.pkg // "lib" // "zlib.lib";
                       Sample.pkg // "debug" // "lib" // "zlibd.lib"]
                      "dumpbin.exe")).
Proof.
  assert (Hok : forall lib,
             In lib [Sample.pkg // "lib" // "zlib.lib";
                     Sample.pkg // "debug" // "lib" // "zlibd.lib"] ->
             exit_code (run_process Cases.static_libs
                          (dumpbin_cmd_line Cases.static_libs " /directives "
                                            "dumpbin.exe" lib)) = 0)
    by (intros lib [<- | [<- | []]]; reflexivity).
  destruct (check_crt_linkage_of_libs_spec Cases.static_libs RELEASE_DYNAMIC
              [Sample.pkg // "lib" // "zlib.lib";
               Sample.pkg // "debug" // "lib" // "zlibd.lib"]
              "dumpbin.exe" Hok)
    as (_ & Hline & Honly).
  split.
  - apply Hline. split; [right; left; reflexivity|].
    exists DEBUG_DYNAMIC. split; vm_compute; reflexivity.
  - apply Honly. intros b Hb Hm.
    destruct Hb as [<- | [<- | [<- | [<- | []]]]];
      first [reflexivity | vm_compute in Hm; discriminate Hm].
Defined.

(** ** Architectures *)

Lemma append_inj_r (p s s' : string) : p +++ s = p +++ s' -> s = s'.
Proof.
  induction p as [|c p IH]; cbn [String.append]; intros E;
    [exact E | inversion E; auto].
Qed.

Lemma to_string_inj (a b : Z) : 0 <= a -> 0 <= b -> to_string a = to_string b -> a = b.
Proof.
  unfold to_string. intros Ha Hb E.
  apply Z2N.inj; [assumption | assumption |].
  apply DecimalN.Unsigned.to_uint_inj.
  assert (E' : Some (N.to_uint (Z.to_N a)) = Some (N.to_uint (Z.to_N b)))
    by (rewrite <- !NilEmpty.usu, E; reflexivity).
  inversion E'. reflexivity.
Qed.

(** X9.  The architecture names and the machine types that produce them:
    "x64" stands for AMD64 and IA64, "x86" for I386, "arm" for ARM and ARMNT,
    "arm64" for ARM64.  A machine type outside this table is described by
    "Machine Type Code = " followed by its numeric code as an unsigned 16-bit
    number in decimal, which compares equal to none of the four names; two
    such types have the same description exactly when their 16-bit codes
    agree. *)
Theorem get_actual_architecture_names (machine_type : MachineType) :
  (get_actual_architecture machine_type = "x64"
   <-> machine_type = AMD64 \/ machine_type = IA64)
  /\ (get_actual_architecture machine_type = "x86" <-> machine_type = I386)
  /\ (get_actual_architecture machine_type = "arm"
      <-> machine_type = ARM \/ machine_type = ARMNT)
  /\ (get_actual_architecture machine_type = "arm64" <-> machine_type = ARM64)
  /\ (forall code,
        machine_type = MACHINE_OTHER code ->
        get_actual_architecture machine_type
        = "Machine Type Code = " +++ to_string (code mod 2 ^ 16)
        /\ ~ In (get_actual_architecture machine_type) ["x64"; "x86"; "arm"; "arm64"]
        /\ forall code',
             get_actual_architecture machine_type
             = get_actual_architecture (MACHINE_OTHER code')
             <-> code mod 2 ^ 16 = code' mod 2 ^ 16).
Proof.
  split; [|split; [|split; [|split]]].
  - destruct machine_type; cbn [get_actual_architecture]; split; intros H;
      try discriminate H; try tauto; destruct H; discriminate.
  - destruct machine_type; cbn [get_actual_architecture]; split; intros H;
      try discriminate H; reflexivity.
  - destruct machine_type; cbn [get_actual_architecture]; split; intros H;
      try discriminate H; try tauto; destruct H; discriminate.
  - destruct machine_type; cbn [get_actual_architecture]; split; intros H;
      try discriminate H; reflexivity.
  - intros code ->. cbn [get_actual_architecture].
    split; [reflexivity|]. split.
    + cbn [In String.append]. intuition discriminate.
    + intros code'. split.
      * intros E. apply append_inj_r in E.
        apply to_string_inj in E; [exact E | |]; apply Z.mod_pos_bound; lia.
      * intros ->. reflexivity.
Qed.

Lemma get_actual_architecture_names_witness :
  get_actual_architecture IA64 = "x64"
  /\ get_actual_architecture (MACHINE_OTHER 450) = "Machine Type Code = 450"
  /\ ~ In (get_actual_architecture (MACHINE_OTHER 450)) ["x64"; "x86"; "arm"; "arm64"]
  /\ get_actual_architecture (MACHINE_OTHER 450)
     = get_actual_architecture (MACHINE_OTHER (450 + 65536)).
Proof.
  destruct (proj2 (proj2 (proj2 (proj2 (get_actual_architecture_names (MACHINE_OTHER 450)))))
                  450 eq_refl) as (Hd & Hn & Hc).
  split; [|split; [|split]].
  - apply (proj2 (proj1 (get_actual_architecture_names IA64))). right. reflexivity.
  - exact Hd.
  - exact Hn.
  - apply (proj2 (Hc (450 + 65536))). reflexivity.
Defined.

Lemma for_each_app {A S} (a b : list A) (body : A -> S -> M S) (s : S) :
  for_each (a ++ b) body s = bind (for_each a body s) (for_each b body).
Proof.
  revert s. induction a as [|x a IH]; intros s.
  - symmetry. apply (bind_ret_l s (for_each b body)).
  - cbn [app for_each]. rewrite bind_assoc. apply bind_ext. intros s'. apply IH.
Qed.

Lemma for_each_ret_app {A S R} (a b : list A) (body : A -> S -> M (LoopStep S R)) (s : S) :
  for_each_ret (a ++ b) body s
  = bind (for_each_ret a body s)
         (fun step => match step with
                      | Continue s' => for_each_ret b body s'
                      | Return r => ret (Return r)
                      end).
Proof.
  revert s. induction a as [|x a IH]; intros s.
  - cbn [app for_each_ret]. rewrite bind_ret_l. reflexivity.
  - cbn [app for_each_ret]. rewrite bind_assoc. apply bind_ext.
    intros [s' | r]; [apply IH | rewrite bind_ret_l; reflexivity].
Qed.

(** X10.  The architecture checks insist on the extension of every file:
    at the first file of the list that does not have the extension ".dll"
    ([check_dll_architecture]) or ".lib" ([check_lib_architecture] on a
    Windows host, after archives with exactly one machine type) the process
    exits with a message naming that file, and nothing is printed about the
    files before it, mismatched or not. *)
Theorem architecture_checks_require_extension w expected_architecture pre f post :
  (String.eqb (extension w f) ".dll" = false ->
   (forall g, In g pre -> extension w g = ".dll") ->
   check_dll_architecture w expected_architecture (pre ++ f :: post)
   = ([], Exit "The file extension was not .dll: %s" [ArgString f]))
  /\ (String.eqb (extension w f) ".lib" = false ->
      WIN32 w = true ->
      (forall g, In g pre ->
                 extension w g = ".lib"
                 /\ length (machine_types (read_lib w g)) = 1%nat) ->
      check_lib_architecture w expected_architecture (pre ++ f :: post)
      = ([], Exit "The file extension was not .lib: %s" [ArgString f])).
Proof.
  split.
  - intros Hf Hpre. unfold check_dll_architecture.
    rewrite for_each_app, dll_architecture_loop by assumption.
    rewrite bind_nil_done. cbn [for_each]. rewrite Hf. reflexivity.
  - intros Hf Hw Hpre. unfold check_lib_architecture. rewrite Hw.
    rewrite for_each_ret_app, lib_architecture_loop by assumption.
    rewrite bind_nil_done. cbn [for_each_ret]. rewrite Hf. reflexivity.
Qed.

(** X11.  On a Windows host, [check_lib_architecture] stops at the first
    archive in which the COFF reader finds no machine type, when the archives
    before it have the extension ".lib" and exactly one machine type: it
    returns [SUCCESS] and prints nothing, whatever the architectures of the
    archives before and after it.  On another host it returns [SUCCESS] in
    silence for every list. *)
Theorem check_lib_architecture_stops_without_machine_types
        w expected_architecture pre f post :
  (WIN32 w = true ->
   (forall g, In g pre ->
              extension w g = ".lib" /\ length (machine_types (read_lib w g)) = 1%nat) ->
   extension w f = ".lib" ->
   machine_types (read_lib w f) = [] ->
   check_lib_architecture w expected_architecture (pre ++ f :: post)
   = ([], Done SUCCESS))
  /\ (WIN32 w = false ->
      check_lib_architecture w expected_architecture (pre ++ f :: post)
      = ([], Done SUCCESS)).
Proof.
  split.
  - intros Hw Hpre Hf Hz. unfold check_lib_architecture. rewrite Hw.
    rewrite for_each_ret_app, lib_architecture_loop by assumption.
    rewrite bind_nil_done. cbn [for_each_ret]. rewrite Hf, Hz. reflexivity.
  - intros Hw. unfold check_lib_architecture. rewrite Hw. reflexivity.
Qed.

Lemma architecture_checks_require_extension_witness :
  check_dll_architecture Sample.w "x86"
    ([Sample.pkg // "bin" // "zlib1.dll"] ++ (Sample.pkg // "bin" // "zlib1.pdb") :: [])
  = ([], Exit "The file extension was not .dll: %s"
              [ArgString (Sample.pkg // "bin" // "zlib1.pdb")])
  /\ check_lib_architecture Sample.w "x86"
       ([Sample.pkg // "lib" // "zlib.lib"] ++ (Sample.pkg // "lib" // "zlib.a") :: [])
     = ([], Exit "The file extension was not .lib: %s"
                 [ArgString (Sample.pkg // "lib" // "zlib.a")]).
Proof.
  split.
  - apply (proj1 (architecture_checks_require_extension
                    Sample.w "x86" [Sample.pkg // "bin" // "zlib1.dll"]
                    (Sample.pkg // "bin" // "zlib1.pdb") [])).
    + reflexivity.
    + intros g [<- | []]. reflexivity.
  - apply (proj2 (architecture_checks_require_extension
                    Sample.w "x86" [Sample.pkg // "lib" // "zlib.lib"]
                    (Sample.pkg // "lib" // "zlib.a") [])).
    + reflexivity.
    + reflexivity.
    + intros g [<- | []]. split; reflexivity.
Defined.

Lemma check_lib_architecture_stops_without_machine_types_witness :
  check_lib_architecture Sample.folly "x64"
    ([Sample.pkg // "lib" // "folly.lib"]
     ++ (Sample.pkg // "debug" // "lib" // "follyd.lib") :: [])
  = ([], Done SUCCESS)
  /\ check_lib_architecture (Sample.mixed false) "x64"
       ([] ++ (Sample.pkg // "lib" // "zlib.lib") :: [])
     = ([], Done SUCCESS).
Proof.
  split.
  - apply (proj1 (check_lib_architecture_stops_without_machine_types
                    Sample.folly "x64" [Sample.pkg // "lib" // "folly.lib"]
                    (Sample.pkg // "debug" // "lib" // "follyd.lib") [])).
    + reflexivity.
    + intros g [<- | []]. split; reflexivity.
    + reflexivity.
    + reflexivity.
  - apply (proj2 (check_lib_architecture_stops_without_machine_types
                    (Sample.mixed false) "x64" []
                    (Sample.pkg // "lib" // "zlib.lib") [])).
    reflexivity.
Defined.

(* ===================================================================== *)
(** * Further properties of a run *)
(* ===================================================================== *)

Lemma run_checks_verdicts cs t vs :
  run_checks cs = (t, Done vs) -> vs = map verdict_of cs.
Proof.
  revert t vs. induction cs as [|c cs IH]; intros t vs H.
  - inversion H. reflexivity.
  - cbn [run_checks] in H.
    apply bind_done in H as (t1 & v & t2 & Hc & H & _).
    apply bind_done in H as (t3 & vs' & t4 & Hr & H & _).
    inversion H; subst. cbn [map]. f_equal. eapply IH; eassumption.
Qed.

Lemma sum_of_verdicts_app a b :
  sum_of_verdicts (a ++ b) = sum_of_verdicts a + sum_of_verdicts b.
Proof.
  unfold sum_of_verdicts. induction a as [|v a IH]; [reflexivity|].
  cbn [app map fold_right]. rewrite IH. lia.
Qed.

Lemma sum_of_verdicts_nonneg vs : 0 <= sum_of_verdicts vs.
Proof. rewrite sum_of_verdicts_count. lia. Qed.

Lemma sum_of_verdicts_zero vs :
  sum_of_verdicts vs = 0 <-> Forall (fun v => v = SUCCESS) vs.
Proof.
  rewrite sum_of_verdicts_count. unfold count_errors. split.
  - intros H.
    assert (H0 : count_occ LintStatus_eq_dec vs ERROR_DETECTED = 0%nat) by lia.
    apply count_occ_not_In in H0. apply Forall_forall. intros v Hv.
    destruct v; [reflexivity | contradiction].
  - intros HF.
    assert (H : ~ In ERROR_DETECTED vs).
    { intros Hin. rewrite Forall_forall in HF. apply HF in Hin. discriminate Hin. }
    apply (count_occ_not_In LintStatus_eq_dec) in H. lia.
Qed.

Lemma sum_of_verdicts_error cs c :
  In c cs -> verdict_of c = ERROR_DETECTED ->
  1 <= sum_of_verdicts (map verdict_of cs).
Proof.
  intros Hin Hv. apply in_split in Hin as (l1 & l2 & ->).
  rewrite map_app, sum_of_verdicts_app. cbn [map].
  change (verdict_of c :: map verdict_of l2)
    with ([verdict_of c] ++ map verdict_of l2).
  rewrite sum_of_verdicts_app, Hv.
  pose proof (sum_of_verdicts_nonneg (map verdict_of l1)).
  pose proof (sum_of_verdicts_nonneg (map verdict_of l2)).
  change (sum_of_verdicts [ERROR_DETECTED]) with 1. lia.
Qed.

(** A failing check of the run counts for at least one. *)
Lemma perform_all_checks_counts_check w spec paths pre_build_info build_info t n c :
  perform_all_checks w spec paths pre_build_info build_info = (t, Done n) ->
  In c (checks_run w spec paths pre_build_info build_info) ->
  result c = Done ERROR_DETECTED ->
  1 <= n /\ incl (trace c) t.
Proof.
  intros H Hin Hc. split; [|eapply perform_all_checks_trace_incl; eassumption].
  apply perform_all_checks_done in H as (tc & H & _).
  apply perform_done_run_checks in H as (vs & Hr & ->).
  rewrite (run_checks_verdicts _ Hr).
  eapply sum_of_verdicts_error; [eassumption|]. unfold verdict_of. rewrite Hc.
  reflexivity.
Qed.

(** X12.  A run that returns a count [n] ran at most 23 checks and
    [0 <= n <= 23]; [n] is 0 exactly when every check that was run returned
    [SUCCESS], and the summary that names the portfile of the package is
    printed exactly when [n] is not 0. *)
Theorem perform_all_checks_count w spec paths pre_build_info build_info t n :
  perform_all_checks w spec paths pre_build_info build_info = (t, Done n) ->
  0 <= n <= 23
  /\ (n = 0 <-> Forall (fun c => result c = Done SUCCESS)
                       (checks_run w spec paths pre_build_info build_info))
  /\ (n <> 0
      <-> In (Println error
                ("Found %u error(s). Please correct the portfile:" +++ nl +++ "    %s")
                [ArgSize n;
                 ArgString (ports paths // spec_name spec // "portfile.cmake")])
             t)
  /\ (forall c fmt args, In (Println c fmt args) t -> c = error -> n <> 0).
Proof.
  intros H.
  assert (Hsum : forall c fmt args, In (Println c fmt args) t -> c = error -> n <> 0).
  { intros c fmt args Hin ->.
    destruct (Z.eqb_spec n 0) as [-> | Hn]; [|exact Hn]. exfalso.
    apply perform_all_checks_done in H as (tc & H & ->).
    cbn [Z.eqb negb app] in Hin.
    destruct Hin as [Hin | Hin]; [discriminate Hin|].
    apply in_app_or in Hin as [Hin | [Hin | []]]; [|discriminate Hin].
    assert (He : emits (fun e => match e with
                                 | Println error _ _ => false
                                 | _ => true
                                 end)
                       (perform_all_checks_and_return_error_count
                          w spec paths pre_build_info build_info)).
    { unfold perform_all_checks_and_return_error_count. unfold_checks. emits_auto. }
    unfold emits in He. rewrite H in He. cbn [trace fst] in He.
    rewrite forallb_forall in He. apply He in Hin. discriminate Hin. }
  split; [|split; [|split; [|exact Hsum]]].
  - pose proof H as H'.
    apply perform_all_checks_done in H' as (tc & H' & _).
    apply perform_done_run_checks in H' as (vs & Hr & ->).
    pose proof (run_checks_length _ Hr).
    pose proof (checks_run_length w spec paths pre_build_info build_info).
    pose proof (count_errors_le_length vs).
    rewrite sum_of_verdicts_count. lia.
  - pose proof H as H'.
    apply perform_all_checks_done in H' as (tc & H' & _).
    apply perform_done_run_checks in H' as (vs & Hr & ->).
    rewrite sum_of_verdicts_zero, (run_checks_verdicts _ Hr), Forall_map.
    assert (Hdone : Forall (fun c => exists v, result c = Done v)
                           (checks_run w spec paths pre_build_info build_info)).
    { clear -Hr. revert tc vs Hr.
      induction (checks_run w spec paths pre_build_info build_info) as [|c cs IH];
        intros tc vs Hr; [constructor|].
      cbn [run_checks] in Hr.
      apply bind_done in Hr as (t1 & v & t2 & Hc & Hr & _).
      apply bind_done in Hr as (t3 & vs' & t4 & Hr & _ & _).
      constructor; [exists v; rewrite Hc; reflexivity | eapply IH; eassumption]. }
    rewrite !Forall_forall in *. split; intros HF c Hc; specialize (HF c Hc).
    + destruct (Hdone c Hc) as (v & Hv). unfold verdict_of in HF. rewrite Hv in *.
      congruence.
    + unfold verdict_of. rewrite HF. reflexivity.
  - split.
    + intros Hn. apply perform_all_checks_done in H as (tc & _ & ->).
      apply Z.eqb_neq in Hn. rewrite Hn. cbn [negb].
      apply in_or_app. right. apply in_or_app. right. left. reflexivity.
    + intros Hin. eapply Hsum; [exact Hin | reflexivity].
Qed.

Lemma perform_all_checks_count_witness :
  0 <= 2 <= 23
  /\ In (Println error
           ("Found %u error(s). Please correct the portfile:" +++ nl +++ "    %s")
           [ArgSize 2; ArgString "ports/zlib/portfile.cmake"])
        (trace (perform_all_checks
                  Sample.w Sample.spec (Sample.paths "dumpbin.exe")
                  (Sample.pre (Some "v141") None) (Sample.build STATIC []))).
Proof.
  destruct (perform_all_checks_count
              Sample.w Sample.spec (Sample.paths "dumpbin.exe")
              (Sample.pre (Some "v141") None) (Sample.build STATIC [])
              (t := trace (perform_all_checks
                             Sample.w Sample.spec (Sample.paths "dumpbin.exe")
                             (Sample.pre (Some "v141") None)
                             (Sample.build STATIC [])))
              (n := 2) eq_refl)
    as (Hb & _ & Hs & _).
  split; [exact Hb|]. apply Hs. discriminate.
Defined.

(** X13.  Without a [dumpbin] (the path of the toolset is empty), a run
    starts no subprocess at all, whatever the linkage and the package. *)
Theorem no_dumpbin_no_subprocess w spec paths pre_build_info build_info :
  empty (dumpbin (get_toolset paths pre_build_info)) = true ->
  forall cmd_line,
    ~ In (CmdExecute cmd_line)
         (trace (perform_all_checks w spec paths pre_build_info build_info)).
Proof.
  intros He cmd_line Hin.
  assert (H : emits no_cmd (perform_all_checks w spec paths pre_build_info build_info)).
  { unfold perform_all_checks, perform_all_checks_and_return_error_count.
    rewrite He. cbn [negb]. unfold_checks. emits_auto. }
  unfold emits in H. rewrite forallb_forall in H. apply H in Hin. discriminate Hin.
Qed.

Lemma no_dumpbin_no_subprocess_witness :
  empty (dumpbin (get_toolset (Sample.paths EmptyString) (Sample.pre (Some "v141") None)))
  = true
  /\ forall cmd_line,
       ~ In (CmdExecute cmd_line)
            (trace (perform_all_checks
                      Sample.w Sample.spec (Sample.paths EmptyString)
                      (Sample.pre (Some "v141") None) (Sample.build DYNAMIC []))).
Proof.
  split; [reflexivity|].
  apply (no_dumpbin_no_subprocess
           Sample.w Sample.spec (Sample.paths EmptyString)
           (Sample.pre (Some "v141") None) (Sample.build DYNAMIC [])).
  reflexivity.
Defined.

(** ** The include folder *)

Lemma check_for_files_in_include_directory_eq w pol package_dir :
  check_for_files_in_include_directory w pol package_dir
  = if negb (is_enabled pol EMPTY_INCLUDE_FOLDER)
       && (negb (fs_exists w (package_dir // "include"))
           || fs_is_empty w (package_dir // "include"))
    then ([Println warning include_folder_fmt []], Done ERROR_DETECTED)
    else ([], Done SUCCESS).
Proof.
  unfold check_for_files_in_include_directory. cbv zeta.
  destruct (is_enabled pol EMPTY_INCLUDE_FOLDER); [reflexivity|].
  destruct (negb (fs_exists w (package_dir // "include"))
            || fs_is_empty w (package_dir // "include")); reflexivity.
Qed.

Lemma checks_run_include w spec paths pre_build_info build_info :
  is_enabled (policies build_info) EMPTY_PACKAGE = false ->
  In (check_for_files_in_include_directory w (policies build_info)
                                           (package_dir paths spec))
     (checks_run w spec paths pre_build_info build_info).
Proof. intros He. unfold checks_run. rewrite He. find_check. Qed.

Lemma include_diagnostic_only_when_missing w spec paths pre_build_info build_info :
  negb (is_enabled (policies build_info) EMPTY_INCLUDE_FOLDER)
  && (negb (fs_exists w (package_dir paths spec // "include"))
      || fs_is_empty w (package_dir paths spec // "include")) = false ->
  emits (not_println_of include_folder_fmt)
        (perform_all_checks w spec paths pre_build_info build_info).
Proof.
  intros H.
  unfold perform_all_checks, perform_all_checks_and_return_error_count. cbv zeta.
  rewrite check_for_files_in_include_directory_eq, H.
  unfold_checks. emits_auto.
Qed.

(** X14.  In a run that returns a count and is not suppressed by the policy
    [EMPTY_PACKAGE], the diagnostic about the include folder is printed
    exactly when the policy [EMPTY_INCLUDE_FOLDER] is not enabled and the
    folder [include] of the package does not exist or is empty; the count is
    then at least 1. *)
Theorem include_folder_in_run w spec paths pre_build_info build_info t n :
  perform_all_checks w spec paths pre_build_info build_info = (t, Done n) ->
  is_enabled (policies build_info) EMPTY_PACKAGE = false ->
  let missing :=
    is_enabled (policies build_info) EMPTY_INCLUDE_FOLDER = false
    /\ (fs_exists w (package_dir paths spec // "include") = false
        \/ fs_is_empty w (package_dir paths spec // "include") = true) in
  (In (Println warning include_folder_fmt []) t <-> missing)
  /\ (missing -> 1 <= n).
Proof.
  intros H He missing.
  assert (Hb : missing
               <-> negb (is_enabled (policies build_info) EMPTY_INCLUDE_FOLDER)
                   && (negb (fs_exists w (package_dir paths spec // "include"))
                       || fs_is_empty w (package_dir paths spec // "include")) = true).
  { unfold missing.
    rewrite andb_true_iff, orb_true_iff, !negb_true_iff. reflexivity. }
  assert (Hc : missing ->
               result (check_for_files_in_include_directory
                         w (policies build_info) (package_dir paths spec))
               = Done ERROR_DETECTED
               /\ In (Println warning include_folder_fmt [])
                     (trace (check_for_files_in_include_directory
                               w (policies build_info) (package_dir paths spec)))).
  { intros Hm. apply Hb in Hm.
    rewrite check_for_files_in_include_directory_eq, Hm.
    split; [reflexivity | left; reflexivity]. }
  split; [split|].
  - intros Hin. apply Hb.
    destruct (negb (is_enabled (policies build_info) EMPTY_INCLUDE_FOLDER)
              && (negb (fs_exists w (package_dir paths spec // "include"))
                  || fs_is_empty w (package_dir paths spec // "include"))) eqn:E;
      [reflexivity|].
    pose proof (include_diagnostic_only_when_missing
                  w spec paths pre_build_info build_info E) as Hemits.
    unfold emits in Hemits. rewrite H in Hemits. cbn [trace fst] in Hemits.
    rewrite forallb_forall in Hemits. apply Hemits in Hin. discriminate Hin.
  - intros Hm. destruct (Hc Hm) as [Hres Hin].
    eapply perform_all_checks_counts_check;
      [exact H | apply checks_run_include; assumption | exact Hres | exact Hin].
  - intros Hm. destruct (Hc Hm) as [Hres _].
    eapply perform_all_checks_counts_check;
      [exact H | apply checks_run_include; assumption | exact Hres].
Qed.

Lemma include_folder_in_run_witness :
  In (Println warning include_folder_fmt [])
     (trace (perform_all_checks
               Sample.release_only Sample.spec (Sample.paths EmptyString)
               (Sample.pre None None) (Sample.build DYNAMIC [])))
  /\ ~ In (Println warning include_folder_fmt [])
          (trace (perform_all_checks
                    Sample.release_only Sample.spec (Sample.paths EmptyString)
                    (Sample.pre None None)
                    (Sample.build DYNAMIC [(EMPTY_INCLUDE_FOLDER, true)]))).
Proof.
  split.
  - apply (proj1 (include_folder_in_run
                    Sample.release_only Sample.spec (Sample.paths EmptyString)
                    (Sample.pre None None) (Sample.build DYNAMIC [])
                    (t := trace (perform_all_checks
                                   Sample.release_only Sample.spec
                                   (Sample.paths EmptyString)
                                   (Sample.pre None None) (Sample.build DYNAMIC [])))
                    (n := 3) eq_refl eq_refl)).
    split; [reflexivity | left; reflexivity].
  - intros Hin.
    destruct (proj1 (proj1 (include_folder_in_run
                              Sample.release_only Sample.spec (Sample.paths EmptyString)
                              (Sample.pre None None)
                              (Sample.build DYNAMIC [(EMPTY_INCLUDE_FOLDER, true)])
                              (t := trace (perform_all_checks
                                             Sample.release_only Sample.spec
                                             (Sample.paths EmptyString)
                                             (Sample.pre None None)
                                             (Sample.build DYNAMIC
                                                           [(EMPTY_INCLUDE_FOLDER, true)])))
                              (n := 2) eq_refl eq_refl))
                    Hin)
      as [Hp _].
    discriminate Hp.
Defined.

(** ** Defects that several checks count *)

Lemma perform_all_checks_counts_two w spec paths pre_build_info build_info t n
      l1 c1 l2 c2 l3 :
  perform_all_checks w spec paths pre_build_info build_info = (t, Done n) ->
  checks_run w spec paths pre_build_info build_info = l1 ++ c1 :: l2 ++ c2 :: l3 ->
  result c1 = Done ERROR_DETECTED ->
  result c2 = Done ERROR_DETECTED ->
  2 <= n.
Proof.
  intros H Hcs H1 H2.
  apply perform_all_checks_done in H as (tc & H & _).
  apply perform_done_run_checks in H as (vs & Hr & ->).
  rewrite (run_checks_verdicts _ Hr), Hcs.
  rewrite map_app, sum_of_verdicts_app. cbn [map].
  change (verdict_of c1 :: map verdict_of (l2 ++ c2 :: l3))
    with ([verdict_of c1] ++ map verdict_of (l2 ++ c2 :: l3)).
  rewrite sum_of_verdicts_app, map_app, sum_of_verdicts_app. cbn [map].
  change (verdict_of c2 :: map verdict_of l3)
    with ([verdict_of c2] ++ map verdict_of l3).
  rewrite sum_of_verdicts_app.
  unfold verdict_of at 2 4. rewrite H1, H2.
  change (sum_of_verdicts [ERROR_DETECTED]) with 1.
  pose proof (sum_of_verdicts_nonneg (map verdict_of l1)).
  pose proof (sum_of_verdicts_nonneg (map verdict_of l2)).
  pose proof (sum_of_verdicts_nonneg (map verdict_of l3)).
  lia.
Qed.

Lemma reports_error (m : M LintStatus) (xs : list path) :
  reports m xs -> xs <> [] ->
  result m = Done ERROR_DETECTED /\ In (PrintPaths xs) (trace m).
Proof.
  intros [[Hx _] | (_ & Hres & Hps)] Hne; [contradiction|].
  split; [exact Hres | apply Hps; reflexivity].
Qed.

(** X15.  A cmake file under [lib/cmake] is counted twice: in a run that
    returns a count and is not suppressed by [EMPTY_PACKAGE], when the folder
    [lib/cmake] exists and holds, at any depth, a file with the extension
    ".cmake", both [check_folder_lib_cmake] and
    [check_for_misplaced_cmake_files] fail and the count is at least 2; the
    run prints the diagnostic of the folder and a list of paths that names
    the file.  The same holds of [debug/lib/cmake] with
    [check_folder_debug_lib_cmake]. *)
Theorem cmake_files_are_counted_twice w spec paths pre_build_info build_info t n dir f :
  perform_all_checks w spec paths pre_build_info build_info = (t, Done n) ->
  is_enabled (policies build_info) EMPTY_PACKAGE = false ->
  dir = package_dir paths spec // "lib" // "cmake"
  \/ dir = package_dir paths spec // "debug" // "lib" // "cmake" ->
  fs_exists w dir = true ->
  In f (get_files_recursive w dir) ->
  fs_is_directory w f = false ->
  extension w f = ".cmake" ->
  2 <= n
  /\ (exists ps,
        In (PrintPaths ps) (trace (check_for_misplaced_cmake_files
                                     w (package_dir paths spec) spec))
        /\ In (PrintPaths ps) t
        /\ In f ps)
  /\ (forall ps, In (PrintPaths ps) (trace (check_for_misplaced_cmake_files
                                             w (package_dir paths spec) spec)) ->
                 In f ps)
  /\ (dir = package_dir paths spec // "lib" // "cmake" ->
      In (Println warning
            "The /lib/cmake folder should be merged with /debug/lib/cmake and moved to /share/%s/cmake."
            [ArgString (spec_name spec)])
         t)
  /\ (dir = package_dir paths spec // "debug" // "lib" // "cmake" ->
      In (Println warning
            "The /debug/lib/cmake folder should be merged with /lib/cmake into /share/%s"
            [ArgString (spec_name spec)])
         t)
  /\ incl (trace (check_for_misplaced_cmake_files w (package_dir paths spec) spec)) t.
Proof.
  intros H He Hdir Hex Hf Hd Hext.
  assert (Hm : In f (misplaced_cmake_files w (package_dir paths spec))).
  { unfold misplaced_cmake_files. apply filter_In. split.
    - destruct Hdir as [-> | ->]; rewrite !in_app_iff; tauto.
    - rewrite Hd, Hext. reflexivity. }
  pose proof (check_for_misplaced_cmake_files_reports w (package_dir paths spec) spec)
    as Hr.
  assert (Hne : misplaced_cmake_files w (package_dir paths spec) <> [])
    by (intros E; rewrite E in Hm; destruct Hm).
  destruct (reports_error Hr Hne) as [Hres Hpaths].
  assert (Hincl : incl (trace (check_for_misplaced_cmake_files
                                 w (package_dir paths spec) spec)) t).
  { eapply perform_all_checks_trace_incl; [exact H|].
    unfold checks_run. rewrite He. find_check. }
  assert (Hiff : forall ps,
             In (PrintPaths ps) (trace (check_for_misplaced_cmake_files
                                          w (package_dir paths spec) spec))
             <-> ps = misplaced_cmake_files w (package_dir paths spec))
    by (destruct Hr as [[Hx _] | (_ & _ & Hiff)]; [contradiction | exact Hiff]).
  split; [|split; [|split; [|split; [|split]]]].
  - destruct Hdir as [-> | ->].
    + eapply perform_all_checks_counts_two
        with (l1 := [ check_for_files_in_include_directory
                        w (policies build_info) (package_dir paths spec);
                      check_for_files_in_debug_include_directory w (package_dir paths spec);
                      check_for_files_in_debug_share_directory w (package_dir paths spec) ])
             (c1 := check_folder_lib_cmake w (package_dir paths spec) spec)
             (l2 := [])
             (c2 := check_for_misplaced_cmake_files w (package_dir paths spec) spec);
        [ exact H
        | unfold checks_run; rewrite He; cbn [app]; reflexivity
        | unfold check_folder_lib_cmake; cbv zeta; rewrite Hex; reflexivity
        | exact Hres ].
    + eapply perform_all_checks_counts_two
        with (l1 := [ check_for_files_in_include_directory
                        w (policies build_info) (package_dir paths spec);
                      check_for_files_in_debug_include_directory w (package_dir paths spec);
                      check_for_files_in_debug_share_directory w (package_dir paths spec);
                      check_folder_lib_cmake w (package_dir paths spec) spec ])
             (c1 := check_for_misplaced_cmake_files w (package_dir paths spec) spec)
             (l2 := [])
             (c2 := check_folder_debug_lib_cmake w (package_dir paths spec) spec);
        [ exact H
        | unfold checks_run; rewrite He; cbn [app]; reflexivity
        | exact Hres
        | unfold check_folder_debug_lib_cmake; cbv zeta; rewrite Hex; reflexivity ].
  - exists (misplaced_cmake_files w (package_dir paths spec)).
    assert (Hp : In (PrintPaths (misplaced_cmake_files w (package_dir paths spec)))
                    (trace (check_for_misplaced_cmake_files
                              w (package_dir paths spec) spec)))
      by (apply Hiff; reflexivity).
    split; [exact Hp|]. split; [apply Hincl; exact Hp | exact Hm].
  - intros ps Hps. apply Hiff in Hps. subst ps. exact Hm.
  - intros ->.
    eapply perform_all_checks_trace_incl with
      (c := check_folder_lib_cmake w (package_dir paths spec) spec);
      [ exact H
      | unfold checks_run; rewrite He; find_check
      | unfold check_folder_lib_cmake; cbv zeta; rewrite Hex; left; reflexivity ].
  - intros ->.
    eapply perform_all_checks_trace_incl with
      (c := check_folder_debug_lib_cmake w (package_dir paths spec) spec);
      [ exact H
      | unfold checks_run; rewrite He; find_check
      | unfold check_folder_debug_lib_cmake; cbv zeta; rewrite Hex; left; reflexivity ].
  - exact Hincl.
Qed.

Lemma cmake_files_are_counted_twice_witness :
  result (perform_all_checks
            Cases.untidy Sample.spec (Sample.paths EmptyString)
            (Sample.pre None (Some RELEASE)) (Sample.build DYNAMIC []))
  = Done 8
  /\ 2 <= 8
  /\ exists ps,
       In (PrintPaths ps)
          (trace (perform_all_checks
                    Cases.untidy Sample.spec (Sample.paths EmptyString)
                    (Sample.pre None (Some RELEASE)) (Sample.build DYNAMIC [])))
       /\ In (Cases.pkg // "lib" // "cmake" // "zlib-config.cmake") ps.
Proof.
  split; [vm_compute; reflexivity|].
  destruct (@cmake_files_are_counted_twice
              Cases.untidy Sample.spec (Sample.paths EmptyString)
              (Sample.pre None (Some RELEASE)) (Sample.build DYNAMIC [])
              (trace (perform_all_checks
                        Cases.untidy Sample.spec (Sample.paths EmptyString)
                        (Sample.pre None (Some RELEASE))
                        (Sample.build DYNAMIC [])))
              8
              (Cases.pkg // "lib" // "cmake")
              (Cases.pkg // "lib" // "cmake" // "zlib-config.cmake")
              eq_refl eq_refl (or_introl eq_refl) eq_refl
              (or_introl eq_refl) eq_refl eq_refl)
    as (Hn & (ps & _ & Hps & Hf) & _).
  split; [exact Hn|].
  exists ps. split; [exact Hps | exact Hf].
Defined.

(** ** Static builds *)

Lemma checks_run_static_shape w spec paths pre_build_info build_info :
  is_enabled (policies build_info) EMPTY_PACKAGE = false ->
  library_linkage build_info = STATIC ->
  exists l1 l3,
    checks_run w spec paths pre_build_info build_info
    = l1 ++ check_no_dlls_present (release_dlls w paths spec ++ debug_dlls w paths spec)
         :: [] ++ check_bin_folders_are_not_present_in_static_build
                    w (package_dir paths spec)
         :: l3.
Proof.
  intros He Hl. unfold checks_run. rewrite He, Hl.
  match goal with
  | |- exists l1 l3, ?a ++ ?b ++ ?c ++ (?d ++ ?e) ++ ?f = _ =>
      exists (a ++ b ++ c), (e ++ f)
  end.
  rewrite <- !app_assoc. reflexivity.
Qed.

Lemma check_bin_folders_error w package_dir :
  fs_exists w (package_dir // "bin") = true
  \/ fs_exists w (package_dir // "debug" // "bin") = true ->
  result (check_bin_folders_are_not_present_in_static_build w package_dir)
  = Done ERROR_DETECTED.
Proof.
  intros H. unfold check_bin_folders_are_not_present_in_static_build. cbv zeta.
  destruct (fs_exists w (package_dir // "bin"));
    destruct (fs_exists w (package_dir // "debug" // "bin"));
    try reflexivity.
  destruct H; discriminate.
Qed.

Lemma check_no_dlls_present_error dlls :
  dlls <> [] ->
  check_no_dlls_present dlls
  = ([Println warning no_dlls_fmt []; PrintPaths dlls], Done ERROR_DETECTED).
Proof. destruct dlls; [congruence | reflexivity]. Qed.

Lemma no_dlls_diagnostic_only_static w spec paths pre_build_info build_info :
  library_linkage build_info <> STATIC
  \/ release_dlls w paths spec ++ debug_dlls w paths spec = [] ->
  emits (not_println_of no_dlls_fmt)
        (perform_all_checks w spec paths pre_build_info build_info).
Proof.
  intros H.
  unfold perform_all_checks, perform_all_checks_and_return_error_count. cbv zeta.
  destruct (library_linkage build_info) eqn:Hl.
  - unfold_checks. emits_auto.
  - destruct H as [H | H]; [congruence|].
    unfold release_dlls, debug_dlls in H. rewrite H.
    change (check_no_dlls_present []) with (@ret LintStatus SUCCESS).
    unfold_checks. emits_auto.
  - unfold_checks. emits_auto.
Qed.

(** X16.  The checks of a static build.  The diagnostic about modules in a
    static build is printed only for a static library linkage and only when
    a file with the extension ".dll" was collected from [bin] or [debug/bin].
    In a static run that returns a count and is not suppressed by
    [EMPTY_PACKAGE], such modules are all listed, those of [bin] before those
    of [debug/bin], and count for 1; an existing folder [bin] or [debug/bin]
    counts for 1 as well, so that a module in [bin] makes the count at
    least 2. *)
Theorem static_build_rejects_modules w spec paths pre_build_info build_info :
  let dlls := release_dlls w paths spec ++ debug_dlls w paths spec in
  let m := perform_all_checks w spec paths pre_build_info build_info in
  let bin_folder :=
    fs_exists w (package_dir paths spec // "bin") = true
    \/ fs_exists w (package_dir paths spec // "debug" // "bin") = true in
  (forall c args,
      In (Println c no_dlls_fmt args) (trace m) ->
      library_linkage build_info = STATIC /\ dlls <> [])
  /\ (forall t n,
        m = (t, Done n) ->
        is_enabled (policies build_info) EMPTY_PACKAGE = false ->
        library_linkage build_info = STATIC ->
        (dlls <> [] ->
         1 <= n /\ In (Println warning no_dlls_fmt []) t /\ In (PrintPaths dlls) t)
        /\ (bin_folder -> 1 <= n)
        /\ (dlls <> [] -> bin_folder -> 2 <= n)).
Proof.
  intros dlls m bin_folder. split.
  - intros c args Hin.
    destruct (library_linkage build_info) eqn:Hl;
      try (exfalso;
           assert (He : emits (not_println_of no_dlls_fmt) m)
             by (apply no_dlls_diagnostic_only_static; left; congruence);
           unfold emits in He; rewrite forallb_forall in He; apply He in Hin;
           unfold not_println_of in Hin; cbn [is_println_of] in Hin;
           rewrite String.eqb_refl in Hin; discriminate Hin).
    split; [reflexivity|]. intros Hd.
    assert (He : emits (not_println_of no_dlls_fmt) m)
      by (apply no_dlls_diagnostic_only_static; right; exact Hd).
    unfold emits in He. rewrite forallb_forall in He. apply He in Hin.
    unfold not_println_of in Hin. cbn [is_println_of] in Hin.
    rewrite String.eqb_refl in Hin. discriminate Hin.
  - intros t n H He Hl.
    destruct (@checks_run_static_shape w spec paths pre_build_info build_info He Hl)
      as (l1 & l3 & Hshape).
    assert (Hin1 : In (check_no_dlls_present dlls)
                      (checks_run w spec paths pre_build_info build_info))
      by (rewrite Hshape; apply in_or_app; right; left; reflexivity).
    assert (Hin2 : In (check_bin_folders_are_not_present_in_static_build
                         w (package_dir paths spec))
                      (checks_run w spec paths pre_build_info build_info))
      by (rewrite Hshape; apply in_or_app; right; right; left; reflexivity).
    split; [|split].
    + intros Hd.
      destruct (@perform_all_checks_counts_check _ _ _ _ _ _ _ _ H Hin1) as [Hn Hincl];
        [rewrite check_no_dlls_present_error by assumption; reflexivity|].
      rewrite check_no_dlls_present_error in Hincl by assumption.
      split; [exact Hn|].
      split; apply Hincl; [left | right; left]; reflexivity.
    + intros Hb.
      apply (@perform_all_checks_counts_check _ _ _ _ _ _ _ _ H Hin2).
      apply check_bin_folders_error. exact Hb.
    + intros Hd Hb.
      eapply perform_all_checks_counts_two; [exact H | exact Hshape | |].
      * rewrite check_no_dlls_present_error by assumption. reflexivity.
      * apply check_bin_folders_error. exact Hb.
Qed.

Lemma static_build_rejects_modules_witness :
  In (PrintPaths [Sample.pkg // "bin" // "zlib1.dll";
                  Sample.pkg // "debug" // "bin" // "zlibd1.dll"])
     (trace (perform_all_checks
               Sample.w Sample.spec (Sample.paths "dumpbin.exe")
               (Sample.pre (Some "v141") None) (Sample.build STATIC [])))
  /\ 2 <= 2.
Proof.
  destruct (proj2 (static_build_rejects_modules
                     Sample.w Sample.spec (Sample.paths "dumpbin.exe")
                     (Sample.pre (Some "v141") None) (Sample.build STATIC []))
                  (trace (perform_all_checks
                            Sample.w Sample.spec (Sample.paths "dumpbin.exe")
                            (Sample.pre (Some "v141") None) (Sample.build STATIC [])))
                  2 eq_refl eq_refl eq_refl)
    as (Hd & _ & Htwo).
  split.
  - apply Hd. discriminate.
  - apply Htwo; [discriminate | left; reflexivity].
Defined.

(** ** The subprocesses of a run *)

Section EmitsP.

Variable P : Event -> Prop.

Lemma emitsP_ret {A} (a : A) : emitsP P (ret a).
Proof. constructor. Qed.

Lemma emitsP_bind {A B} (m : M A) (f : A -> M B) :
  emitsP P m -> (forall a, emitsP P (f a)) -> emitsP P (bind m f).
Proof.
  unfold emitsP, trace. destruct m as [t [a | fmt args]]; cbn [bind fst]; auto.
  intros Hm Hf. specialize (Hf a). destruct (f a) as [t' r]. cbn [fst] in *.
  apply Forall_app. split; assumption.
Qed.

Lemma emitsP_event {A} (e : Event) (a : A) : P e -> emitsP P ([e], Done a).
Proof. intros H. constructor; [exact H | constructor]. Qed.

Lemma emitsP_println c fmt args : P (Println c fmt args) -> emitsP P (println c fmt args).
Proof. apply emitsP_event. Qed.

Lemma emitsP_print_paths ps : P (PrintPaths ps) -> emitsP P (print_paths ps).
Proof. apply emitsP_event. Qed.

Lemma emitsP_cmd w cmd_line :
  P (CmdExecute cmd_line) -> emitsP P (cmd_execute_and_capture_output w cmd_line).
Proof. apply emitsP_event. Qed.

Lemma emitsP_check_exit cond fmt args : emitsP P (check_exit cond fmt args).
Proof. destruct cond; constructor. Qed.

Lemma emitsP_unreachable {A} : emitsP P (@unreachable A).
Proof. constructor. Qed.

Lemma emitsP_vector_at {A} (l : list A) i : emitsP P (vector_at l i).
Proof. unfold vector_at. destruct (nth_error l i); constructor. Qed.

Lemma emitsP_for_each {A S} (l : list A) (body : A -> S -> M S) :
  (forall a s, In a l -> emitsP P (body a s)) ->
  forall s, emitsP P (for_each l body s).
Proof.
  induction l as [|a l IH]; intros Hb s; cbn [for_each].
  - apply emitsP_ret.
  - apply emitsP_bind; [apply Hb; left; reflexivity|].
    intros s'. apply IH. intros a' s'' Hin. apply Hb. right. exact Hin.
Qed.

Lemma emitsP_for_each_ret {A S R} (l : list A) (body : A -> S -> M (LoopStep S R)) :
  (forall a s, emitsP P (body a s)) ->
  forall s, emitsP P (for_each_ret l body s).
Proof.
  intros Hb. induction l as [|a l IH]; intros s; cbn [for_each_ret].
  - apply emitsP_ret.
  - apply emitsP_bind; auto. intros [s' | r]; auto using emitsP_ret.
Qed.

Lemma emitsP_add_status ec (c : M LintStatus) :
  emitsP P c -> emitsP P (add_status ec c).
Proof. intros H. apply emitsP_bind; auto using emitsP_ret. Qed.

End EmitsP.

Ltac solve_allowed :=
  cbv beta iota;
  first [ solve [eapply allowed_exports; eauto]
        | solve [eapply allowed_headers; eauto]
        | solve [eapply allowed_dependents; eauto]
        | solve [eapply allowed_directives_release; eauto]
        | solve [eapply allowed_directives_debug; eauto] ].

Ltac emitsP_step :=
  first
    [ apply emitsP_ret
    | apply emitsP_check_exit
    | apply emitsP_vector_at
    | apply emitsP_unreachable
    | apply emitsP_println; exact I
    | apply emitsP_print_paths; exact I
    | apply emitsP_cmd; solve_allowed
    | apply emitsP_add_status
    | apply emitsP_for_each; intros
    | apply emitsP_for_each_ret; intros
    | apply emitsP_bind; [|intros]
    | match goal with
      | |- emitsP _ (if ?b then _ else _) => destruct b
      | |- emitsP _ (match ?x with _ => _ end) => destruct x
      end
    | progress cbv beta zeta ].

Ltac emitsP_auto := repeat emitsP_step.

(** X17.  Every subprocess of a run is [dumpbin], with a nonempty path, on
    a file the run collected: in a dynamic build [/exports] on a module of
    [debug/bin] or [bin], [/headers] on such a module only when the system
    name is "WindowsStore", [/dependents] only when the policy
    [ALLOW_OBSOLETE_MSVCRT] is not enabled; in a static build [/directives]
    on a library of [lib], or of [debug/lib] only when the policy
    [ONLY_RELEASE_CRT] is not enabled.  No run executes anything else. *)
Theorem subprocesses_of_a_run w spec paths pre_build_info build_info cmd_line :
  In (CmdExecute cmd_line)
     (trace (perform_all_checks w spec paths pre_build_info build_info)) ->
  empty (dumpbin (get_toolset paths pre_build_info)) = false
  /\ is_enabled (policies build_info) EMPTY_PACKAGE = false
  /\ allowed_cmd w spec paths pre_build_info build_info cmd_line.
Proof.
  intros Hin.
  assert (H : emitsP (fun e => match e with
                               | CmdExecute c =>
                                   empty (dumpbin (get_toolset paths pre_build_info)) = false
                                   /\ is_enabled (policies build_info) EMPTY_PACKAGE = false
                                   /\ allowed_cmd w spec paths pre_build_info build_info c
                               | _ => True
                               end)
                     (perform_all_checks w spec paths pre_build_info build_info)).
  { clear Hin.
    unfold perform_all_checks, perform_all_checks_and_return_error_count.
    unfold_checks. cbv zeta.
    destruct (is_enabled (policies build_info) EMPTY_PACKAGE) eqn:Hempty;
      [emitsP_auto|].
    destruct (empty (dumpbin (get_toolset paths pre_build_info))) eqn:Hdumpbin;
      cbn [negb].
    - destruct (library_linkage build_info); emitsP_auto.
    - destruct (library_linkage build_info) eqn:Hl.
      + destruct (String.eqb (cmake_system_name pre_build_info) "WindowsStore") eqn:Hs;
          [apply String.eqb_eq in Hs|];
          destruct (is_enabled (policies build_info) ALLOW_OBSOLETE_MSVCRT) eqn:Ho;
          cbn [negb];
          unfold debug_dlls, release_dlls;
          repeat first
                 [ apply emitsP_cmd; cbv beta iota;
                   split; [reflexivity|]; split; [reflexivity|]; solve_allowed
                 | emitsP_step ].
      + destruct (is_enabled (policies build_info) ONLY_RELEASE_CRT) eqn:Hr;
          cbn [negb];
          repeat first
                 [ apply emitsP_cmd; cbv beta iota;
                   split; [reflexivity|]; split; [reflexivity|]; solve_allowed
                 | emitsP_step ].
      + emitsP_auto. }
  unfold emitsP in H. rewrite Forall_forall in H. apply (H _ Hin).
Qed.

Lemma subprocesses_of_a_run_witness :
  allowed_cmd Sample.w Sample.spec (Sample.paths "dumpbin.exe")
              (Sample.pre (Some "v141") None) (Sample.build DYNAMIC [])
              (dumpbin_cmd_line Sample.w " /exports " "dumpbin.exe"
                                (Sample.pkg // "bin" // "zlib1.dll")).
Proof.
  apply (subprocesses_of_a_run
           Sample.w Sample.spec (Sample.paths "dumpbin.exe")
           (Sample.pre (Some "v141") None) (Sample.build DYNAMIC [])).
  vm_compute. right. right. left. reflexivity.
Defined.

(** ** Architecture mismatches *)

(** X18.  Given modules that all have the extension ".dll",
    [check_dll_architecture] names a module in its detail exactly when the
    architecture derived from its header differs from the expected one; it
    returns [ERROR_DETECTED] exactly when there is such a module and
    [SUCCESS], in silence, otherwise. *)
Theorem check_dll_architecture_spec w expected_architecture files :
  (forall f, In f files -> extension w f = ".dll") ->
  let m := check_dll_architecture w expected_architecture files in
  (forall f, In (Println plain "    %s" [ArgString f]) (trace m)
             <-> In f files /\ dll_architecture w f <> expected_architecture)
  /\ (result m = Done ERROR_DETECTED
      <-> exists f, In f files /\ dll_architecture w f <> expected_architecture)
  /\ (m = ([], Done SUCCESS)
      <-> forall f, In f files -> dll_architecture w f = expected_architecture).
Proof.
  intros Hext m.
  destruct (invalid_architecture_report
              (fun f => Some (dll_architecture w f)) expected_architecture files
              (m := m) (@check_dll_architecture_eq w expected_architecture files Hext))
    as (Hin & Hout & Hs & He).
  split; [|split].
  - intros f. split.
    + intros H. apply Hout in H as (Hf & a & Ha & Hne). inversion Ha; subst. auto.
    + intros (Hf & Hne). eapply Hin; eauto.
  - rewrite He. split.
    + intros (f & a & Hf & Ha & Hne). inversion Ha; subst. eauto.
    + intros (f & Hf & Hne). eauto.
  - split.
    + intros E f Hf.
      destruct (String.eqb (dll_architecture w f) expected_architecture) eqn:Eq;
        [apply String.eqb_eq in Eq; exact Eq|].
      apply String.eqb_neq in Eq. exfalso.
      assert (Hres : result m = Done ERROR_DETECTED) by (apply He; eauto).
      rewrite E in Hres. discriminate Hres.
    + intros Hall. apply Hs. intros f a Hf Ha. inversion Ha; subst. auto.
Qed.

Lemma check_dll_architecture_spec_witness :
  In (Println plain "    %s" [ArgString (Sample.pkg // "bin" // "zlib1.dll")])
     (trace (check_dll_architecture Sample.w "x86" [Sample.pkg // "bin" // "zlib1.dll"]))
  /\ check_dll_architecture Sample.w "x64" [Sample.pkg // "bin" // "zlib1.dll"]
     = ([], Done SUCCESS).
Proof.
  assert (Hext : forall f, In f [Sample.pkg // "bin" // "zlib1.dll"] ->
                           extension Sample.w f = ".dll")
    by (intros f [<- | []]; reflexivity).
  split.
  - apply (proj1 (check_dll_architecture_spec Sample.w "x86" _ Hext)).
    split; [left; reflexivity | discriminate].
  - apply (proj2 (proj2 (check_dll_architecture_spec Sample.w "x64" _ Hext))).
    intros f [<- | []]. reflexivity.
Defined.

(** X19.  On a Windows host, given archives that all have the extension
    ".lib" and exactly one machine type, [check_lib_architecture] names an
    archive in its detail exactly when the architecture of that machine type
    differs from the expected one; it returns [ERROR_DETECTED] exactly when
    there is such an archive and [SUCCESS], in silence, otherwise. *)
Theorem check_lib_architecture_spec w expected_architecture files :
  WIN32 w = true ->
  (forall f, In f files ->
             extension w f = ".lib" /\ length (machine_types (read_lib w f)) = 1%nat) ->
  let m := check_lib_architecture w expected_architecture files in
  let mismatch f :=
    exists mt, machine_types (read_lib w f) = [mt]
               /\ get_actual_architecture mt <> expected_architecture in
  (forall f, In (Println plain "    %s" [ArgString f]) (trace m)
             <-> In f files /\ mismatch f)
  /\ (result m = Done ERROR_DETECTED <-> exists f, In f files /\ mismatch f)
  /\ (m = ([], Done SUCCESS) <-> ~ exists f, In f files /\ mismatch f).
Proof.
  intros Hw Hok m mismatch.
  destruct (invalid_architecture_report
              (lib_architecture w) expected_architecture files
              (m := m) (@check_lib_architecture_eq w expected_architecture files Hw Hok))
    as (Hin & Hout & Hs & He).
  assert (Hm : forall f, In f files ->
                         (mismatch f <-> exists a, lib_architecture w f = Some a
                                                   /\ a <> expected_architecture)).
  { intros f Hf. destruct (Hok f Hf) as [_ Hl]. unfold mismatch, lib_architecture.
    destruct (machine_types (read_lib w f)) as [|mt [|mt' l]]; try discriminate Hl.
    split.
    - intros (mt0 & E & Hne). inversion E; subst. eauto.
    - intros (a & E & Hne). inversion E; subst. eauto. }
  split; [|split].
  - intros f. split.
    + intros H. apply Hout in H as (Hf & Ha). split; [assumption|].
      apply Hm; assumption.
    + intros (Hf & Hmis). apply (Hm f Hf) in Hmis as (a & Ha & Hne). eapply Hin; eauto.
  - rewrite He. split.
    + intros (f & a & Hf & Ha & Hne). exists f. split; [assumption|].
      apply Hm; eauto.
    + intros (f & Hf & Hmis). apply (Hm f Hf) in Hmis as (a & Ha & Hne). eauto.
  - split.
    + intros E (f & Hf & Hmis). apply (Hm f Hf) in Hmis as (a & Ha & Hne).
      assert (Hres : result m = Done ERROR_DETECTED) by (apply He; eauto).
      rewrite E in Hres. discriminate Hres.
    + intros Hnone. apply Hs. intros f a Hf Ha.
      destruct (String.eqb a expected_architecture) eqn:Eq;
        [apply String.eqb_eq in Eq; exact Eq|].
      apply String.eqb_neq in Eq. exfalso. apply Hnone. exists f.
      split; [assumption|]. apply Hm; eauto.
Qed.

Lemma check_lib_architecture_spec_witness :
  In (Println plain "    %s" [ArgString (Sample.pkg // "lib" // "folly.lib")])
     (trace (check_lib_architecture Sample.folly "x64"
                                    [Sample.pkg // "lib" // "folly.lib"])).
Proof.
  assert (Hok : forall f, In f [Sample.pkg // "lib" // "folly.lib"] ->
                          extension Sample.folly f = ".lib"
                          /\ length (machine_types (read_lib Sample.folly f)) = 1%nat)
    by (intros f [<- | []]; split; reflexivity).
  apply (proj1 (check_lib_architecture_spec Sample.folly "x64"
                  [Sample.pkg // "lib" // "folly.lib"] eq_refl Hok)).
  split; [left; reflexivity|].
  exists I386. split; [reflexivity | discriminate].
Defined.
